(** * Tunisian data collection: collectors, dataset normaliser and merge engine

    A shallow embedding of the Python sources
    [collectors/*.py], [utils/config.py], [collect.py],
    [merge_datasets.py] and [merge_collected_data.py], followed by the
    properties proved about them.

    Conventions of the embedding.
    - A Python [str] is a [string]; every [ascii] stands for one code point
      below 256, so [String.length] is Python's [len].
    - A Python [int] is a [Z]; [//] is [Z.div] (both round towards minus
      infinity for a positive divisor).
    - Remote services (YouTube, Twitter, Reddit, the HuggingFace hub) and the
      file system are inputs: a call to one of them is a function of an
      explicit world state and returns the next world state.
    - [print] calls that report a failure are kept as a list of log events;
      progress output is dropped. *)

From Stdlib Require Import ZArith List String Ascii Bool Lia.
Import ListNotations.

Set Implicit Arguments.

(* ================================================================== *)
(** * Python primitives used by the sources *)
(* ================================================================== *)

Module Py.

Open Scope string_scope.

(** [c.isspace()] for a code point below 256: TAB, LF, VT, FF, CR, the four
    separators FS, GS, RS, US, SPACE, NEL and NBSP. *)
Definition isspace (c : ascii) : bool :=
  let n := N_of_ascii c in
  ((9 <=? n) && (n <=? 13) || (28 <=? n) && (n <=? 32)
   || (n =? 133) || (n =? 160))%N.

(** [c.isupper()] for a code point below 256: A-Z and the Latin-1 capitals
    U+00C0..U+00DE without the multiplication sign U+00D7. *)
Definition isupper (c : ascii) : bool :=
  let n := N_of_ascii c in
  ((65 <=? n) && (n <=? 90)
   || (192 <=? n) && (n <=? 222) && negb (n =? 215))%N.

Definition lower_char (c : ascii) : ascii :=
  if isupper c then ascii_of_N (N_of_ascii c + 32) else c.

(** [s.lower()] *)
Fixpoint lower (s : string) : string :=
  match s with
  | EmptyString => EmptyString
  | String c s' => String (lower_char c) (lower s')
  end.

(** [s.lstrip()] *)
Fixpoint lstrip (s : string) : string :=
  match s with
  | EmptyString => EmptyString
  | String c s' => if isspace c then lstrip s' else s
  end.

(** [s.rstrip()] *)
Fixpoint rstrip (s : string) : string :=
  match s with
  | EmptyString => EmptyString
  | String c s' =>
      match rstrip s' with
      | EmptyString => if isspace c then EmptyString else String c EmptyString
      | r => String c r
      end
  end.

(** [s.strip()] *)
Definition strip (s : string) : string := lstrip (rstrip s).

(** [len(s)] *)
Definition len (s : string) : Z := Z.of_nat (String.length s).

(** Truth value of a [str]: [bool(s)]. *)
Definition truthy (s : string) : bool :=
  match s with EmptyString => false | _ => true end.

(** [sep.join(l)] *)
Fixpoint join (sep : string) (l : list string) : string :=
  match l with
  | [] => ""
  | [x] => x
  | x :: rest => x ++ sep ++ join sep rest
  end.

(** [s.endswith(suffix)] *)
Fixpoint endswith (s suffix : string) : bool :=
  if String.eqb s suffix then true
  else match s with
       | EmptyString => false
       | String _ s' => endswith s' suffix
       end.

(** [l[:n]] for a list and an [int] bound: a negative bound counts from the
    end of the list. *)
Definition slice_to (A : Type) (l : list A) (n : Z) : list A :=
  if (0 <=? n)%Z then firstn (Z.to_nat n) l
  else firstn (Z.to_nat (Z.of_nat (List.length l) + n)) l.

(** [d.get(k)] on a [dict] with [str] keys, kept as an association list with
    distinct keys: [None] when the key is absent. *)
Fixpoint dict_get (V : Type) (d : list (string * V)) (k : string) : option V :=
  match d with
  | [] => None
  | (k', v) :: d' => if String.eqb k' k then Some v else dict_get d' k
  end.

(** [d.get(k, default)] *)
Definition dict_get_default (V : Type) (d : list (string * V)) (k : string)
  (default : V) : V :=
  match dict_get d k with Some v => v | None => default end.

(** The values [json.loads] can produce (numbers are kept as integers: the
    sources only test them for truth and for not being a [str]). *)
#[local] Unset Elimination Schemes.
Inductive value : Type :=
| VNone
| VBool (b : bool)
| VNum (z : Z)
| VStr (s : string)
| VList (l : list value)
| VDict (d : list (string * value)).
#[local] Set Elimination Schemes.

(** A world-passing computation: the remote services and the clock live in
    the world [W]. *)
Definition M (W A : Type) : Type := W -> A * W.

Definition ret (W A : Type) (a : A) : M W A := fun w => (a, w).

Definition bind (W A B : Type) (m : M W A) (k : A -> M W B) : M W B :=
  fun w => let (a, w') := m w in k a w'.

End Py.

Notation "x <- m ;; k" := (Py.bind m (fun x => k))
  (at level 61, m at next level, right associativity).

(* ================================================================== *)
(** * utils/config.py *)
(* ================================================================== *)

Module Config.

Open Scope string_scope.

(** The class attributes of [Config], each the result of [os.getenv]:
    [None] when the variable is unset. *)
Record env : Type := {
  YOUTUBE_API_KEY : option string;
  TWITTER_API_KEY : option string;
  TWITTER_API_SECRET : option string;
  TWITTER_ACCESS_TOKEN : option string;
  TWITTER_ACCESS_SECRET : option string;
  REDDIT_CLIENT_ID : option string;
  REDDIT_CLIENT_SECRET : option string;
  REDDIT_USER_AGENT : option string
}.

(** Truth value of an attribute: [None] and the empty string are false. *)
Definition truthy (v : option string) : bool :=
  match v with Some s => Py.truthy s | None => false end.

(** [all(l)] *)
Definition all (l : list (option string)) : bool := forallb truthy l.

Definition twitter_creds (e : env) : list (option string) :=
  [TWITTER_API_KEY e; TWITTER_API_SECRET e;
   TWITTER_ACCESS_TOKEN e; TWITTER_ACCESS_SECRET e].

Definition reddit_creds (e : env) : list (option string) :=
  [REDDIT_CLIENT_ID e; REDDIT_CLIENT_SECRET e; REDDIT_USER_AGENT e].

(** The list [missing] built by [validate_config]. *)
Definition missing (e : env) : list string :=
  (if truthy (YOUTUBE_API_KEY e) then [] else ["YOUTUBE_API_KEY"])
  ++ (if all (twitter_creds e) then []
      else ["TWITTER_API_KEY"; "TWITTER_API_SECRET";
            "TWITTER_ACCESS_TOKEN"; "TWITTER_ACCESS_SECRET"])
  ++ (if all (reddit_creds e) then []
      else ["REDDIT_CLIENT_ID"; "REDDIT_CLIENT_SECRET"; "REDDIT_USER_AGENT"]).

Inductive result : Type :=
| Ok
| ValueError (msg : string).

Definition validate_config (e : env) : result :=
  match missing e with
  | [] => Ok
  | m => ValueError ("Missing environment variables: " ++ Py.join ", " m)
  end.

(** The required variables, by name, with the attribute that holds each. *)
Definition required (e : env) : list (string * option string) :=
  [("YOUTUBE_API_KEY", YOUTUBE_API_KEY e);
   ("TWITTER_API_KEY", TWITTER_API_KEY e);
   ("TWITTER_API_SECRET", TWITTER_API_SECRET e);
   ("TWITTER_ACCESS_TOKEN", TWITTER_ACCESS_TOKEN e);
   ("TWITTER_ACCESS_SECRET", TWITTER_ACCESS_SECRET e);
   ("REDDIT_CLIENT_ID", REDDIT_CLIENT_ID e);
   ("REDDIT_CLIENT_SECRET", REDDIT_CLIENT_SECRET e);
   ("REDDIT_USER_AGENT", REDDIT_USER_AGENT e)].

End Config.

(* ================================================================== *)
(** * merge_datasets.py *)
(* ================================================================== *)

Module MergeDatasets.

Open Scope string_scope.
Open Scope list_scope.
Open Scope Z_scope.

(** One row of a data frame with the columns [source], [source_id], [text]
    and [label].  [None] in [source_id] and [text] is a missing value
    ([np.nan] or [None]); the type [L] of the label is [option Z] while
    labels may still be [np.nan] and [Z] after [fillna(0).astype(int)]. *)
Record row (L : Type) : Type := {
  source : Py.value;
  source_id : option Py.value;
  text : option string;
  label : L
}.

(** The classes of the shared scheme: 0 unknown or neutral, 1 positive,
    2 negative. *)
Definition scheme_class (z : Z) : Prop := z = 0 \/ z = 1 \/ z = 2.

(** Failure reports printed by the module. *)
Inductive event : Type :=
| ArsasLoadError
| TsacLoadError
| DirectoryMissing
| NoJsonlFiles
| JsonDecodeError (filename : string) (line_num : Z)
| UnexpectedError (filename : string) (line_num : Z)
| NoDataProcessed
| ExcelNotFound
| ErrorOccurred
| MergeFailed.

(** ** process_excel_data *)

(** The sheet [pd.read_excel] returns: which of the columns [label] and
    [post] it has, and its rows; an empty cell is [None]. *)
Record sheet_row : Type := { cell_label : option string; cell_post : option string }.

Record sheet : Type := {
  has_label : bool;
  has_post : bool;
  sheet_rows : list sheet_row
}.

(** The file behind [excel_path]. *)
Inductive excel_file : Type :=
| ExcelMissing
| ExcelUnreadable
| ExcelSheet (s : sheet).

Definition excel_label_mapping : list (string * Z) :=
  [("anger", 2); ("disgust", 2); ("fear", 2); ("pessimism", 2); ("sadness", 2);
   ("happiness", 1); ("optimism", 1);
   ("anticipation", 0); ("confusion", 0); ("neutral", 0); ("surprise", 0)].

(** [label_mapping.get(str(orig).strip().lower(), 0)] *)
Definition excel_map_label (orig : string) : Z :=
  Py.dict_get_default excel_label_mapping (Py.lower (Py.strip orig)) 0.

Definition process_excel_row (s : sheet) (r : sheet_row) : row (option Z) :=
  let orig := if has_label s then cell_label r else None in
  let mapped := match orig with
                | Some o => Some (excel_map_label o)
                | None => None
                end in
  {| source := Py.VStr "youtube";
     source_id := None;
     text := if has_post s then cell_post r else Some "";
     label := mapped |}.

Definition process_excel_data (s : sheet) : list (row (option Z)) :=
  map (process_excel_row s) (sheet_rows s).

(** ** process_arsas_dataset and process_tsac_dataset *)

(** One item of a HuggingFace dataset: a [dict] whose fields hold a [str]
    or [None]. *)
Definition item : Type := list (string * option string).

(** What [load_dataset] does: it raises, or returns a [DatasetDict] (the
    splits by name), a single [Dataset], or some other object (one without
    [keys()]). *)
Inductive hf_load : Type :=
| HfError
| HfDatasetDict (splits : list (string * list item))
| HfDataset (ds : list item)
| HfOther.

(** [item.get(k)]: [None] for an absent field. *)
Definition item_get (i : item) (k : string) : option string :=
  match Py.dict_get i k with Some v => v | None => None end.

(** [a or b] on values that are a [str] or [None]. *)
Definition or_else (a b : option string) : option string :=
  if Config.truthy a then a else b.

Definition arsas_label_mapping : list (string * Z) :=
  [("positive", 1); ("pos", 1); ("negative", 2); ("neg", 2);
   ("neutral", 0); ("mixed", 0)].

(** [label_mapping.get(str(raw_label).strip().lower(), 0)] *)
Definition arsas_map_label (raw_label : string) : Z :=
  Py.dict_get_default arsas_label_mapping (Py.lower (Py.strip raw_label)) 0.

Definition process_arsas_item (i : item) : row (option Z) :=
  let tweet_id :=
    or_else (item_get i "Tweet_ID") (or_else (item_get i "tweet_id") (item_get i "id")) in
  let tweet_text :=
    or_else (item_get i "Tweet_text")
      (or_else (item_get i "tweet_text") (or_else (item_get i "text") (Some ""))) in
  let raw_label :=
    or_else (item_get i "label")
      (or_else (item_get i "sentiment")
         (or_else (item_get i "Sentiment_label_confidence") (Some ""))) in
  {| source := Py.VStr "twitter";
     source_id := if Config.truthy tweet_id
                  then option_map Py.VStr tweet_id else None;
     text := Some (match tweet_text with Some t => t | None => "" end);
     label := Some (arsas_map_label
                      (match raw_label with Some l => l | None => "" end)) |}.

Definition process_splits (A : Type) (f : item -> A)
  (splits : list (string * list item)) : list A :=
  flat_map (fun split => map f (snd split)) splits.

(** [None] stands for an exception that leaves the function. *)
Definition process_arsas_dataset (d : hf_load)
  : option (list (row (option Z))) * list event :=
  match d with
  | HfError => (None, [ArsasLoadError])
  | HfDatasetDict splits => (Some (process_splits process_arsas_item splits), [])
  | HfDataset ds => (Some (process_splits process_arsas_item [("train", ds)]), [])
  | HfOther => (None, [])
  end.

Definition tsac_label_mapping : list (string * Z) :=
  [("Positive", 1); ("Negative", 2); ("Neutral", 0)].

(** [label_mapping.get(label, 0)]; [None] is not a key. *)
Definition tsac_map_label (label : option string) : Z :=
  match label with
  | Some l => Py.dict_get_default tsac_label_mapping l 0
  | None => 0
  end.

(** [item.get(k, default)]: the stored value, also when it is [None]. *)
Definition item_get_default (i : item) (k : string) (default : option string)
  : option string :=
  Py.dict_get_default i k default.

Definition process_tsac_item (i : item) : row (option Z) :=
  let text :=
    item_get_default i "sentence"
      (item_get_default i "text" (item_get_default i "content" (Some ""))) in
  let label := item_get_default i "label" (item_get_default i "sentiment" (Some "")) in
  {| source := Py.VStr "facebook";
     source_id := None;
     text := text;
     label := Some (tsac_map_label label) |}.

(** Every exception is caught: the result is then an empty frame. *)
Definition process_tsac_dataset (d : hf_load)
  : list (row (option Z)) * list event :=
  match d with
  | HfDatasetDict splits => (process_splits process_tsac_item splits, [])
  | HfError | HfDataset _ | HfOther => ([], [TsacLoadError])
  end.

(** ** process_jsonl_files *)

(** One batch file: its name and, for every line in order, what
    [json.loads(line.strip())] gives; [None] is a [json.JSONDecodeError]. *)
Definition batch_file : Type := string * list (option Py.value).

(** The batch directory as [os.listdir] shows it; [None] when the path does
    not exist. *)
Definition directory : Type := option (list batch_file).

(** Truth value of a parsed value. *)
Definition value_truthy (v : Py.value) : bool :=
  match v with
  | Py.VNone => false
  | Py.VBool b => b
  | Py.VNum z => negb (z =? 0)
  | Py.VStr s => Py.truthy s
  | Py.VList l => match l with [] => false | _ => true end
  | Py.VDict d => match d with [] => false | _ => true end
  end.

(** [data.get('text_raw', data.get('text', data.get('content', '')))] *)
Definition extract_text (data : list (string * Py.value)) : Py.value :=
  Py.dict_get_default data "text_raw"
    (Py.dict_get_default data "text"
       (Py.dict_get_default data "content" (Py.VStr ""))).

(** A text that is missing ([None]), empty, or white space only. *)
Definition blank_text (v : Py.value) : bool :=
  match v with
  | Py.VNone => true
  | Py.VStr t => negb (Py.truthy (Py.strip t))
  | _ => false
  end.

(** A row whose text is there, is not empty and is already trimmed. *)
Definition trimmed_text (A : Type) (r : row A) : Prop :=
  exists t, text r = Some t /\ t <> "" /\ Py.strip t = t.

(** The body of the [try] for one line, with the label the module gives its
    rows.  The result is the rows appended and the reports printed.  A
    value that is no [dict] has no [get], and a true text that is no [str]
    has no [strip]: both leave through [except Exception]. *)
Definition process_line (L : Type) (lbl : L) (filename : string) (line_num : Z)
  (parsed : option Py.value) : list (row L) * list event :=
  match parsed with
  | None => ([], [JsonDecodeError filename line_num])
  | Some (Py.VDict data) =>
      let source := Py.dict_get_default data "source" (Py.VStr "unknown") in
      let source_id :=
        match Py.dict_get data "id" with
        | Some v => Some v
        | None => Py.dict_get data "source_id"
        end in
      let text := extract_text data in
      if value_truthy text then
        match text with
        | Py.VStr t =>
            if Py.truthy (Py.strip t) then
              ([{| source := source; source_id := source_id;
                   text := Some (Py.strip t); label := lbl |}], [])
            else ([], [])
        | _ => ([], [UnexpectedError filename line_num])
        end
      else ([], [])
  | Some _ => ([], [UnexpectedError filename line_num])
  end.

(** [for line_num, line in enumerate(f, 1)] from line number [line_num]. *)
Fixpoint process_lines (L : Type) (lbl : L) (filename : string) (line_num : Z)
  (lines : list (option Py.value)) : list (row L) * list event :=
  match lines with
  | [] => ([], [])
  | l :: rest =>
      let (rows1, log1) := process_line lbl filename line_num l in
      let (rows2, log2) := process_lines lbl filename (line_num + 1) rest in
      (rows1 ++ rows2, log1 ++ log2)
  end.

Definition process_file (L : Type) (lbl : L) (f : batch_file)
  : list (row L) * list event :=
  if Py.endswith (fst f) ".jsonl" then process_lines lbl (fst f) 1 (snd f)
  else ([], []).

Fixpoint process_files (L : Type) (lbl : L) (files : list batch_file)
  : list (row L) * list event :=
  match files with
  | [] => ([], [])
  | f :: rest =>
      let (rows1, log1) := process_file lbl f in
      let (rows2, log2) := process_files lbl rest in
      (rows1 ++ rows2, log1 ++ log2)
  end.

Definition jsonl_files_found (files : list batch_file) : bool :=
  existsb (fun f => Py.endswith (fst f) ".jsonl") files.

Definition process_jsonl_files_with (L : Type) (lbl : L) (d : directory)
  : list (row L) * list event :=
  match d with
  | None => ([], [DirectoryMissing])
  | Some files =>
      let (rows, log) := process_files lbl files in
      (rows, log ++ (if jsonl_files_found files then [] else [NoJsonlFiles]))
  end.

(** Rows of batch files carry no label ([np.nan]). *)
Definition process_jsonl_files (d : directory)
  : list (row (option Z)) * list event :=
  process_jsonl_files_with (@None Z) d.

(** ** merge_all_datasets *)

(** [fillna(0).astype(int)] on the label column. *)
Definition fillna0 (r : row (option Z)) : row Z :=
  {| source := source r; source_id := source_id r; text := text r;
     label := match label r with Some l => l | None => 0 end |}.

(** Equality of two cells of the [text] column as [drop_duplicates] sees
    it: equal strings, or two missing values. *)
Definition text_eqb (a b : option string) : bool :=
  match a, b with
  | Some x, Some y => String.eqb x y
  | None, None => true
  | _, _ => false
  end.

(** [drop_duplicates(subset=['text'])], which keeps the first row of each
    text; [seen] holds the texts of the rows already passed. *)
Fixpoint drop_duplicates_from (L : Type) (seen : list (option string))
  (l : list (row L)) : list (row L) :=
  match l with
  | [] => []
  | r :: rest =>
      if existsb (text_eqb (text r)) seen then drop_duplicates_from seen rest
      else r :: drop_duplicates_from (text r :: seen) rest
  end.

Definition drop_duplicates (L : Type) (l : list (row L)) : list (row L) :=
  drop_duplicates_from [] l.

(** [text.str.strip().str.len() > 5]; a missing text gives [NaN > 5],
    which is false. *)
Definition long_enough (L : Type) (r : row L) : bool :=
  match text r with
  | Some t => 5 <? Py.len (Py.strip t)
  | None => false
  end.

(** How [merge_all_datasets] ends: an exception leaves it, it returns the
    empty frame without writing, or it writes the final table. *)
Inductive outcome : Type :=
| Raised
| NoData
| Written (table : list (row Z)).

(** The frames of the four origins in the order of [pd.concat], without
    the empty ones. *)
Definition non_empty_frames (A : Type) (dfs : list (list A)) : list (list A) :=
  filter (fun df => 0 <? Z.of_nat (List.length df)) dfs.

(** The steps after the four origins are loaded. *)
Definition merge_frames (dfs : list (list (row (option Z)))) : outcome * list event :=
  match non_empty_frames dfs with
  | [] => (NoData, [NoDataProcessed])
  | all_dfs =>
      let final_df := map fillna0 (List.concat all_dfs) in
      let final_df := drop_duplicates final_df in
      let final_df := filter (@long_enough Z) final_df in
      (Written final_df, [])
  end.

Definition merge_all_datasets (excel : excel_file) (arsas tsac : hf_load)
  (jsonl_directory : directory) : outcome * list event :=
  match excel with
  | ExcelMissing | ExcelUnreadable => (Raised, [])
  | ExcelSheet s =>
      let excel_df := process_excel_data s in
      match process_arsas_dataset arsas with
      | (None, log1) => (Raised, log1)
      | (Some arsas_df, log1) =>
          let (tsac_df, log2) := process_tsac_dataset tsac in
          let (jsonl_df, log3) := process_jsonl_files jsonl_directory in
          let (out, log4) := merge_frames [excel_df; arsas_df; tsac_df; jsonl_df] in
          (out, log1 ++ log2 ++ log3 ++ log4)
      end
  end.

(** [main]: the table returned, if any, and the reports. *)
Definition main (excel : excel_file) (arsas tsac : hf_load)
  (jsonl_directory : directory) : outcome * list event :=
  match excel with
  | ExcelMissing => (Raised, [ExcelNotFound])
  | _ =>
      let (out, log) := merge_all_datasets excel arsas tsac jsonl_directory in
      match out with
      | Raised => (Raised, log ++ [ErrorOccurred])
      | NoData => (NoData, log ++ [MergeFailed])
      | Written [] => (out, log ++ [MergeFailed])
      | Written _ => (out, log)
      end
  end.



(** The table after [pd.concat] and [fillna(0)]: the rows of the
    spreadsheet, of ArSAS, of TSAC and of the batch files, in this order. *)
Definition concatenated (s : sheet) (arsas_df : list (row (option Z)))
  (tsac : hf_load) (jsonl_directory : directory) : list (row Z) :=
  map fillna0
    (process_excel_data s ++ arsas_df ++ fst (process_tsac_dataset tsac)
     ++ fst (process_jsonl_files jsonl_directory)).

End MergeDatasets.

(* ================================================================== *)
(** * merge_collected_data.py *)
(* ================================================================== *)

Module MergeCollectedData.

(** The same loop as in [merge_datasets.py], with the label always [0]. *)
Definition process_jsonl_files (d : MergeDatasets.directory)
  : list (MergeDatasets.row Z) * list MergeDatasets.event :=
  MergeDatasets.process_jsonl_files_with 0%Z d.

End MergeCollectedData.

(* ================================================================== *)
(** * collectors/base_collector.py *)
(* ================================================================== *)

Module BaseCollector.

(** A collected record.  The fields every platform sets and the properties read
    are kept; the platform-specific counters and timestamps ([likes],
    [score], [created_at], [collection_timestamp], ...) are copied from the
    upstream item without a test on them and are left out. *)
Record record : Type := {
  source : string;
  id : string;
  text_raw : string;
  user : string;
  collection_method : option string;
  search_keywords : option (list string)
}.

(** The state of a collector object: whether its client handle is set, and
    [self.collected_data]. *)
Record collector : Type := {
  client : bool;
  collected_data : list record
}.

(** [BaseCollector.__init__] *)
Definition init : collector := {| client := false; collected_data := [] |}.

Definition set_client (c : collector) : collector :=
  {| client := true; collected_data := collected_data c |}.

(** [self.collected_data.extend(comments)] *)
Definition extend (c : collector) (comments : list record) : collector :=
  {| client := client c; collected_data := collected_data c ++ comments |}.

(** [comment['collection_method'] = m] *)
Definition set_method (m : string) (r : record) : record :=
  {| source := source r; id := id r; text_raw := text_raw r; user := user r;
     collection_method := Some m; search_keywords := search_keywords r |}.

(** [comment['collection_method'] = 'keyword_search';
     comment['search_keywords'] = keywords] *)
Definition set_keyword_search (keywords : list string) (r : record) : record :=
  {| source := source r; id := id r; text_raw := text_raw r; user := user r;
     collection_method := Some "keyword_search"%string;
     search_keywords := Some keywords |}.


(** [get_stats()['total_collected']] *)
Definition total_collected (c : collector) : Z :=
  Z.of_nat (List.length (collected_data c)).

(** What a collector method does to the collector [c]: [collected_data]
    grows by the records returned, and a client that is set stays set. *)
Definition grows_by (c : collector) (r : list record * collector) : Prop :=
  collected_data (snd r) = collected_data c ++ fst r
  /\ (client c = true -> client (snd r) = true).

(** A record of the platform [src], collected by the method [m], with the
    search keywords [ks] (or none). *)
Definition tagged (src m : string) (ks : option (list string)) (r : record)
  : Prop :=
  source r = src /\ collection_method r = Some m /\ search_keywords r = ks.

End BaseCollector.

(* ================================================================== *)
(** * collectors/youtube_collector.py *)
(* ================================================================== *)

Module YouTubeCollector.

Import BaseCollector.
Open Scope string_scope.
Open Scope list_scope.
Open Scope Z_scope.

(** One element of [response['items']] of a comment listing: either the
    subscripts the code reads are there, or reading them raises. *)
Inductive thread : Type :=
| Malformed
| Thread (item_id textDisplay authorDisplayName : string).

(** What [commentThreads().list(...).execute()] does. *)
Inductive response : Type :=
| HttpError (status : Z)
| OtherError
| Page (items : list thread) (nextPageToken : option string).

(** What [search().list(...).execute()] does; an item is the video id under
    [item['id']['videoId']], or [None] when reading it raises. *)
Inductive search_response : Type :=
| SearchError
| SearchPage (items : list (option string)).

Section Api.

Variable W : Type.

(** [build('youtube', 'v3', developerKey=...)]: whether a client results. *)
Variable build : Py.M W bool.

(** The comment listing, by [videoId], [maxResults] and [pageToken]. *)
Variable commentThreads_list : string -> Z -> option string -> Py.M W response.

(** The video search, by [q] and [maxResults]. *)
Variable search_list : string -> Z -> Py.M W search_response.

Variable env : Config.env.

Definition authenticate (c : collector) : Py.M W (bool * collector) :=
  if Config.truthy (Config.YOUTUBE_API_KEY env) then
    ok <- build ;;
    Py.ret (ok, if ok then set_client c else c)
  else Py.ret (false, c).

(** The [comment_data] dictionary of a well-formed item. *)
Definition comment_data (i t u : string) : record :=
  {| source := "youtube"; id := i; text_raw := t; user := u;
     collection_method := Some "direct_id"; search_keywords := None |}.

(** The [for item in response.get('items', [])] loop: the comments and the
    count after it, and whether an exception ended it. *)
Fixpoint page_loop (items : list thread) (max_results : Z)
  (comments : list record) (total_collected : Z)
  : list record * Z * bool :=
  match items with
  | [] => (comments, total_collected, false)
  | Malformed :: _ => (comments, total_collected, true)
  | Thread i t u :: rest =>
      let comments := comments ++ [comment_data i t u] in
      let total_collected := total_collected + 1 in
      if total_collected >=? max_results then (comments, total_collected, false)
      else page_loop rest max_results comments total_collected
  end.

(** The [while total_collected < max_results] loop, with a bound [fuel] on
    the number of pages requested; [None] when the bound is reached. *)
Fixpoint pages_loop (fuel : nat) (video_id : string) (max_results : Z)
  (next_page_token : option string) (comments : list record)
  (total_collected : Z) : Py.M W (option (list record)) :=
  if total_collected <? max_results then
    match fuel with
    | O => Py.ret None
    | S fuel' =>
        let remaining := max_results - total_collected in
        let request_max := Z.min 100 remaining in
        resp <- commentThreads_list video_id request_max next_page_token ;;
        match resp with
        | HttpError _ | OtherError => Py.ret (Some comments)
        | Page [] _ => Py.ret (Some comments)
        | Page items next =>
            let '(comments', total', raised) :=
              page_loop items max_results comments total_collected in
            if raised then Py.ret (Some comments')
            else if Config.truthy next then
              pages_loop fuel' video_id max_results next comments' total'
            else Py.ret (Some comments')
        end
    end
  else Py.ret (Some comments).

(** The record of every well-formed item the comment listing returns
    satisfies [P]. *)
Definition listing_satisfies (P : record -> Prop) : Prop :=
  forall v m tok w,
    match fst (commentThreads_list v m tok w) with
    | Page items _ =>
        forall i t u, In (Thread i t u) items -> P (comment_data i t u)
    | _ => True
    end.

(** Every page that does not end the loop adds a comment, so [max_results]
    pages are enough (see [pages_loop_enough]). *)
Definition _get_video_comments (video_id : string) (max_results : Z)
  : Py.M W (list record) :=
  r <- pages_loop (Z.to_nat max_results) video_id max_results None [] 0 ;;
  Py.ret (match r with Some comments => comments | None => [] end).

Definition collect_by_id (c : collector) (video_id : string) (limit : Z)
  : Py.M W (list record * collector) :=
  a <- (if client c then Py.ret (true, c) else authenticate c) ;;
  let (ok, c) := a in
  if ok then
    comments <- _get_video_comments video_id limit ;;
    Py.ret (comments, extend c comments)
  else Py.ret ([], c).

(** The [for item in response.get('items', [])] loop of the video search. *)
Fixpoint take_video_ids (items : list (option string)) (max_videos : Z)
  (video_ids : list string) : list string :=
  match items with
  | [] => video_ids
  | None :: _ => video_ids
  | Some v :: rest =>
      let video_ids := video_ids ++ [v] in
      if Z.of_nat (List.length video_ids) >=? max_videos then video_ids
      else take_video_ids rest max_videos video_ids
  end.

Fixpoint search_keywords_loop (keywords : list string) (max_videos : Z)
  (video_ids : list string) : Py.M W (list string) :=
  match keywords with
  | [] => Py.ret video_ids
  | keyword :: rest =>
      resp <- search_list keyword
                (Z.min 50 (max_videos - Z.of_nat (List.length video_ids))) ;;
      search_keywords_loop rest max_videos
        (match resp with
         | SearchError => video_ids
         | SearchPage items => take_video_ids items max_videos video_ids
         end)
  end.

Definition _search_videos_by_keywords (keywords : list string) (max_videos : Z)
  : Py.M W (list string) :=
  search_keywords_loop keywords max_videos [].

(** The [for video_id in video_ids] loop of [_search_and_collect]. *)
Fixpoint videos_loop (keywords : list string) (video_ids : list string)
  (limit comments_per_video : Z) (comments : list record)
  : Py.M W (list record) :=
  match video_ids with
  | [] => Py.ret comments
  | video_id :: rest =>
      if Z.of_nat (List.length comments) >=? limit then Py.ret comments
      else
        video_comments <- _get_video_comments video_id comments_per_video ;;
        videos_loop keywords rest limit comments_per_video
          (comments ++ map (set_keyword_search keywords) video_comments)
  end.

Definition _search_and_collect (keywords : list string) (limit : Z)
  : Py.M W (list record) :=
  video_ids <- _search_videos_by_keywords keywords 10 ;;
  match video_ids with
  | [] => Py.ret []
  | _ =>
      let comments_per_video :=
        Z.max 1 (limit / Z.of_nat (List.length video_ids)) in
      videos_loop keywords video_ids limit comments_per_video []
  end.

Definition collect_by_keywords (c : collector) (keywords : list string)
  (limit : Z) : Py.M W (list record * collector) :=
  a <- (if client c then Py.ret (true, c) else authenticate c) ;;
  let (ok, c) := a in
  if ok then
    comments <- _search_and_collect keywords limit ;;
    Py.ret (comments, extend c comments)
  else Py.ret ([], c).

End Api.

End YouTubeCollector.

(* ================================================================== *)
(** * collectors/twitter_collector.py *)
(* ================================================================== *)

Module TwitterCollector.

Import BaseCollector.
Open Scope string_scope.
Open Scope list_scope.
Open Scope Z_scope.

(** The attributes of a status object the code reads. *)
Record tweet : Type := {
  id_str : string;
  full_text : string;
  screen_name : string;
  user_id_str : string;
  in_reply_to_status_id_str : option string;
  in_reply_to_user_id_str : option string
}.

(** What iterating a [tweepy.Cursor] gives: the statuses in order and
    then, when [raises_at_end] is set, an exception instead of the end. *)
Record cursor : Type := {
  statuses : list tweet;
  raises_at_end : bool
}.

(** [cursor.items(limit)] (tweepy 4, which has [search_tweets]): the
    iterator stops before it fetches a status once [limit] of them were
    yielded.  The result is the statuses yielded
    and whether the iteration raised. *)
Definition items (c : cursor) (limit : Z) : list tweet * bool :=
  if limit <=? Z.of_nat (List.length (statuses c))
  then (firstn (Z.to_nat limit) (statuses c), false)
  else (statuses c, raises_at_end c).

Section Api.

Variable W : Type.

(** [api.search_tweets] by query [q] and language, [api.user_timeline] by
    screen name, and [api.get_status], which is [None] when it raises. *)
Variable search_tweets : string -> option string -> Py.M W cursor.
Variable user_timeline : string -> Py.M W cursor.
Variable get_status : string -> Py.M W (option tweet).

(** [tweepy.OAuthHandler(...)] and [tweepy.API(...)]: whether a client
    results. *)
Variable connect : Py.M W bool.

Variable env : Config.env.

Definition authenticate (c : collector) : Py.M W (bool * collector) :=
  if Config.all (Config.twitter_creds env) then
    ok <- connect ;;
    Py.ret (ok, if ok then set_client c else c)
  else Py.ret (false, c).

(** The [tweet_data] dictionary (its [is_reply] entry is among the fields
    left out of [record]). *)
Definition tweet_data (t : tweet) : record :=
  {| source := "twitter"; id := id_str t; text_raw := full_text t;
     user := screen_name t; collection_method := None;
     search_keywords := None |}.

(** The record of every status the timelines, respectively the searches,
    return satisfies [P]. *)
Definition timelines_satisfy (P : record -> Prop) : Prop :=
  forall u w,
    Forall (fun t => P (tweet_data t)) (statuses (fst (user_timeline u w))).

Definition searches_satisfy (P : record -> Prop) : Prop :=
  forall q lang w,
    Forall (fun t => P (tweet_data t)) (statuses (fst (search_tweets q lang w))).

Definition _get_user_tweets (username : string) (max_tweets : Z)
  : Py.M W (list record) :=
  c <- user_timeline username ;;
  Py.ret (map tweet_data (fst (items c max_tweets))).

Definition opt_eqb (a : option string) (b : string) : bool :=
  match a with Some x => String.eqb x b | None => false end.

Definition _get_tweet_replies (tweet_id : string) (max_replies : Z)
  : Py.M W (list record) :=
  o <- get_status tweet_id ;;
  match o with
  | None => Py.ret []
  | Some original_tweet =>
      let conversation_id := id_str original_tweet in
      let query := ("conversation_id:" ++ conversation_id)%string in
      c <- search_tweets query None ;;
      Py.ret (map tweet_data
                (filter (fun t =>
                           opt_eqb (in_reply_to_status_id_str t) tweet_id
                           || opt_eqb (in_reply_to_user_id_str t)
                                (user_id_str original_tweet))
                   (fst (items c max_replies))))
  end.

(** The [id_type] argument. *)
Definition collect_by_id (c : collector) (source_id : string) (limit : Z)
  (id_type : string) : Py.M W (list record * collector) :=
  a <- (if client c then Py.ret (true, c) else authenticate c) ;;
  let (ok, c) := a in
  if ok then
    if String.eqb id_type "username" then
      comments <- _get_user_tweets source_id limit ;;
      let comments := map (set_method "direct_username") comments in
      Py.ret (comments, extend c comments)
    else if String.eqb id_type "tweet_id" then
      comments <- _get_tweet_replies source_id limit ;;
      let comments := map (set_method "direct_tweet_id") comments in
      Py.ret (comments, extend c comments)
    else Py.ret ([], c)
  else Py.ret ([], c).

(** One search per keyword, each iterated up to [max_tweets] statuses. *)
Fixpoint _search_tweets_by_keywords (keywords : list string) (max_tweets : Z)
  : Py.M W (list record) :=
  match keywords with
  | [] => Py.ret []
  | keyword :: rest =>
      c <- search_tweets keyword (Some "ar") ;;
      tweets <- _search_tweets_by_keywords rest max_tweets ;;
      Py.ret (map tweet_data (fst (items c max_tweets)) ++ tweets)
  end.

Definition collect_by_keywords (c : collector) (keywords : list string)
  (limit : Z) : Py.M W (list record * collector) :=
  a <- (if client c then Py.ret (true, c) else authenticate c) ;;
  let (ok, c) := a in
  if ok then
    comments <- _search_tweets_by_keywords keywords limit ;;
    let comments := map (set_keyword_search keywords) comments in
    Py.ret (comments, extend c comments)
  else Py.ret ([], c).

End Api.

End TwitterCollector.

(* ================================================================== *)
(** * collectors/reddit_collector.py *)
(* ================================================================== *)

Module RedditCollector.

Import BaseCollector.
Open Scope string_scope.
Open Scope list_scope.
Open Scope Z_scope.

(** A comment of [submission.comments.list()] after
    [replace_more(limit=0)]; [body] is [None] when the object has no such
    attribute, [author] is [None] for a deleted account. *)
Record comment : Type := {
  comment_id : string;
  body : option string;
  author : option string
}.

Record submission : Type := {
  removed_by_category : option string;
  comments : list comment
}.

Record post : Type := {
  pid : string;
  title : string;
  selftext : string;
  post_author : option string
}.

(** [x not in ['[deleted]', '[removed]']] *)
Definition not_sentinel (x : string) : bool :=
  negb (String.eqb x "[deleted]" || String.eqb x "[removed]").

Section Api.

Variable W : Type.

(** [praw.Reddit(...)]: whether a client results. *)
Variable connect : Py.M W bool.

(** Fetching [reddit.submission(id=...)]; [None] when it raises. *)
Variable fetch_submission : string -> Py.M W (option submission).

(** [subreddit.search(keyword, limit=...)] by subreddit name, keyword and
    limit; [None] when it raises. *)
Variable search : string -> string -> Z -> Py.M W (option (list post)).

Variable env : Config.env.

Definition authenticate (c : collector) : Py.M W (bool * collector) :=
  if Config.all (Config.reddit_creds env) then
    ok <- connect ;;
    Py.ret (ok, if ok then set_client c else c)
  else Py.ret (false, c).

Definition author_name (a : option string) : string :=
  match a with Some n => n | None => "[deleted]" end.

(** The [comment_data] dictionary of a comment with body [b]; [method] is
    the [collection_method] entry, which [_get_post_comments] does not
    set. *)
Definition comment_data (method : option string) (cm : comment) (b : string)
  : record :=
  {| source := "reddit"; id := comment_id cm; text_raw := b;
     user := author_name (author cm);
     collection_method := method; search_keywords := None |}.

(** The loop over [comment_list]: a comment is kept when it has a body that
    is not one of the two sentinels. *)
Fixpoint comments_loop (method : option string) (comment_list : list comment)
  : list record :=
  match comment_list with
  | [] => []
  | cm :: rest =>
      match body cm with
      | Some b =>
          if not_sentinel b then
            comment_data method cm b :: comments_loop method rest
          else comments_loop method rest
      | None => comments_loop method rest
      end
  end.

(** The record of every comment with a body that the fetched submissions
    hold satisfies [P]. *)
Definition submissions_satisfy (P : record -> Prop) : Prop :=
  forall p w,
    match fst (fetch_submission p w) with
    | Some s =>
        forall cm b method,
          In cm (comments s) -> body cm = Some b -> P (comment_data method cm b)
    | None => True
    end.

Definition collect_by_id (c : collector) (post_id : string) (limit : Z)
  : Py.M W (list record * collector) :=
  a <- (if client c then Py.ret (true, c) else authenticate c) ;;
  let (ok, c) := a in
  if ok then
    o <- fetch_submission post_id ;;
    match o with
    | None => Py.ret ([], c)
    | Some s =>
        if Config.truthy (removed_by_category s) then Py.ret ([], c)
        else
          let comment_list := Py.slice_to (comments s) limit in
          let comments := comments_loop (Some "direct_post_id") comment_list in
          Py.ret (comments, extend c comments)
    end
  else Py.ret ([], c).

Definition _get_post_comments (post_id : string) (max_comments : Z)
  : Py.M W (list record) :=
  o <- fetch_submission post_id ;;
  match o with
  | None => Py.ret []
  | Some s => Py.ret (comments_loop None (Py.slice_to (comments s) max_comments))
  end.

Definition post_data (subreddit_name : string) (p : post) : record :=
  {| source := "reddit"; id := pid p;
     text_raw := Py.strip (title p ++ " " ++ selftext p)%string;
     user := author_name (post_author p);
     collection_method := None; search_keywords := None |}.

(** The [for keyword in keywords] loop of [_search_subreddit_posts];
    [per_keyword] is [max_posts // len(keywords)].  An exception ends the
    loop and keeps the posts found so far. *)
Fixpoint search_loop (subreddit_name : string) (keywords : list string)
  (per_keyword : Z) (posts_data : list record) : Py.M W (list record) :=
  match keywords with
  | [] => Py.ret posts_data
  | keyword :: rest =>
      o <- search subreddit_name keyword per_keyword ;;
      match o with
      | None => Py.ret posts_data
      | Some posts =>
          search_loop subreddit_name rest per_keyword
            (posts_data
             ++ map (post_data subreddit_name)
                  (filter (fun p => not_sentinel (selftext p)) posts))
      end
  end.

Definition _search_subreddit_posts (subreddit_name : string)
  (keywords : list string) (max_posts : Z) : Py.M W (list record) :=
  search_loop subreddit_name keywords
    (max_posts / Z.of_nat (List.length keywords)) [].

(** The [for post in posts] loop of [_search_and_collect]. *)
Fixpoint posts_loop (posts : list record) (limit comments_per_post : Z)
  (comments : list record) : Py.M W (list record) :=
  match posts with
  | [] => Py.ret comments
  | p :: rest =>
      if Z.of_nat (List.length comments) >=? limit then Py.ret comments
      else
        post_comments <- _get_post_comments (id p) comments_per_post ;;
        posts_loop rest limit comments_per_post (comments ++ post_comments)
  end.

Definition _search_and_collect (subreddit_name : string)
  (keywords : list string) (limit : Z) : Py.M W (list record) :=
  posts <- _search_subreddit_posts subreddit_name keywords (limit / 10) ;;
  let comments_per_post :=
    match posts with
    | [] => 0
    | _ => Z.max 1 (limit / Z.of_nat (List.length posts))
    end in
  posts_loop posts limit comments_per_post [].

Definition collect_by_keywords (c : collector) (keywords : list string)
  (limit : Z) (subreddit : string) : Py.M W (list record * collector) :=
  a <- (if client c then Py.ret (true, c) else authenticate c) ;;
  let (ok, c) := a in
  if ok then
    comments <- _search_and_collect subreddit keywords limit ;;
    let comments := map (set_keyword_search keywords) comments in
    Py.ret (comments, extend c comments)
  else Py.ret ([], c).

End Api.

End RedditCollector.

(* ================================================================== *)
(** * collect.py *)
(* ================================================================== *)

Module Collect.

Import BaseCollector.
Open Scope string_scope.
Open Scope list_scope.
Open Scope Z_scope.

(** The choices of [--platform] and [--mode]. *)
Inductive platform : Type := youtube | twitter | reddit | all.

Inductive mode : Type := id_mode | keywords_mode.

(** The parsed arguments; an option that was not given is [None]
    ([--keywords] takes one or more words, [--subreddit] defaults to
    ["all"], [--limit] to [100]). *)
Record args : Type := {
  arg_platform : platform;
  arg_mode : mode;
  limit : Z;
  video_id : option string;
  username : option string;
  tweet_id : option string;
  post_id : option string;
  keywords : option (list string);
  subreddit : string
}.

Definition platform_eqb (a b : platform) : bool :=
  match a, b with
  | youtube, youtube | twitter, twitter | reddit, reddit | all, all => true
  | _, _ => false
  end.

Definition keywords_truthy (k : option (list string)) : bool :=
  match k with Some (_ :: _) => true | _ => false end.

Definition validate_args (a : args) : bool * list string :=
  let errors1 :=
    match arg_mode a with
    | id_mode =>
        if platform_eqb (arg_platform a) youtube
           && negb (Config.truthy (video_id a))
        then ["--video-id required for YouTube in ID mode"]
        else if platform_eqb (arg_platform a) twitter
                && negb (Config.truthy (username a))
                && negb (Config.truthy (tweet_id a))
        then ["--username or --tweet-id required for Twitter in ID mode"]
        else if platform_eqb (arg_platform a) reddit
                && negb (Config.truthy (post_id a))
        then ["--post-id required for Reddit in ID mode"]
        else []
    | keywords_mode => []
    end in
  let errors2 :=
    match arg_mode a with
    | keywords_mode =>
        (if keywords_truthy (keywords a) then []
         else ["--keywords required for keywords mode"])
        ++ (if platform_eqb (arg_platform a) reddit
               && negb (Py.truthy (subreddit a))
            then ["--subreddit recommended for Reddit keywords mode"]
            else [])
    | id_mode => []
    end in
  match errors1 ++ errors2 with
  | [] => (true, [])
  | errors => (false, errors)
  end.

(** The strings behind the choices of [--platform] and [--mode]. *)
Definition platform_name (p : platform) : string :=
  match p with
  | youtube => "youtube"
  | twitter => "twitter"
  | reddit => "reddit"
  | all => "all"
  end.

Definition mode_name (m : mode) : string :=
  match m with id_mode => "id" | keywords_mode => "keywords" end.

(** The value of an option that is known to be given. *)
Definition given (o : option string) : string :=
  match o with Some s => s | None => "" end.

(** [generate_output_filename(platform, mode, args)].  The two inputs the
    record [args] does not hold are parameters: [output_format] is
    [args.output_format] and [timestamp] is
    [datetime.now().strftime("%Y%m%d_%H%M%S")]. *)
Definition generate_output_filename (p : platform) (m : mode) (a : args)
  (output_format timestamp : string) : string :=
  let identifier :=
    match m with
    | id_mode =>
        if platform_eqb p youtube && Config.truthy (video_id a)
        then String.substring 0 8 (given (video_id a))
        else if platform_eqb p twitter && Config.truthy (username a)
        then given (username a)
        else if platform_eqb p twitter && Config.truthy (tweet_id a)
        then String.substring 0 8 (given (tweet_id a))
        else if platform_eqb p reddit && Config.truthy (post_id a)
        then String.substring 0 8 (given (post_id a))
        else "unknown"
    | keywords_mode =>
        let identifier :=
          match keywords a with
          | Some (k :: ks) => Py.join "_" (firstn 2 (k :: ks))
          | _ => "search"
          end in
        if platform_eqb p reddit && Py.truthy (subreddit a)
        then (subreddit a ++ "_" ++ identifier)%string
        else identifier
    end in
  ("data_" ++ platform_name p ++ "_" ++ mode_name m ++ "_" ++ identifier
   ++ "_" ++ timestamp ++ "." ++ output_format)%string.

(** What [main] prints and does, in order. *)
Inductive event : Type :=
| ArgumentErrors (errors : list string)
| ConfigurationError (msg : string)
| Constructed (p : platform)
| Saved (p : platform) (total : Z)
| NoDataFrom (p : platform)
| Summary (total : Z)
| NoDataAtAll.

Section Api.

Variable W : Type.

Variable yt_build : Py.M W bool.
Variable yt_commentThreads_list :
  string -> Z -> option string -> Py.M W YouTubeCollector.response.
Variable yt_search_list : string -> Z -> Py.M W YouTubeCollector.search_response.
Variable tw_search_tweets : string -> option string -> Py.M W TwitterCollector.cursor.
Variable tw_user_timeline : string -> Py.M W TwitterCollector.cursor.
Variable tw_get_status : string -> Py.M W (option TwitterCollector.tweet).
Variable tw_connect : Py.M W bool.
Variable rd_connect : Py.M W bool.
Variable rd_fetch_submission :
  string -> Py.M W (option RedditCollector.submission).
Variable rd_search :
  string -> string -> Z -> Py.M W (option (list RedditCollector.post)).

Variable env : Config.env.

(** [get_collector(platform)] *)
Definition get_collector (p : platform) : collector := BaseCollector.init.

(** A collector method called with [None] for the identifier or for the
    keyword list: the call raises inside a [try] and yields no record (an
    authentication that precedes the failure is not followed here). *)
Definition no_records (c : collector) : Py.M W (list record * collector) :=
  Py.ret ([], c).

Definition collect_data (c : collector) (p : platform) (a : args)
  : Py.M W (list record * collector) :=
  match arg_mode a with
  | id_mode =>
      match p with
      | youtube =>
          match video_id a with
          | Some v =>
              YouTubeCollector.collect_by_id yt_build yt_commentThreads_list
                env c v (limit a)
          | None => no_records c
          end
      | twitter =>
          if Config.truthy (username a) then
            match username a with
            | Some u =>
                TwitterCollector.collect_by_id tw_search_tweets
                  tw_user_timeline tw_get_status tw_connect env c u (limit a)
                  "username"
            | None => no_records c
            end
          else
            match tweet_id a with
            | Some t =>
                TwitterCollector.collect_by_id tw_search_tweets
                  tw_user_timeline tw_get_status tw_connect env c t (limit a)
                  "tweet_id"
            | None => no_records c
            end
      | reddit =>
          match post_id a with
          | Some i =>
              RedditCollector.collect_by_id rd_connect rd_fetch_submission
                env c i (limit a)
          | None => no_records c
          end
      | all => no_records c
      end
  | keywords_mode =>
      match keywords a with
      | None => no_records c
      | Some ks =>
          match p with
          | youtube =>
              YouTubeCollector.collect_by_keywords yt_build
                yt_commentThreads_list yt_search_list env c ks (limit a)
          | twitter =>
              TwitterCollector.collect_by_keywords tw_search_tweets
                tw_connect env c ks (limit a)
          | reddit =>
              RedditCollector.collect_by_keywords rd_connect
                rd_fetch_submission rd_search env c ks (limit a) (subreddit a)
          | all => no_records c
          end
      end
  end.

(** The body of [for platform in platforms]: the summed item count so far
    and the events. *)
Fixpoint platforms_loop (platforms : list platform) (a : args)
  : Py.M W (list Z * list event) :=
  match platforms with
  | [] => Py.ret ([], [])
  | p :: rest =>
      let collector := get_collector p in
      r <- collect_data collector p a ;;
      let (collected, collector) := r in
      let collected_count := Z.of_nat (List.length collected) in
      tl <- platforms_loop rest a ;;
      let (stats, events) := tl in
      if 0 <? collected_count
      then Py.ret (total_collected collector :: stats,
                   Constructed p :: Saved p (total_collected collector) :: events)
      else Py.ret (stats, Constructed p :: NoDataFrom p :: events)
  end.

(** [main]: the exit status and the events. *)
Definition main (a : args) : Py.M W (Z * list event) :=
  let (is_valid, errors) := validate_args a in
  if negb is_valid then Py.ret (1, [ArgumentErrors errors])
  else
    match Config.validate_config env with
    | Config.ValueError msg => Py.ret (1, [ConfigurationError msg])
    | Config.Ok =>
        let platforms :=
          match arg_platform a with
          | all => [youtube; twitter; reddit]
          | p => [p]
          end in
        r <- platforms_loop platforms a ;;
        let (all_stats, events) := r in
        match all_stats with
        | [] => Py.ret (0, events ++ [NoDataAtAll])
        | _ => Py.ret (0, events ++ [Summary (fold_right Z.add 0 all_stats)])
        end
    end.

End Api.

(** The platforms for which [main] constructed a collector, and the totals
    it printed for the platforms that collected something, in order. *)
Fixpoint constructed (events : list event) : list platform :=
  match events with
  | [] => []
  | Constructed p :: rest => p :: constructed rest
  | _ :: rest => constructed rest
  end.

Fixpoint saved_totals (events : list event) : list Z :=
  match events with
  | [] => []
  | Saved _ total :: rest => total :: saved_totals rest
  | _ :: rest => saved_totals rest
  end.

End Collect.

(* ================================================================== *)
(** * fix_jsonl.py *)
(* ================================================================== *)

Module FixJsonl.

Open Scope string_scope.
Open Scope list_scope.
Open Scope Z_scope.

(** [content.split('\n')] *)
Fixpoint split_lines (content : string) : list string :=
  match content with
  | EmptyString => [""]
  | String c rest =>
      if Ascii.eqb c "010" then "" :: split_lines rest
      else match split_lines rest with
           | line :: lines => String c line :: lines
           | [] => [String c ""]
           end
  end.

(** [line.count(c)] for a single character. *)
Fixpoint count (c : ascii) (line : string) : Z :=
  match line with
  | EmptyString => 0
  | String d rest => (if Ascii.eqb d c then 1 else 0) + count c rest
  end.

(** [line.startswith('{')] *)
Definition starts_with_brace (line : string) : bool :=
  match line with
  | String c _ => Ascii.eqb c "{"
  | EmptyString => false
  end.

(** [line.count('{') - line.count('}')] *)
Definition delta (line : string) : Z := count "{" line - count "}" line.

(** The variables of the loop of [quick_fix_jsonl]. *)
Record state : Type := {
  in_object : bool;
  current_obj : list string;
  brace_count : Z;
  objects : list Py.value
}.

Definition initial : state :=
  {| in_object := false; current_obj := []; brace_count := 0; objects := [] |}.

Section Parser.

(** [json.loads]; [None] is a [json.JSONDecodeError]. *)
Variable json_loads : string -> option Py.value.

(** The body of [for line in content.split('\n')]. *)
Definition step (st : state) (raw_line : string) : state :=
  let line := Py.strip raw_line in
  if negb (Py.truthy line) then st
  else if starts_with_brace line && negb (in_object st) then
    {| in_object := true;
       current_obj := [line];
       brace_count := delta line;
       objects := objects st |}
  else if in_object st then
    let current := current_obj st ++ [line] in
    let count := brace_count st + delta line in
    if count =? 0 then
      {| in_object := false;
         current_obj := [];
         brace_count := count;
         objects := match json_loads (String.concat "" current) with
                    | Some obj => objects st ++ [obj]
                    | None => objects st
                    end |}
    else
      {| in_object := true;
         current_obj := current;
         brace_count := count;
         objects := objects st |}
  else st.

(** The loop from the state [st], and the objects [quick_fix_jsonl] writes
    for the text of a file. *)
Definition run (lines : list string) (st : state) : state :=
  fold_left step lines st.

Definition quick_fix_jsonl (content : string) : list Py.value :=
  objects (run (split_lines content) initial).

End Parser.

(** [closes_at_end b rest]: with [b] braces open, the lines [rest] bring
    the count to zero at the last line and not before. *)
Fixpoint closes_at_end (b : Z) (rest : list string) : bool :=
  match rest with
  | [] => false
  | [line] => b + delta line =? 0
  | line :: more => negb (b + delta line =? 0) && closes_at_end (b + delta line) more
  end.

(** A block: a line that starts with a brace, followed by lines that are
    not blank and of which the last one, and no earlier one, brings the
    brace count to zero (the lines are taken stripped). *)
Definition is_block (lines : list string) : bool :=
  match map Py.strip lines with
  | first :: rest =>
      starts_with_brace first && forallb Py.truthy rest
      && closes_at_end (delta first) rest
  | [] => false
  end.

(** The object of a block, when its joined lines parse. *)
Definition parse_block (json_loads : string -> option Py.value)
  (lines : list string) : list Py.value :=
  match json_loads (String.concat "" (map Py.strip lines)) with
  | Some obj => [obj]
  | None => []
  end.

(** [s.startswith(prefix)] *)
Fixpoint startswith (s prefix : string) : bool :=
  match prefix, s with
  | EmptyString, _ => true
  | String _ _, EmptyString => false
  | String p prefix', String c s' => Ascii.eqb c p && startswith s' prefix'
  end.

(** [old in s] *)
Fixpoint occurs (old s : string) : bool :=
  startswith s old
  || match s with
     | EmptyString => false
     | String _ s' => occurs old s'
     end.

(** [s.replace(old, new)] for an [old] that is not empty: the occurrences
    of [old] are taken from the left and do not overlap; [skip] counts the
    characters of an occurrence that are still to be passed over. *)
Fixpoint replace_from (old new : string) (skip : nat) (s : string) : string :=
  match s with
  | EmptyString => EmptyString
  | String c s' =>
      match skip with
      | S k => replace_from old new k s'
      | O =>
          if startswith s old then
            new ++ replace_from old new (String.length old - 1) s'
          else String c (replace_from old new 0 s')
      end
  end.

Definition replace (s old new : string) : string := replace_from old new 0 s.

(** The file that [quick_fix_jsonl] writes. *)
Definition output_path (input_file : string) (output_file : option string)
  : string :=
  match output_file with
  | None => replace input_file ".jsonl" "_fixed.jsonl"
  | Some path => path
  end.

End FixJsonl.

(* ================================================================== *)
(** * Concrete inputs used in the examples below *)
(* ================================================================== *)

Module Samples.

Open Scope string_scope.
Open Scope list_scope.
Open Scope Z_scope.

(** An environment in which only [REDDIT_CLIENT_SECRET] is unset. *)
Definition env_without_reddit_secret : Config.env :=
  {| Config.YOUTUBE_API_KEY := Some "yt-key";
     Config.TWITTER_API_KEY := Some "tw-key";
     Config.TWITTER_API_SECRET := Some "tw-secret";
     Config.TWITTER_ACCESS_TOKEN := Some "tw-token";
     Config.TWITTER_ACCESS_SECRET := Some "tw-token-secret";
     Config.REDDIT_CLIENT_ID := Some "rd-id";
     Config.REDDIT_CLIENT_SECRET := None;
     Config.REDDIT_USER_AGENT := Some "rd-agent" |}.

(** An environment with every credential set. *)
Definition env_complete : Config.env :=
  {| Config.YOUTUBE_API_KEY := Some "yt-key";
     Config.TWITTER_API_KEY := Some "tw-key";
     Config.TWITTER_API_SECRET := Some "tw-secret";
     Config.TWITTER_ACCESS_TOKEN := Some "tw-token";
     Config.TWITTER_ACCESS_SECRET := Some "tw-token-secret";
     Config.REDDIT_CLIENT_ID := Some "rd-id";
     Config.REDDIT_CLIENT_SECRET := Some "rd-secret";
     Config.REDDIT_USER_AGENT := Some "rd-agent" |}.

(** Two batch files: three valid lines and a malformed one, then two valid
    lines of which the first repeats a text of the first file (with white
    space around it). *)
Definition line (id_ text_ : string) : option Py.value :=
  Some (Py.VDict [("source", Py.VStr "youtube"); ("id", Py.VStr id_);
                  ("text_raw", Py.VStr text_)]).

Definition batch_a : MergeDatasets.batch_file :=
  ("data_youtube_id_a.jsonl",
   [line "a1" "first comment"; None; line "a2" "second comment";
    line "a3" "third comment"]).

Definition batch_b : MergeDatasets.batch_file :=
  ("data_youtube_id_b.jsonl",
   [line "b1" "  second comment "; line "b2" "fourth comment"]).

Definition batches : MergeDatasets.directory := Some [batch_a; batch_b].


(** A spreadsheet with two posts that differ by a trailing space, and one
    with a single post. *)
Definition sheet_trailing_space : MergeDatasets.sheet :=
  {| MergeDatasets.has_label := true;
     MergeDatasets.has_post := true;
     MergeDatasets.sheet_rows :=
       [ {| MergeDatasets.cell_label := Some "happiness";
            MergeDatasets.cell_post := Some "hello world" |};
         {| MergeDatasets.cell_label := Some "happiness";
            MergeDatasets.cell_post := Some "hello world " |} ] |}.

Definition sheet_one_post : MergeDatasets.sheet :=
  {| MergeDatasets.has_label := true;
     MergeDatasets.has_post := true;
     MergeDatasets.sheet_rows :=
       [ {| MergeDatasets.cell_label := Some "Sadness";
            MergeDatasets.cell_post := Some "a long enough post" |} ] |}.

(** A spreadsheet without rows, and one with texts of five and of six
    characters once trimmed. *)
Definition sheet_empty : MergeDatasets.sheet :=
  {| MergeDatasets.has_label := true;
     MergeDatasets.has_post := true;
     MergeDatasets.sheet_rows := [] |}.

Definition sheet_boundary : MergeDatasets.sheet :=
  {| MergeDatasets.has_label := false;
     MergeDatasets.has_post := true;
     MergeDatasets.sheet_rows :=
       [ {| MergeDatasets.cell_label := None;
            MergeDatasets.cell_post := Some " abcde " |};
         {| MergeDatasets.cell_label := None;
            MergeDatasets.cell_post := Some " abcdef " |} ] |}.

(** A TSAC corpus with one split of one item. *)
Definition tsac_one : MergeDatasets.hf_load :=
  MergeDatasets.HfDatasetDict
    [("train", [[("sentence", Some "une phrase tunisienne");
                 ("label", Some "Positive")]])].


(** Remote services over a world without state.  The comment listing
    always returns the same page of three comments, the second one without
    text, and names a next page; the video search finds two videos. *)
Definition yt_build : Py.M unit bool := fun w => (true, w).

Definition yt_listing
  : string -> Z -> option string -> Py.M unit YouTubeCollector.response :=
  fun _ _ _ w =>
    (YouTubeCollector.Page
       [YouTubeCollector.Thread "c1" "first comment" "u1";
        YouTubeCollector.Thread "c2" "" "u2";
        YouTubeCollector.Thread "c3" "third comment" "u3"]
       (Some "next"), w).


Definition yt_search : string -> Z -> Py.M unit YouTubeCollector.search_response :=
  fun _ _ w => (YouTubeCollector.SearchPage [Some "v1"; Some "v2"], w).

(** Every search and every timeline yields the same two statuses. *)
Definition status (i t : string) : TwitterCollector.tweet :=
  {| TwitterCollector.id_str := i;
     TwitterCollector.full_text := t;
     TwitterCollector.screen_name := "someone";
     TwitterCollector.user_id_str := "42";
     TwitterCollector.in_reply_to_status_id_str := Some "1";
     TwitterCollector.in_reply_to_user_id_str := None |}.

Definition two_statuses : TwitterCollector.cursor :=
  {| TwitterCollector.statuses := [status "t1" "tweet one"; status "t2" "tweet two"];
     TwitterCollector.raises_at_end := false |}.

Definition tw_search : string -> option string -> Py.M unit TwitterCollector.cursor :=
  fun _ _ w => (two_statuses, w).

Definition tw_timeline : string -> Py.M unit TwitterCollector.cursor :=
  fun _ w => (two_statuses, w).

Definition tw_status : string -> Py.M unit (option TwitterCollector.tweet) :=
  fun _ w => (Some (status "1" "the original tweet"), w).

Definition tw_connect : Py.M unit bool := fun w => (true, w).

(** Every submission has the same four comments, one of them deleted. *)
Definition reddit_comment (i : string) (b : string) : RedditCollector.comment :=
  {| RedditCollector.comment_id := i;
     RedditCollector.body := Some b;
     RedditCollector.author := Some "someone" |}.

Definition rd_fetch : string -> Py.M unit (option RedditCollector.submission) :=
  fun _ w =>
    (Some {| RedditCollector.removed_by_category := None;
             RedditCollector.comments :=
               [reddit_comment "k1" "a comment"; reddit_comment "k2" "[deleted]";
                reddit_comment "k3" "another comment";
                reddit_comment "k4" "a last comment"] |}, w).

Definition rd_search
  : string -> string -> Z -> Py.M unit (option (list RedditCollector.post)) :=
  fun _ _ _ w =>
    (Some [ {| RedditCollector.pid := "p1"; RedditCollector.title := "a post";
               RedditCollector.selftext := "with a text";
               RedditCollector.post_author := None |} ], w).

Definition rd_connect : Py.M unit bool := fun w => (true, w).


(** An environment without any credential. *)
Definition env_empty : Config.env :=
  {| Config.YOUTUBE_API_KEY := None;
     Config.TWITTER_API_KEY := None;
     Config.TWITTER_API_SECRET := None;
     Config.TWITTER_ACCESS_TOKEN := None;
     Config.TWITTER_ACCESS_SECRET := None;
     Config.REDDIT_CLIENT_ID := None;
     Config.REDDIT_CLIENT_SECRET := None;
     Config.REDDIT_USER_AGENT := None |}.

(** [--platform all --mode keywords --keywords tunisia --limit 2], and
    [--platform all --mode id] without any identifier. *)
Definition args_all_keywords : Collect.args :=
  {| Collect.arg_platform := Collect.all;
     Collect.arg_mode := Collect.keywords_mode;
     Collect.limit := 2;
     Collect.video_id := None;
     Collect.username := None;
     Collect.tweet_id := None;
     Collect.post_id := None;
     Collect.keywords := Some ["tunisia"];
     Collect.subreddit := "all" |}.

Definition args_all_id : Collect.args :=
  {| Collect.arg_platform := Collect.all;
     Collect.arg_mode := Collect.id_mode;
     Collect.limit := 100;
     Collect.video_id := None;
     Collect.username := None;
     Collect.tweet_id := None;
     Collect.post_id := None;
     Collect.keywords := None;
     Collect.subreddit := "all" |}.

(** [--platform youtube --mode id --video-id dQw4w9WgXcQ]. *)
Definition args_youtube_id : Collect.args :=
  {| Collect.arg_platform := Collect.youtube;
     Collect.arg_mode := Collect.id_mode;
     Collect.limit := 100;
     Collect.video_id := Some "dQw4w9WgXcQ";
     Collect.username := None;
     Collect.tweet_id := None;
     Collect.post_id := None;
     Collect.keywords := None;
     Collect.subreddit := "all" |}.


(** A comment listing that refuses a page size outside 1..100, and
    otherwise answers like [yt_listing]. *)
Definition yt_listing_strict
  : string -> Z -> option string -> Py.M unit YouTubeCollector.response :=
  fun v m tok w =>
    if ((1 <=? m) && (m <=? 100))%Z then yt_listing v m tok w
    else (YouTubeCollector.HttpError 400, w).

(** A submission the platform flags as removed, with its comments still
    there. *)
Definition rd_fetch_removed
  : string -> Py.M unit (option RedditCollector.submission) :=
  fun _ w =>
    (Some {| RedditCollector.removed_by_category := Some "moderator";
             RedditCollector.comments :=
               [reddit_comment "k1" "a comment";
                reddit_comment "k2" "another comment"] |}, w).


(** A parser that knows the empty object only, and a line feed. *)
Definition loads_empty_object (s : string) : option Py.value :=
  if String.eqb s "{}" then Some (Py.VDict []) else None.

Definition nl : string := String "010" "".


(** The last file that fix_jsonl.py is run on. *)
Definition json_file : string :=
  "collected_data/data_youtube_id_QNbgDANI_20251029_234047.json".

(** The first file that fix_jsonl.py is run on. *)
Definition jsonl_file : string :=
  "collected_data/data_youtube_id_8wlN5coe_20251029_234025.jsonl".

End Samples.

(* ================================================================== *)
(** * Properties of the Python primitives *)
(* ================================================================== *)

Unset Implicit Arguments.

Section PyFacts.

Open Scope string_scope.

Lemma isspace_lower_char (c : ascii) :
  Py.isspace (Py.lower_char c) = Py.isspace c.
Proof. destruct c as [[] [] [] [] [] [] [] []]; reflexivity. Qed.

Lemma lower_char_idempotent (c : ascii) :
  Py.lower_char (Py.lower_char c) = Py.lower_char c.
Proof. destruct c as [[] [] [] [] [] [] [] []]; reflexivity. Qed.

Lemma lstrip_lower (s : string) : Py.lstrip (Py.lower s) = Py.lower (Py.lstrip s).
Proof.
  induction s as [|c s IH]; simpl; [reflexivity|].
  rewrite isspace_lower_char. destruct (Py.isspace c); [exact IH | reflexivity].
Qed.

Lemma rstrip_lower (s : string) : Py.rstrip (Py.lower s) = Py.lower (Py.rstrip s).
Proof.
  induction s as [|c s IH]; simpl; [reflexivity|].
  rewrite IH, isspace_lower_char.
  destruct (Py.rstrip s); simpl; [destruct (Py.isspace c)|]; reflexivity.
Qed.

Lemma strip_lower (s : string) : Py.strip (Py.lower s) = Py.lower (Py.strip s).
Proof. unfold Py.strip. now rewrite rstrip_lower, lstrip_lower. Qed.

(** A string that starts with a character that is no space is left alone
    by [lstrip], and [rstrip] keeps that first character. *)
Lemma rstrip_cons_nonspace (c : ascii) (s : string) :
  Py.isspace c = false -> exists r, Py.rstrip (String c s) = String c r.
Proof.
  intros Hc. simpl. destruct (Py.rstrip s) as [|d r].
  - rewrite Hc. now exists "".
  - now exists (String d r).
Qed.

Lemma lstrip_rstrip_comm (s : string) :
  Py.lstrip (Py.rstrip s) = Py.rstrip (Py.lstrip s).
Proof.
  induction s as [|c s IH]; [reflexivity|].
  destruct (Py.isspace c) eqn:Hc.
  - cbn [Py.lstrip]. rewrite Hc, <- IH. cbn [Py.rstrip].
    destruct (Py.rstrip s) as [|d r]; [now rewrite Hc|].
    cbn [Py.lstrip]. now rewrite Hc.
  - cbn [Py.lstrip]. rewrite Hc.
    destruct (rstrip_cons_nonspace c s Hc) as [r Hr]. rewrite Hr.
    cbn [Py.lstrip]. now rewrite Hc.
Qed.

Lemma lstrip_idempotent (s : string) : Py.lstrip (Py.lstrip s) = Py.lstrip s.
Proof.
  induction s as [|c s IH]; [reflexivity|]. simpl.
  destruct (Py.isspace c) eqn:Hc; [exact IH|]. simpl. now rewrite Hc.
Qed.

Lemma rstrip_idempotent (s : string) : Py.rstrip (Py.rstrip s) = Py.rstrip s.
Proof.
  induction s as [|c s IH]; [reflexivity|]. simpl.
  destruct (Py.rstrip s) as [|d r] eqn:Hr.
  - destruct (Py.isspace c) eqn:Hc; [reflexivity|]. simpl. now rewrite Hc.
  - change (Py.rstrip (String c (String d r))) with
      (match Py.rstrip (String d r) with
       | "" => if Py.isspace c then "" else String c ""
       | r' => String c r'
       end).
    now rewrite IH.
Qed.

Lemma strip_idempotent (s : string) : Py.strip (Py.strip s) = Py.strip s.
Proof.
  unfold Py.strip.
  rewrite <- (lstrip_rstrip_comm (Py.rstrip s)).
  now rewrite lstrip_idempotent, rstrip_idempotent.
Qed.

Lemma truthy_true_iff (s : string) : Py.truthy s = true <-> s <> "".
Proof. destruct s; simpl; split; congruence. Qed.

(** The value a lookup with a default gives is the default or one of the
    values of the dictionary. *)
Lemma dict_get_default_in (V : Type) (d : list (string * V)) (k : string) (v0 : V) :
  In (Py.dict_get_default d k v0) (v0 :: map snd d).
Proof.
  unfold Py.dict_get_default.
  induction d as [|[k' v] d IH]; simpl; [now left|].
  destruct (String.eqb k' k); [right; now left|].
  destruct IH as [IH|IH]; [now left | right; now right].
Qed.

Lemma append_empty_r (s : string) : s ++ "" = s.
Proof. induction s as [|c s IH]; simpl; [reflexivity | now rewrite IH]. Qed.

Lemma append_assoc (a b c : string) : (a ++ b) ++ c = a ++ (b ++ c).
Proof. induction a as [|x a IH]; simpl; [reflexivity | now rewrite IH]. Qed.

Lemma join_contains (sep : string) (l : list string) (x : string) :
  In x l -> exists pre post, Py.join sep l = pre ++ x ++ post.
Proof.
  induction l as [|y l IH]; [contradiction|].
  intros [->|Hin].
  - destruct l as [|z l].
    + exists "", "". simpl. now rewrite append_empty_r.
    + exists "", (sep ++ Py.join sep (z :: l)). reflexivity.
  - destruct (IH Hin) as (pre & post & E).
    destruct l as [|z l]; [contradiction|].
    exists (y ++ sep ++ pre), post.
    change (Py.join sep (y :: z :: l)) with (y ++ sep ++ Py.join sep (z :: l)).
    rewrite E. now rewrite !append_assoc.
Qed.

Lemma firstn_incl (A : Type) (n : nat) (l : list A) (x : A) :
  In x (firstn n l) -> In x l.
Proof.
  revert l. induction n as [|n IH]; intros [|y l]; cbn; try tauto.
  intros [H|H]; [now left | right; now apply IH].
Qed.

End PyFacts.

(* ================================================================== *)
(** * Configuration validation *)
(* ================================================================== *)

Section ConfigFacts.

Open Scope string_scope.

Lemma unset_in_missing (e : Config.env) (name : string) (v : option string) :
  In (name, v) (Config.required e) -> Config.truthy v = false ->
  In name (Config.missing e).
Proof.
  destruct e as [y t1 t2 t3 t4 r1 r2 r3].
  unfold Config.required, Config.missing, Config.all, Config.twitter_creds,
    Config.reddit_creds; cbn [Config.YOUTUBE_API_KEY Config.TWITTER_API_KEY
    Config.TWITTER_API_SECRET Config.TWITTER_ACCESS_TOKEN
    Config.TWITTER_ACCESS_SECRET Config.REDDIT_CLIENT_ID
    Config.REDDIT_CLIENT_SECRET Config.REDDIT_USER_AGENT forallb].
  intros Hreq Hunset.
  repeat (destruct Hreq as [Hreq|Hreq];
          [injection Hreq as <- <-; rewrite Hunset;
           rewrite ?andb_false_r; cbn [andb];
           repeat (apply in_or_app; first [left; cbn; tauto | right]); cbn; tauto |]).
  destruct Hreq.
Qed.

Lemma validate_config_error (e : Config.env) :
  Config.missing e <> [] ->
  Config.validate_config e =
  Config.ValueError
    ("Missing environment variables: " ++ Py.join ", " (Config.missing e)).
Proof.
  unfold Config.validate_config. destruct (Config.missing e); congruence.
Qed.

(** With a configuration error [main] stops at once: status 1, the world
    untouched, no collector constructed. *)
Lemma main_stops_on_config_error (W : Type)
  (yt_build : Py.M W bool)
  (yt_list : string -> Z -> option string -> Py.M W YouTubeCollector.response)
  (yt_search : string -> Z -> Py.M W YouTubeCollector.search_response)
  (tw_search : string -> option string -> Py.M W TwitterCollector.cursor)
  (tw_timeline : string -> Py.M W TwitterCollector.cursor)
  (tw_status : string -> Py.M W (option TwitterCollector.tweet))
  (tw_connect rd_connect : Py.M W bool)
  (rd_fetch : string -> Py.M W (option RedditCollector.submission))
  (rd_search : string -> string -> Z -> Py.M W (option (list RedditCollector.post)))
  (e : Config.env) (msg : string) (a : Collect.args) (w : W) :
  Config.validate_config e = Config.ValueError msg ->
  exists events,
    Collect.main yt_build yt_list yt_search tw_search tw_timeline tw_status
      tw_connect rd_connect rd_fetch rd_search e a w = ((1%Z, events), w)
    /\ (forall p, ~ In (Collect.Constructed p) events)
    /\ (fst (Collect.validate_args a) = true ->
        events = [Collect.ConfigurationError msg]).
Proof.
  intros Hv. unfold Collect.main.
  destruct (Collect.validate_args a) as [[|] errors]; cbn [negb fst].
  - rewrite Hv. eexists; split; [reflexivity|]. split; [|reflexivity].
    intros p [H|[]]; discriminate H.
  - eexists; split; [reflexivity|]. split; [|discriminate].
    intros p [H|[]]; discriminate H.
Qed.

(** C8. If a required credential variable is unset (or empty),
    [validate_config] raises a [ValueError] whose message is
    ["Missing environment variables: "] followed by the comma-separated list
    [missing]; every unset required variable is in that list and its name
    occurs in the message; and [main] then exits with status 1 before it
    constructs a collector or touches the world of remote services. *)
Theorem config_validation_enumerates_missing
  (e : Config.env) (name : string) (v : option string)
  (Hreq : In (name, v) (Config.required e))
  (Hunset : Config.truthy v = false) :
  exists msg,
    Config.validate_config e = Config.ValueError msg
    /\ msg = "Missing environment variables: " ++ Py.join ", " (Config.missing e)
    /\ (forall n' v', In (n', v') (Config.required e) ->
          Config.truthy v' = false ->
          In n' (Config.missing e) /\ exists pre post, msg = pre ++ n' ++ post)
    /\ (forall (W : Type) yt_build yt_list yt_search tw_search tw_timeline
          tw_status tw_connect rd_connect rd_fetch rd_search
          (a : Collect.args) (w : W),
          exists events,
            Collect.main yt_build yt_list yt_search tw_search tw_timeline
              tw_status tw_connect rd_connect rd_fetch rd_search e a w
            = ((1%Z, events), w)
            /\ (forall p, ~ In (Collect.Constructed p) events)
            /\ (fst (Collect.validate_args a) = true ->
                events = [Collect.ConfigurationError msg])).
Proof.
  pose proof (unset_in_missing e name v Hreq Hunset) as Hin.
  assert (Hne : Config.missing e <> []) by (intros E; rewrite E in Hin; exact Hin).
  eexists. split; [apply validate_config_error; exact Hne|].
  split; [reflexivity|]. split.
  - intros n' v' Hr Hu. pose proof (unset_in_missing e n' v' Hr Hu) as Hin'.
    split; [exact Hin'|].
    destruct (join_contains ", " _ _ Hin') as (pre & post & E).
    exists ("Missing environment variables: " ++ pre), post.
    rewrite E. now rewrite append_assoc.
  - intros. apply main_stops_on_config_error.
    apply validate_config_error; exact Hne.
Qed.

Lemma config_validation_enumerates_missing_witness :
  exists msg,
    Config.validate_config Samples.env_without_reddit_secret = Config.ValueError msg
    /\ msg = "Missing environment variables: REDDIT_CLIENT_ID, REDDIT_CLIENT_SECRET, REDDIT_USER_AGENT".
Proof.
  destruct (config_validation_enumerates_missing
              Samples.env_without_reddit_secret "REDDIT_CLIENT_SECRET" None)
    as (msg & Hv & Hmsg & _).
  - simpl. tauto.
  - reflexivity.
  - exists msg. split; [exact Hv | exact Hmsg].
Defined.

(** With every credential set the validation passes. *)
Lemma validate_config_complete :
  Config.validate_config Samples.env_complete = Config.Ok.
Proof. reflexivity. Qed.

End ConfigFacts.

(* ================================================================== *)
(** * Label mapping of the merge engine *)
(* ================================================================== *)

Section LabelFacts.

Import MergeDatasets.
Open Scope string_scope.
Open Scope Z_scope.

Lemma mapping_into_scheme (d : list (string * Z)) (k : string) :
  Forall scheme_class (map snd d) -> scheme_class (Py.dict_get_default d k 0).
Proof.
  intros Hd. destruct (dict_get_default_in Z d k 0) as [<-|Hin].
  - now left.
  - rewrite Forall_forall in Hd. now apply Hd.
Qed.

Lemma excel_map_label_scheme (s : string) : scheme_class (excel_map_label s).
Proof.
  apply mapping_into_scheme. unfold scheme_class.
  repeat constructor; tauto.
Qed.

Lemma arsas_map_label_scheme (s : string) : scheme_class (arsas_map_label s).
Proof.
  apply mapping_into_scheme. unfold scheme_class.
  repeat constructor; tauto.
Qed.

Lemma tsac_map_label_scheme (l : option string) : scheme_class (tsac_map_label l).
Proof.
  destruct l as [l|]; [|now left].
  apply mapping_into_scheme. unfold scheme_class.
  repeat constructor; tauto.
Qed.

Lemma excel_map_label_case (s t : string) :
  Py.lower s = Py.lower t -> excel_map_label s = excel_map_label t.
Proof.
  intros E. unfold excel_map_label. now rewrite <- !strip_lower, E.
Qed.

Lemma arsas_map_label_case (s t : string) :
  Py.lower s = Py.lower t -> arsas_map_label s = arsas_map_label t.
Proof.
  intros E. unfold arsas_map_label. now rewrite <- !strip_lower, E.
Qed.

(** The TSAC lookup is exact: only the three capitalised spellings are
    keys. *)
Lemma tsac_map_label_exact (l : string) :
  (tsac_map_label (Some l) = 1 <-> l = "Positive")
  /\ (tsac_map_label (Some l) = 2 <-> l = "Negative").
Proof.
  unfold tsac_map_label, Py.dict_get_default, tsac_label_mapping.
  cbn [Py.dict_get].
  destruct (String.eqb_spec "Positive" l) as [<-|N1].
  { split; split; intros H; try reflexivity; discriminate H. }
  destruct (String.eqb_spec "Negative" l) as [<-|N2].
  { split; split; intros H; try reflexivity; discriminate H. }
  destruct (String.eqb_spec "Neutral" l) as [<-|N3];
    split; split; intros H; try discriminate H; congruence.
Qed.

(** C2 (as the code has it). Every label string of every origin maps to a
    class in {0,1,2}, and a string that is no key of the origin's mapping
    maps to 0.  The spreadsheet and the ArSAS lookups lower-case (and trim)
    the label first, so case variation does not change the class; the TSAC
    lookup is an exact match on ["Positive"], ["Negative"] and ["Neutral"],
    so any other spelling, also one that differs only in case, maps to 0. *)
Theorem label_mapping_total
  : (forall s, scheme_class (excel_map_label s))
    /\ (forall s, scheme_class (arsas_map_label s))
    /\ (forall l, scheme_class (tsac_map_label l))
    /\ (forall s, Py.dict_get excel_label_mapping (Py.lower (Py.strip s)) = None ->
                  excel_map_label s = 0)
    /\ (forall s, Py.dict_get arsas_label_mapping (Py.lower (Py.strip s)) = None ->
                  arsas_map_label s = 0)
    /\ (forall l, Py.dict_get tsac_label_mapping l = None ->
                  tsac_map_label (Some l) = 0)
    /\ (forall s t, Py.lower s = Py.lower t -> excel_map_label s = excel_map_label t)
    /\ (forall s t, Py.lower s = Py.lower t -> arsas_map_label s = arsas_map_label t)
    /\ (forall l, (tsac_map_label (Some l) = 1 <-> l = "Positive")
                  /\ (tsac_map_label (Some l) = 2 <-> l = "Negative")).
Proof.
  repeat split;
    try (now apply excel_map_label_scheme);
    try (now apply arsas_map_label_scheme);
    try (now apply tsac_map_label_scheme);
    try (now apply excel_map_label_case);
    try (now apply arsas_map_label_case);
    try (now apply tsac_map_label_exact).
  - intros s H. unfold excel_map_label, Py.dict_get_default. now rewrite H.
  - intros s H. unfold arsas_map_label, Py.dict_get_default. now rewrite H.
  - intros l H. unfold tsac_map_label, Py.dict_get_default. now rewrite H.
Qed.

Lemma label_mapping_total_witness :
  excel_map_label "HAPPINESS" = excel_map_label "Happiness"
  /\ arsas_map_label "NEG" = arsas_map_label "neg"
  /\ excel_map_label "joy" = 0
  /\ tsac_map_label (Some "negative") = 0.
Proof.
  destruct label_mapping_total
    as (_ & _ & _ & Hx0 & _ & Ht0 & Hxc & Hac & _).
  split; [|split; [|split]].
  - apply Hxc. reflexivity.
  - apply Hac. reflexivity.
  - apply Hx0. reflexivity.
  - apply Ht0. reflexivity.
Defined.

(** The three spellings of the specification meet in one class for the spreadsheet
    and ArSAS lookups. *)
Example arsas_positive_spellings :
  arsas_map_label "Positive" = 1 /\ arsas_map_label "positive" = 1
  /\ arsas_map_label "POSITIVE" = 1 /\ arsas_map_label " Positive " = 1.
Proof. repeat split; reflexivity. Qed.

(** C2, counterexample: in the TSAC lookup the three spellings of the specification
    do not map identically. *)
Lemma tsac_mapping_case_sensitive :
  Py.lower "positive" = Py.lower "Positive"
  /\ Py.lower "POSITIVE" = Py.lower "Positive"
  /\ tsac_map_label (Some "Positive") = 1
  /\ tsac_map_label (Some "positive") = 0
  /\ tsac_map_label (Some "POSITIVE") = 0.
Proof. repeat split; reflexivity. Qed.

End LabelFacts.

(* ================================================================== *)
(** * The dataset normaliser: process_jsonl_files *)
(* ================================================================== *)

Section NormaliserFacts.

Import MergeDatasets.
Open Scope string_scope.
Open Scope list_scope.
Open Scope Z_scope.

Variable L : Type.
Variable lbl : L.

(** The rows of a line do not depend on its number. *)
Lemma process_line_rows (f : string) (n m : Z) (p : option Py.value) :
  fst (process_line lbl f n p) = fst (process_line lbl f m p).
Proof.
  unfold process_line.
  destruct p as [[| | | |l|data]|]; try reflexivity.
  destruct (value_truthy (extract_text data)); [|reflexivity].
  destruct (extract_text data); reflexivity.
Qed.

Lemma process_lines_rows (f : string) (lines : list (option Py.value)) (n m : Z) :
  fst (process_lines lbl f n lines) = fst (process_lines lbl f m lines).
Proof.
  revert n m. induction lines as [|p lines IH]; intros n m; [reflexivity|].
  cbn [process_lines].
  pose proof (process_line_rows f n m p) as Hp.
  pose proof (IH (n + 1) (m + 1)) as Hr.
  destruct (process_line lbl f n p), (process_line lbl f m p),
    (process_lines lbl f (n + 1) lines), (process_lines lbl f (m + 1) lines).
  cbn [fst] in *. now subst.
Qed.

Lemma process_lines_app (f : string) (l1 l2 : list (option Py.value)) (n : Z) :
  process_lines lbl f n (l1 ++ l2) =
  (fst (process_lines lbl f n l1)
     ++ fst (process_lines lbl f (n + Z.of_nat (List.length l1)) l2),
   snd (process_lines lbl f n l1)
     ++ snd (process_lines lbl f (n + Z.of_nat (List.length l1)) l2)).
Proof.
  revert n. induction l1 as [|p l1 IH]; intros n.
  - cbn [app List.length process_lines fst snd Z.of_nat].
    rewrite Z.add_0_r. now destruct (process_lines lbl f n l2).
  - cbn [app process_lines]. rewrite IH.
    replace (n + 1 + Z.of_nat (List.length l1))
      with (n + Z.of_nat (List.length (p :: l1)))
      by (cbn [List.length]; lia).
    destruct (process_line lbl f n p), (process_lines lbl f (n + 1) l1).
    cbn [fst snd]. now rewrite !app_assoc.
Qed.

Lemma process_files_app (fs1 fs2 : list batch_file) :
  process_files lbl (fs1 ++ fs2) =
  (fst (process_files lbl fs1) ++ fst (process_files lbl fs2),
   snd (process_files lbl fs1) ++ snd (process_files lbl fs2)).
Proof.
  induction fs1 as [|f fs1 IH].
  - cbn. now destruct (process_files lbl fs2).
  - cbn [app process_files]. rewrite IH.
    destruct (process_file lbl f), (process_files lbl fs1).
    cbn [fst snd]. now rewrite !app_assoc.
Qed.

Lemma process_jsonl_files_with_rows (files : list batch_file) :
  fst (process_jsonl_files_with lbl (Some files)) = fst (process_files lbl files).
Proof.
  unfold process_jsonl_files_with. now destruct (process_files lbl files).
Qed.

Lemma process_jsonl_files_with_log (files : list batch_file) (e : event) :
  In e (snd (process_files lbl files)) ->
  In e (snd (process_jsonl_files_with lbl (Some files))).
Proof.
  unfold process_jsonl_files_with. destruct (process_files lbl files).
  cbn [snd]. intros H. apply in_or_app. now left.
Qed.

(** The rows of a directory in which one line of one batch file does not
    parse: the rows of the files before it, of the lines before and after
    the malformed one, and of the files after it. *)
Lemma malformed_line_rows (before after : list batch_file) (name : string)
  (lines1 lines2 : list (option Py.value)) :
  Py.endswith name ".jsonl" = true ->
  fst (process_jsonl_files_with lbl
         (Some (before ++ (name, lines1 ++ None :: lines2) :: after)))
  = fst (process_files lbl before)
    ++ (fst (process_lines lbl name 1 lines1)
        ++ fst (process_lines lbl name 1 lines2))
    ++ fst (process_files lbl after).
Proof.
  intros Hname.
  rewrite process_jsonl_files_with_rows, process_files_app. cbn [fst].
  f_equal. cbn [process_files].
  unfold process_file at 1. cbn [fst snd]. rewrite Hname.
  rewrite process_lines_app. cbn [fst snd process_lines process_line].
  rewrite (process_lines_rows name lines2 1
             (1 + Z.of_nat (List.length lines1) + 1)).
  destruct (process_lines lbl name (1 + Z.of_nat (List.length lines1) + 1) lines2).
  destruct (process_files lbl after). reflexivity.
Qed.

(** ... which are the rows of the same directory without that line. *)
Lemma malformed_line_dropped (before after : list batch_file) (name : string)
  (lines1 lines2 : list (option Py.value)) :
  fst (process_jsonl_files_with lbl
         (Some (before ++ (name, lines1 ++ None :: lines2) :: after)))
  = fst (process_jsonl_files_with lbl
           (Some (before ++ (name, lines1 ++ lines2) :: after))).
Proof.
  rewrite !process_jsonl_files_with_rows, !process_files_app. cbn [fst].
  f_equal. cbn [process_files]. unfold process_file. cbn [fst snd].
  destruct (Py.endswith name ".jsonl"); [|reflexivity].
  rewrite !process_lines_app. cbn [fst snd process_lines process_line].
  rewrite (process_lines_rows name lines2
             (1 + Z.of_nat (List.length lines1))
             (1 + Z.of_nat (List.length lines1) + 1)).
  destruct (process_lines lbl name (1 + Z.of_nat (List.length lines1) + 1) lines2).
  destruct (process_files lbl after). reflexivity.
Qed.

(** The report of the malformed line names the file and the line number. *)
Lemma malformed_line_logged (before after : list batch_file) (name : string)
  (lines1 lines2 : list (option Py.value)) :
  Py.endswith name ".jsonl" = true ->
  In (JsonDecodeError name (1 + Z.of_nat (List.length lines1)))
     (snd (process_jsonl_files_with lbl
             (Some (before ++ (name, lines1 ++ None :: lines2) :: after)))).
Proof.
  intros Hname. apply process_jsonl_files_with_log.
  rewrite process_files_app. cbn [snd]. apply in_or_app. right.
  cbn [process_files]. unfold process_file at 1. cbn [fst snd]. rewrite Hname.
  rewrite process_lines_app. cbn [process_lines process_line fst snd].
  destruct (process_lines lbl name (1 + Z.of_nat (List.length lines1) + 1) lines2).
  destruct (process_files lbl after). cbn [fst snd].
  apply in_or_app. left. apply in_or_app. right. now left.
Qed.

(** A row of a line carries a trimmed, non-empty text. *)
Lemma process_line_text (f : string) (n : Z) (p : option Py.value) (r : row L) :
  In r (fst (process_line lbl f n p)) -> trimmed_text r.
Proof.
  unfold process_line.
  destruct p as [[| | | |l|data]|]; try (intros []).
  destruct (value_truthy (extract_text data)); [|intros []].
  destruct (extract_text data) as [| | |t| |]; try (intros []).
  destruct (Py.truthy (Py.strip t)) eqn:Ht; [|intros []].
  intros [<-|[]]. exists (Py.strip t). cbn [text].
  split; [reflexivity|]. split; [now apply truthy_true_iff|].
  apply strip_idempotent.
Qed.

Lemma process_lines_text (f : string) (lines : list (option Py.value)) (n : Z)
  (r : row L) :
  In r (fst (process_lines lbl f n lines)) -> trimmed_text r.
Proof.
  revert n. induction lines as [|p lines IH]; intros n; [intros []|].
  cbn [process_lines].
  pose proof (process_line_text f n p r) as Hp. specialize (IH (n + 1)).
  destruct (process_line lbl f n p), (process_lines lbl f (n + 1) lines).
  cbn [fst] in *. intros H. apply in_app_or in H. tauto.
Qed.

Lemma process_files_text (files : list batch_file) (r : row L) :
  In r (fst (process_files lbl files)) -> trimmed_text r.
Proof.
  induction files as [|f files IH]; [intros []|].
  cbn [process_files].
  assert (Hf : In r (fst (process_file lbl f)) -> trimmed_text r).
  { unfold process_file. destruct (Py.endswith (fst f) ".jsonl"); [|intros []].
    apply process_lines_text. }
  destruct (process_file lbl f), (process_files lbl files).
  cbn [fst] in *. intros H. apply in_app_or in H. tauto.
Qed.

Lemma process_jsonl_files_with_text (d : directory) (r : row L) :
  In r (fst (process_jsonl_files_with lbl d)) -> trimmed_text r.
Proof.
  destruct d as [files|]; [|intros []].
  rewrite process_jsonl_files_with_rows. apply process_files_text.
Qed.

(** A line whose text is blank gives no row and no report. *)
Lemma blank_line_no_row (f : string) (n : Z) (data : list (string * Py.value)) :
  blank_text (extract_text data) = true ->
  process_line lbl f n (Some (Py.VDict data)) = ([], []).
Proof.
  unfold process_line, blank_text.
  destruct (extract_text data) as [| | |t| |]; try discriminate; [reflexivity|].
  cbn [value_truthy]. intros H. apply negb_true_iff in H. rewrite H.
  now destruct (Py.truthy t).
Qed.

End NormaliserFacts.

Section NormaliserProperties.

Import MergeDatasets.
Open Scope string_scope.
Open Scope list_scope.
Open Scope Z_scope.

(** C7. When one line of a batch file does not parse as JSON, the
    normaliser (in [merge_datasets.py] and in [merge_collected_data.py])
    reports the file name and the line number and skips that line only: its
    rows are those of the directory without the line, that is the rows of
    the files before, of the lines before and after the malformed one, and
    of the files after. *)
Theorem malformed_line_is_skipped
  (before after : list batch_file) (name : string)
  (lines1 lines2 : list (option Py.value))
  (Hname : Py.endswith name ".jsonl" = true) :
  let d := Some (before ++ (name, lines1 ++ None :: lines2) :: after) in
  let d' := Some (before ++ (name, lines1 ++ lines2) :: after) in
  (fst (MergeDatasets.process_jsonl_files d)
   = fst (MergeDatasets.process_jsonl_files d')
   /\ fst (MergeDatasets.process_jsonl_files d)
      = fst (process_files None before)
        ++ (fst (process_lines None name 1 lines1)
            ++ fst (process_lines None name 1 lines2))
        ++ fst (process_files None after)
   /\ In (JsonDecodeError name (1 + Z.of_nat (List.length lines1)))
         (snd (MergeDatasets.process_jsonl_files d)))
  /\ (fst (MergeCollectedData.process_jsonl_files d)
      = fst (MergeCollectedData.process_jsonl_files d')
      /\ fst (MergeCollectedData.process_jsonl_files d)
         = fst (process_files 0 before)
           ++ (fst (process_lines 0 name 1 lines1)
               ++ fst (process_lines 0 name 1 lines2))
           ++ fst (process_files 0 after)
      /\ In (JsonDecodeError name (1 + Z.of_nat (List.length lines1)))
            (snd (MergeCollectedData.process_jsonl_files d))).
Proof.
  intros d d'. unfold MergeDatasets.process_jsonl_files,
    MergeCollectedData.process_jsonl_files, d, d'.
  repeat split;
    first [ apply malformed_line_dropped
          | apply malformed_line_rows; exact Hname
          | apply malformed_line_logged; exact Hname ].
Qed.

Lemma malformed_line_is_skipped_witness :
  List.length (fst (MergeDatasets.process_jsonl_files Samples.batches)) = 5%nat
  /\ In (JsonDecodeError "data_youtube_id_a.jsonl" 2)
        (snd (MergeDatasets.process_jsonl_files Samples.batches)).
Proof.
  pose proof (malformed_line_is_skipped [] [Samples.batch_b]
                "data_youtube_id_a.jsonl"
                [Samples.line "a1" "first comment"]
                [Samples.line "a2" "second comment";
                 Samples.line "a3" "third comment"]
                eq_refl) as [[_ [Hrows Hlog]] _].
  split; [|exact Hlog].
  change (Some ([] ++ ("data_youtube_id_a.jsonl",
                       [Samples.line "a1" "first comment"]
                       ++ None :: [Samples.line "a2" "second comment";
                                   Samples.line "a3" "third comment"])
                   :: [Samples.batch_b]))
    with Samples.batches in Hrows.
  rewrite Hrows. reflexivity.
Defined.

(** C10. A line that parses but whose text, taken from [text_raw], else
    [text], else [content], is missing, empty or white space only gives no
    row; so every row the normaliser returns (in both modules) has a text
    that is there, is not empty and is trimmed. *)
Theorem normaliser_rows_have_text :
  (forall (L : Type) (lbl : L) f n data,
      blank_text (extract_text data) = true ->
      process_line lbl f n (Some (Py.VDict data)) = ([], []))
  /\ (forall d r, In r (fst (MergeDatasets.process_jsonl_files d)) ->
                  trimmed_text r)
  /\ (forall d r, In r (fst (MergeCollectedData.process_jsonl_files d)) ->
                  trimmed_text r).
Proof.
  split; [exact blank_line_no_row|].
  split; intros d r; apply process_jsonl_files_with_text.
Qed.

Lemma normaliser_rows_have_text_witness :
  process_line (@None Z) "data_youtube_id_a.jsonl" 1
    (Some (Py.VDict [("id", Py.VStr "a1"); ("text_raw", Py.VStr "  ");
                     ("text", Py.VStr "kept elsewhere")]))
  = ([], [])
  /\ trimmed_text
       {| source := Py.VStr "youtube"; source_id := Some (Py.VStr "b1");
          text := Some "second comment"; label := @None Z |}.
Proof.
  destruct normaliser_rows_have_text as (Hline & Hrows & _).
  split.
  - apply Hline. reflexivity.
  - apply (Hrows Samples.batches). vm_compute. tauto.
Defined.

(** The text is looked up by the presence of a key, not by its content: an
    empty [text_raw] hides a [text] that has content. *)
Example empty_text_raw_hides_text :
  extract_text [("text_raw", Py.VStr ""); ("text", Py.VStr "some content")]
  = Py.VStr "".
Proof. reflexivity. Qed.

End NormaliserProperties.

(* ================================================================== *)
(** * The merge engine: deduplication and cleaning *)
(* ================================================================== *)

Section DedupFacts.

Import MergeDatasets.
Open Scope string_scope.
Open Scope list_scope.
Open Scope Z_scope.

Variable L : Type.

Lemma text_eqb_eq (a b : option string) : text_eqb a b = true <-> a = b.
Proof.
  destruct a as [x|], b as [y|]; cbn; try (split; congruence).
  rewrite String.eqb_eq. split; congruence.
Qed.

Lemma seen_spec (x : option string) (seen : list (option string)) :
  existsb (text_eqb x) seen = true <-> In x seen.
Proof.
  rewrite existsb_exists. split.
  - intros (y & Hy & E). apply text_eqb_eq in E. now subst.
  - intros H. exists x. split; [exact H | now apply text_eqb_eq].
Qed.

Lemma seen_false (x : option string) (seen : list (option string)) :
  existsb (text_eqb x) seen = false <-> ~ In x seen.
Proof.
  rewrite <- seen_spec. destruct (existsb (text_eqb x) seen); split; congruence.
Qed.

(** A row is kept exactly when it stands at a place of the table before
    which its text occurs neither in the table nor among the texts seen. *)
Lemma drop_duplicates_from_in (l : list (row L)) :
  forall (seen : list (option string)) (r : row L),
    In r (drop_duplicates_from seen l) <->
    exists l1 l2, l = l1 ++ r :: l2
                  /\ ~ In (text r) seen /\ ~ In (text r) (map (@text L) l1).
Proof.
  induction l as [|x rest IH]; intros seen r.
  - cbn. split; [intros [] | intros (l1 & l2 & E & _)].
    now destruct l1.
  - cbn [drop_duplicates_from].
    destruct (existsb (text_eqb (text x)) seen) eqn:Hx.
    + apply seen_spec in Hx. rewrite IH. split.
      * intros (l1 & l2 & -> & Hs & H1). exists (x :: l1), l2.
        split; [reflexivity|]. split; [exact Hs|].
        cbn. intros [E|H]; [|now apply H1]. apply Hs. now rewrite <- E.
      * intros (l1 & l2 & E & Hs & H1). destruct l1 as [|y l1].
        -- cbn in E. injection E as -> _. contradiction.
        -- cbn in E. injection E as -> ->. exists l1, l2.
           split; [reflexivity|]. split; [exact Hs|].
           intros H. apply H1. now right.
    + apply seen_false in Hx. cbn [In]. rewrite IH. split.
      * intros [<-|(l1 & l2 & -> & Hs & H1)].
        -- exists [], rest. split; [reflexivity|]. split; [exact Hx | intros []].
        -- exists (x :: l1), l2. split; [reflexivity|].
           split; [intros H; apply Hs; now right|].
           cbn. intros [E|H]; [|now apply H1]. apply Hs. now left.
      * intros (l1 & l2 & E & Hs & H1). destruct l1 as [|y l1].
        -- cbn in E. injection E as -> _. now left.
        -- cbn in E. injection E as -> ->. right. exists l1, l2.
           split; [reflexivity|]. split.
           ++ intros [E|H]; [|now apply Hs]. apply H1. now left.
           ++ intros H. apply H1. now right.
Qed.

Lemma drop_duplicates_in (l : list (row L)) (r : row L) :
  In r (drop_duplicates l) <->
  exists l1 l2, l = l1 ++ r :: l2 /\ ~ In (text r) (map (@text L) l1).
Proof.
  unfold drop_duplicates. rewrite drop_duplicates_from_in. split.
  - intros (l1 & l2 & E & _ & H). now exists l1, l2.
  - intros (l1 & l2 & E & H). exists l1, l2. repeat split; auto.
Qed.

(** No text occurs twice after [drop_duplicates]. *)
Lemma drop_duplicates_from_NoDup (l : list (row L)) :
  forall seen, NoDup (map (@text L) (drop_duplicates_from seen l)).
Proof.
  induction l as [|x rest IH]; intros seen; [constructor|].
  cbn [drop_duplicates_from].
  destruct (existsb (text_eqb (text x)) seen); [apply IH|].
  cbn [map]. constructor; [|apply IH].
  rewrite in_map_iff. intros (r & E & Hr).
  apply drop_duplicates_from_in in Hr. destruct Hr as (_ & _ & _ & Hs & _).
  apply Hs. now left.
Qed.

Lemma drop_duplicates_NoDup (l : list (row L)) :
  NoDup (map (@text L) (drop_duplicates l)).
Proof. apply drop_duplicates_from_NoDup. Qed.

(** Dropping rows keeps the texts distinct. *)
Lemma filter_rows_NoDup (keep : row L -> bool) (rows : list (row L)) :
  NoDup (map (@text L) rows) -> NoDup (map (@text L) (filter keep rows)).
Proof.
  intros Hrows. induction rows as [|x rows IH]; cbn; [constructor|].
  inversion Hrows as [|? ? Hx Hl]; subst.
  destruct (keep x); [|now apply IH].
  cbn. constructor; [|now apply IH].
  rewrite in_map_iff in *. intros (y & E & Hy).
  apply Hx. exists y. split; [exact E|]. apply filter_In in Hy. tauto.
Qed.

(** Every text of the table is still there after [drop_duplicates]. *)
Lemma drop_duplicates_keeps_texts (l : list (row L)) (r : row L) :
  In r l -> In (text r) (map (@text L) (drop_duplicates l)).
Proof.
  unfold drop_duplicates.
  assert (G : forall seen, In r l ->
              In (text r) seen
              \/ In (text r) (map (@text L) (drop_duplicates_from seen l))).
  { induction l as [|x rest IH]; intros seen; [intros []|].
    cbn [drop_duplicates_from]. intros [->|Hin].
    - destruct (existsb (text_eqb (text r)) seen) eqn:Hx.
      + left. now apply seen_spec.
      + right. cbn. now left.
    - destruct (existsb (text_eqb (text x)) seen) eqn:Hx.
      + now apply IH.
      + destruct (IH (text x :: seen) Hin) as [[E|H]|H].
        * right. cbn. left. exact E.
        * now left.
        * right. cbn. now right. }
  intros Hin. destruct (G [] Hin) as [[]|H]. exact H.
Qed.

End DedupFacts.

Section MergeFacts.

Import MergeDatasets.
Open Scope string_scope.
Open Scope list_scope.
Open Scope Z_scope.

(** Leaving the empty frames out does not change the concatenation. *)
Lemma concat_non_empty_frames (A : Type) (dfs : list (list A)) :
  List.concat (non_empty_frames dfs) = List.concat dfs.
Proof.
  induction dfs as [|df dfs IH]; [reflexivity|].
  cbn [non_empty_frames filter List.concat].
  destruct df as [|x df].
  - cbn. exact IH.
  - replace (0 <? Z.of_nat (List.length (x :: df))) with true
      by (symmetry; apply Z.ltb_lt; cbn [List.length]; lia).
    cbn [List.concat]. f_equal. exact IH.
Qed.

Lemma non_empty_frames_nil (A : Type) (dfs : list (list A)) :
  non_empty_frames dfs = [] <-> Forall (fun df => df = []) dfs.
Proof.
  induction dfs as [|df dfs IH]; [split; constructor|].
  cbn [non_empty_frames filter]. destruct df as [|x df].
  - cbn. unfold non_empty_frames in IH. rewrite IH. split.
    + intros H. now constructor.
    + intros H. now inversion H.
  - replace (0 <? Z.of_nat (List.length (x :: df))) with true
      by (symmetry; apply Z.ltb_lt; cbn [List.length]; lia).
    split; [discriminate|]. intros H. inversion H. discriminate.
Qed.

(** The two ways [merge_frames] ends. *)
Lemma merge_frames_cases (dfs : list (list (row (option Z)))) :
  (Forall (fun df => df = []) dfs
   /\ merge_frames dfs = (NoData, [NoDataProcessed]))
  \/ (~ Forall (fun df => df = []) dfs
      /\ merge_frames dfs
         = (Written (filter (@long_enough Z)
                       (drop_duplicates (map fillna0 (List.concat dfs)))), [])).
Proof.
  unfold merge_frames. rewrite <- (concat_non_empty_frames _ dfs).
  destruct (non_empty_frames dfs) as [|df rest] eqn:E.
  - left. split; [now apply non_empty_frames_nil | reflexivity].
  - right. split; [|reflexivity].
    intros H. apply non_empty_frames_nil in H. congruence.
Qed.

(** When [merge_all_datasets] writes a table, the spreadsheet and ArSAS
    were loaded, and the table is the concatenation without the repeated
    texts and without the short ones. *)
Lemma merge_all_datasets_written (excel : excel_file) (arsas tsac : hf_load)
  (dir : directory) (table : list (row Z)) (log : list event) :
  merge_all_datasets excel arsas tsac dir = (Written table, log) ->
  exists s arsas_df,
    excel = ExcelSheet s
    /\ fst (process_arsas_dataset arsas) = Some arsas_df
    /\ table = filter (@long_enough Z)
                 (drop_duplicates (concatenated s arsas_df tsac dir)).
Proof.
  unfold merge_all_datasets. destruct excel as [| |s]; try discriminate.
  destruct (process_arsas_dataset arsas) as [[arsas_df|] log1]; try discriminate.
  unfold concatenated.
  destruct (process_tsac_dataset tsac) as [tsac_df log2].
  destruct (process_jsonl_files dir) as [jsonl_df log3]. cbn [fst].
  destruct (merge_frames_cases [process_excel_data s; arsas_df; tsac_df; jsonl_df])
    as [[_ E]|[_ E]]; rewrite E; [discriminate|].
  intros H. injection H as <- _. exists s, arsas_df.
  repeat split. cbn [List.concat]. now rewrite app_nil_r.
Qed.


End MergeFacts.

Section MergeProperties.

Import MergeDatasets.
Open Scope string_scope.
Open Scope list_scope.
Open Scope Z_scope.





(** C4 (as the code has it). The merge engine deduplicates the concatenated
    table by exact equality of the texts as they are stored: no text occurs
    twice in the final table, and a row is in the final table exactly when
    it is long enough and stands in the concatenation (spreadsheet, ArSAS,
    TSAC, batch files; each in its own order) at a place before which the
    same text does not occur.  Only the rows of the batch files are stored
    trimmed; the texts of the other origins are compared untrimmed. *)
Theorem dedup_keeps_first_of_each_text
  (excel : excel_file) (arsas tsac : hf_load) (dir : directory)
  (table : list (row Z)) (log : list event)
  (H : merge_all_datasets excel arsas tsac dir = (Written table, log)) :
  exists s arsas_df,
    excel = ExcelSheet s
    /\ fst (process_arsas_dataset arsas) = Some arsas_df
    /\ NoDup (map (@text Z) table)
    /\ (forall r, In r table <->
                  long_enough r = true
                  /\ exists l1 l2,
                       concatenated s arsas_df tsac dir = l1 ++ r :: l2
                       /\ ~ In (text r) (map (@text Z) l1))
    /\ (forall r, In r (fst (process_jsonl_files dir)) -> trimmed_text r).
Proof.
  destruct (merge_all_datasets_written _ _ _ _ _ _ H) as (s & df & -> & Ha & ->).
  exists s, df. split; [reflexivity|]. split; [exact Ha|]. split; [|split].
  - apply filter_rows_NoDup, drop_duplicates_NoDup.
  - intros r. rewrite filter_In, drop_duplicates_in. tauto.
  - intros r. apply process_jsonl_files_with_text.
Qed.

Lemma dedup_keeps_first_of_each_text_witness :
  exists table,
    fst (merge_all_datasets (ExcelSheet Samples.sheet_one_post)
           (HfDatasetDict []) HfError Samples.batches) = Written table
    /\ NoDup (map (@text Z) table).
Proof.
  eexists. split; [reflexivity|].
  destruct (dedup_keeps_first_of_each_text
              (ExcelSheet Samples.sheet_one_post) (HfDatasetDict []) HfError
              Samples.batches _ _ eq_refl) as (s & df & _ & _ & Hnodup & _).
  exact Hnodup.
Defined.

(** C4, counterexample: two rows whose trimmed texts are equal both reach
    the final table when their stored texts differ by a trailing space. *)
Lemma dedup_compares_untrimmed_text :
  exists r1 r2 log,
    merge_all_datasets (ExcelSheet Samples.sheet_trailing_space)
      (HfDatasetDict []) HfError None = (Written [r1; r2], log)
    /\ text r1 = Some "hello world"
    /\ text r2 = Some "hello world "
    /\ Py.strip "hello world" = Py.strip "hello world ".
Proof. do 3 eexists. repeat split. Qed.

(** C9. In the final table no row has a trimmed text of five characters or
    fewer, and a row that is left after deduplication and whose trimmed
    text has six characters is in the final table. *)
Theorem short_texts_are_excluded
  (excel : excel_file) (arsas tsac : hf_load) (dir : directory)
  (table : list (row Z)) (log : list event)
  (H : merge_all_datasets excel arsas tsac dir = (Written table, log)) :
  (forall r t, text r = Some t -> Py.len (Py.strip t) <= 5 -> ~ In r table)
  /\ (forall r, In r table ->
                exists t, text r = Some t /\ 5 < Py.len (Py.strip t))
  /\ exists s arsas_df,
       excel = ExcelSheet s
       /\ fst (process_arsas_dataset arsas) = Some arsas_df
       /\ forall r t,
            In r (drop_duplicates (concatenated s arsas_df tsac dir)) ->
            text r = Some t -> Py.len (Py.strip t) = 6 -> In r table.
Proof.
  destruct (merge_all_datasets_written _ _ _ _ _ _ H) as (s & df & -> & Ha & ->).
  split; [|split].
  - intros r t Ht Hlen Hin. apply filter_In in Hin. destruct Hin as [_ Hl].
    unfold long_enough in Hl. rewrite Ht in Hl. apply Z.ltb_lt in Hl. lia.
  - intros r Hin. apply filter_In in Hin. destruct Hin as [_ Hl].
    unfold long_enough in Hl. destruct (text r) as [t|]; [|discriminate].
    exists t. split; [reflexivity | now apply Z.ltb_lt].
  - exists s, df. split; [reflexivity|]. split; [exact Ha|].
    intros r t Hin Ht Hlen. apply filter_In. split; [exact Hin|].
    unfold long_enough. rewrite Ht. apply Z.ltb_lt. lia.
Qed.

Lemma short_texts_are_excluded_witness :
  exists r5 r6 table,
    text r5 = Some " abcde " /\ text r6 = Some " abcdef "
    /\ fst (merge_all_datasets (ExcelSheet Samples.sheet_boundary)
              (HfDatasetDict []) HfError None) = Written table
    /\ ~ In r5 table /\ In r6 table.
Proof.
  exists (fillna0 (process_excel_row Samples.sheet_boundary
                     {| cell_label := None; cell_post := Some " abcde " |})),
         (fillna0 (process_excel_row Samples.sheet_boundary
                     {| cell_label := None; cell_post := Some " abcdef " |})).
  eexists. split; [reflexivity|]. split; [reflexivity|].
  split; [reflexivity|].
  destruct (short_texts_are_excluded
              (ExcelSheet Samples.sheet_boundary) (HfDatasetDict []) HfError
              None _ _ eq_refl) as (Hshort & _ & s & df & Es & Ea & Hkeep).
  split.
  - apply (Hshort _ " abcde "); [reflexivity | vm_compute; discriminate].
  - injection Es as <-. injection Ea as <-.
    apply (Hkeep _ " abcdef "); [vm_compute; tauto | reflexivity | reflexivity].
Defined.

End MergeProperties.

Section OriginFailures.

Import MergeDatasets.
Open Scope string_scope.
Open Scope list_scope.
Open Scope Z_scope.




(** The same inputs with an ArSAS corpus that loads: four rows of the
    batch files (one text repeats), one of the spreadsheet, one of TSAC. *)
Example merge_of_samples :
  exists table,
    fst (merge_all_datasets (ExcelSheet Samples.sheet_one_post)
           (HfDatasetDict []) Samples.tsac_one Samples.batches) = Written table
    /\ List.length table = 6%nat
    /\ map (@label Z) table = [2; 1; 0; 0; 0; 0].
Proof. eexists. repeat split. Qed.

(** The scenario of the specification: two batch files, no other origin
    with rows; five rows are read, four are left, all with label 0. *)
Example merge_of_batches_only :
  exists table,
    List.length (fst (process_jsonl_files Samples.batches)) = 5%nat
    /\ fst (merge_all_datasets (ExcelSheet Samples.sheet_empty)
              (HfDatasetDict []) HfError Samples.batches) = Written table
    /\ map (@label Z) table = [0; 0; 0; 0].
Proof. eexists. repeat split. Qed.

End OriginFailures.

(* ================================================================== *)
(** * The YouTube collector *)
(* ================================================================== *)

Section YouTubeFacts.

Import BaseCollector YouTubeCollector.
Open Scope string_scope.
Open Scope list_scope.
Open Scope Z_scope.

Variable W : Type.
Variable build : Py.M W bool.
Variable commentThreads_list : string -> Z -> option string -> Py.M W response.
Variable search_list : string -> Z -> Py.M W search_response.
Variable env : Config.env.

(** The loop over the items of a page keeps [total_collected] equal to the
    number of comments, never passes [max_results], and counts at least
    one comment unless the page is empty or its first items raise. *)
Lemma page_loop_count (items : list thread) (max_results : Z) :
  forall (comments : list record) (total : Z),
    Z.of_nat (List.length comments) = total -> total < max_results ->
    forall comments' total' raised,
      page_loop items max_results comments total = (comments', total', raised) ->
      Z.of_nat (List.length comments') = total'
      /\ total' <= max_results
      /\ (raised = false -> items <> [] -> total < total').
Proof.
  induction items as [|[|i t u] rest IH]; intros comments total Hlen Hlt c' t' r.
  - cbn. intros E. injection E as <- <- <-.
    repeat split; try lia; congruence.
  - cbn. intros E. injection E as <- <- <-.
    repeat split; try lia; discriminate.
  - cbn [page_loop].
    assert (Hlen' : Z.of_nat (List.length (comments ++ [comment_data i t u]))
                    = total + 1).
    { rewrite length_app. cbn [List.length]. lia. }
    destruct (total + 1 >=? max_results) eqn:Hge.
    + intros E. injection E as <- <- <-. repeat split; lia.
    + intros E. rewrite Z.geb_leb in Hge. apply Z.leb_gt in Hge.
      destruct (IH _ _ Hlen' Hge _ _ _ E) as (H1 & H2 & H3).
      repeat split; try assumption. intros Hr _.
      destruct rest as [|x rest'].
      * cbn in E. injection E as <- <- <-. lia.
      * specialize (H3 Hr ltac:(discriminate)). lia.
Qed.

(** A property of records that holds of the comments collected so far and
    of the record of every well-formed item holds after the loop. *)
Lemma page_loop_forall (P : record -> Prop) (items : list thread)
  (max_results : Z) :
  (forall i t u, In (Thread i t u) items -> P (comment_data i t u)) ->
  forall (comments : list record) (total : Z),
    Forall P comments ->
    Forall P (fst (fst (page_loop items max_results comments total))).
Proof.
  induction items as [|[|i t u] rest IH]; intros Hitems comments total Hc;
    cbn [page_loop]; try exact Hc.
  assert (Hc' : Forall P (comments ++ [comment_data i t u])).
  { apply Forall_app. split; [exact Hc|]. constructor; [|constructor].
    apply Hitems. now left. }
  destruct (total + 1 >=? max_results); [exact Hc'|].
  apply IH; [|exact Hc']. intros i' t' u' Hin. apply Hitems. now right.
Qed.

Lemma pages_loop_spec (P : record -> Prop) (HP : listing_satisfies commentThreads_list P)
  (video_id : string) (max_results : Z) :
  forall (fuel : nat) (token : option string) (comments : list record)
    (total : Z) (w : W) (r : list record) (w' : W),
    Z.of_nat (List.length comments) = total -> total <= max_results ->
    Forall P comments ->
    pages_loop commentThreads_list fuel video_id max_results token comments
      total w = (Some r, w') ->
    Z.of_nat (List.length r) <= max_results /\ Forall P r.
Proof.
  induction fuel as [|fuel IH]; intros token comments total w r w' Hlen Hle Hc;
    cbn [pages_loop]; destruct (total <? max_results) eqn:Hlt;
    try (intros E; injection E as <- <-; split; [lia | exact Hc]).
  - discriminate.
  - apply Z.ltb_lt in Hlt. unfold Py.bind.
    pose proof (HP video_id (Z.min 100 (max_results - total)) token w) as Hitems.
    destruct (commentThreads_list video_id (Z.min 100 (max_results - total))
                token w) as [resp w1].
    cbn [fst] in Hitems.
    destruct resp as [status| |items next];
      try (intros E; injection E as <- <-; split; [lia | exact Hc]).
    destruct items as [|x items'];
      try (intros E; injection E as <- <-; split; [lia | exact Hc]).
    pose proof (page_loop_forall P (x :: items') max_results Hitems
                  comments total Hc) as HP'.
    destruct (page_loop (x :: items') max_results comments total)
      as [[c' t'] raised] eqn:Epage.
    destruct (page_loop_count _ _ _ _ Hlen Hlt _ _ _ Epage) as (H1 & H2 & _).
    cbn [fst] in HP'.
    destruct raised;
      [intros E; injection E as <- <-; split; [lia | exact HP']|].
    destruct (Config.truthy next);
      [|intros E; injection E as <- <-; split; [lia | exact HP']].
    apply IH; assumption.
Qed.

(** [max_results - total_collected] pages are enough. *)
Lemma pages_loop_enough (video_id : string) (max_results : Z) :
  forall (fuel : nat) (token : option string) (comments : list record)
    (total : Z) (w : W),
    Z.of_nat (List.length comments) = total ->
    (Z.to_nat (max_results - total) <= fuel)%nat ->
    exists r w',
      pages_loop commentThreads_list fuel video_id max_results token comments
        total w = (Some r, w').
Proof.
  induction fuel as [|fuel IH]; intros token comments total w Hlen Hfuel;
    cbn [pages_loop]; destruct (total <? max_results) eqn:Hlt;
    try (now eexists _, _).
  - apply Z.ltb_lt in Hlt. lia.
  - apply Z.ltb_lt in Hlt. unfold Py.bind.
    destruct (commentThreads_list video_id (Z.min 100 (max_results - total))
                token w) as [resp w1].
    destruct resp as [status| |items next]; try (now eexists _, _).
    destruct items as [|x items']; try (now eexists _, _).
    destruct (page_loop (x :: items') max_results comments total)
      as [[c' t'] raised] eqn:Epage.
    destruct (page_loop_count _ _ _ _ Hlen Hlt _ _ _ Epage) as (H1 & H2 & H3).
    destruct raised; [now eexists _, _|].
    destruct (Config.truthy next); [|now eexists _, _].
    apply IH; [exact H1|].
    specialize (H3 eq_refl ltac:(discriminate)). lia.
Qed.

(** [_get_video_comments] returns at most [max_results] comments, none for
    a [max_results] that is not positive. *)
Lemma get_video_comments_spec (P : record -> Prop) (HP : listing_satisfies commentThreads_list P)
  (video_id : string) (max_results : Z) (w : W) :
  Z.of_nat (List.length (fst (_get_video_comments commentThreads_list
                                video_id max_results w)))
  <= Z.max 0 max_results
  /\ Forall P (fst (_get_video_comments commentThreads_list video_id
                      max_results w)).
Proof.
  unfold _get_video_comments, Py.bind.
  destruct (pages_loop commentThreads_list (Z.to_nat max_results) video_id
              max_results None [] 0 w) as [[r|] w'] eqn:E; cbn [fst Py.ret].
  - destruct (Z.le_gt_cases 0 max_results) as [Hpos|Hneg].
    + destruct (pages_loop_spec P HP video_id max_results _ None [] 0 w r w'
                  eq_refl Hpos (Forall_nil P) E) as [Hb Hf].
      split; [lia | exact Hf].
    + replace (Z.to_nat max_results) with 0%nat in E by lia.
      cbn [pages_loop] in E.
      replace (0 <? max_results) with false in E
        by (symmetry; apply Z.ltb_ge; lia).
      injection E as <- <-. split; [cbn; lia | constructor].
  - split; [cbn; lia | constructor].
Qed.

(** [collect_by_id] returns nothing, or what [_get_video_comments]
    returns in the world after the authentication. *)
Lemma youtube_collect_by_id_result (c : collector) (video_id : string)
  (limit : Z) (w : W) :
  fst (fst (collect_by_id build commentThreads_list env c video_id limit w)) = []
  \/ exists w1,
       fst (fst (collect_by_id build commentThreads_list env c video_id limit w))
       = fst (_get_video_comments commentThreads_list video_id limit w1).
Proof.
  unfold collect_by_id, Py.bind.
  destruct ((if client c then Py.ret (true, c) else authenticate build env c) w)
    as [[ok c1] w1].
  destruct ok; [|now left]. right. exists w1.
  now destruct (_get_video_comments commentThreads_list video_id limit w1).
Qed.

Lemma youtube_collect_by_id_spec (P : record -> Prop)
  (HP : listing_satisfies commentThreads_list P)
  (c : collector) (video_id : string) (limit : Z) (w : W) :
  Z.of_nat (List.length
              (fst (fst (collect_by_id build commentThreads_list env c
                           video_id limit w)))) <= Z.max 0 limit
  /\ Forall P (fst (fst (collect_by_id build commentThreads_list env c
                           video_id limit w))).
Proof.
  destruct (youtube_collect_by_id_result c video_id limit w) as [E|[w1 E]];
    rewrite E.
  - split; [cbn; lia | constructor].
  - apply get_video_comments_spec, HP.
Qed.

(** The loop over the videos found: with a budget of one comment a video,
    or with a budget that fits the limit for all videos left, the total
    stays within the limit. *)
Lemma videos_loop_spec (P : record -> Prop)
  (HP : listing_satisfies commentThreads_list P)
  (Hset : forall ks r, P r -> P (set_keyword_search ks r))
  (keywords : list string) (limit per : Z) (Hper : 1 <= per) :
  forall (video_ids : list string) (comments : list record) (w : W),
    per = 1
    \/ Z.of_nat (List.length comments) + per * Z.of_nat (List.length video_ids)
       <= limit ->
    Z.of_nat (List.length comments) <= Z.max 0 limit ->
    Forall P comments ->
    Z.of_nat (List.length
                (fst (videos_loop commentThreads_list keywords video_ids limit
                        per comments w))) <= Z.max 0 limit
    /\ Forall P (fst (videos_loop commentThreads_list keywords video_ids limit
                        per comments w)).
Proof.
  induction video_ids as [|v rest IH]; intros comments w Hbudget Hlen Hc;
    cbn [videos_loop]; [now split|].
  destruct (Z.of_nat (List.length comments) >=? limit) eqn:Hge; [now split|].
  rewrite Z.geb_leb in Hge. apply Z.leb_gt in Hge.
  unfold Py.bind.
  destruct (get_video_comments_spec P HP v per w) as [Hvc HvP].
  destruct (_get_video_comments commentThreads_list v per w) as [vc w1].
  cbn [fst] in Hvc, HvP.
  assert (Hlen' : Z.of_nat (List.length
                              (comments ++ map (set_keyword_search keywords) vc))
                  = Z.of_nat (List.length comments) + Z.of_nat (List.length vc)).
  { rewrite length_app, length_map. lia. }
  apply IH.
  - destruct Hbudget as [->|Hb]; [now left|]. right.
    cbn [List.length] in Hb. nia.
  - destruct Hbudget as [->|Hb]; [lia|]. cbn [List.length] in Hb. nia.
  - apply Forall_app. split; [exact Hc|].
    apply Forall_map. revert HvP. apply Forall_impl. intros r. apply Hset.
Qed.

Lemma youtube_search_and_collect_spec (P : record -> Prop)
  (HP : listing_satisfies commentThreads_list P)
  (Hset : forall ks r, P r -> P (set_keyword_search ks r))
  (keywords : list string) (limit : Z) (w : W) :
  Z.of_nat (List.length
              (fst (_search_and_collect commentThreads_list search_list
                      keywords limit w))) <= Z.max 0 limit
  /\ Forall P (fst (_search_and_collect commentThreads_list search_list
                      keywords limit w)).
Proof.
  unfold _search_and_collect, Py.bind.
  destruct (_search_videos_by_keywords search_list keywords 10 w)
    as [video_ids w1].
  destruct video_ids as [|v rest]; [split; [cbn; lia | constructor]|].
  set (n := Z.of_nat (List.length (v :: rest))).
  assert (Hn : 0 < n) by (unfold n; cbn [List.length]; lia).
  apply videos_loop_spec; try assumption; try lia; [|cbn; lia|constructor].
  fold n. destruct (Z.le_gt_cases (limit / n) 1) as [Hsmall|Hbig].
  - left. lia.
  - right. cbn [List.length Z.of_nat Z.add]. fold n.
    replace (Z.max 1 (limit / n)) with (limit / n) by lia.
    pose proof (Z.mul_div_le limit n Hn). nia.
Qed.

Lemma youtube_collect_by_keywords_spec (P : record -> Prop)
  (HP : listing_satisfies commentThreads_list P)
  (Hset : forall ks r, P r -> P (set_keyword_search ks r))
  (c : collector) (keywords : list string) (limit : Z) (w : W) :
  Z.of_nat (List.length
              (fst (fst (collect_by_keywords build commentThreads_list
                           search_list env c keywords limit w))))
  <= Z.max 0 limit
  /\ Forall P (fst (fst (collect_by_keywords build commentThreads_list
                           search_list env c keywords limit w))).
Proof.
  unfold collect_by_keywords, Py.bind.
  destruct ((if client c then Py.ret (true, c) else authenticate build env c) w)
    as [[ok c1] w1].
  destruct ok; [|split; [cbn; lia | constructor]].
  pose proof (youtube_search_and_collect_spec P HP Hset keywords limit w1) as H.
  now destruct (_search_and_collect commentThreads_list search_list keywords
                  limit w1).
Qed.

End YouTubeFacts.

(* ================================================================== *)
(** * The Twitter collector *)
(* ================================================================== *)

Section TwitterFacts.

Import BaseCollector TwitterCollector.
Open Scope string_scope.
Open Scope list_scope.
Open Scope Z_scope.

Variable W : Type.
Variable search_tweets : string -> option string -> Py.M W cursor.
Variable user_timeline : string -> Py.M W cursor.
Variable get_status : string -> Py.M W (option tweet).
Variable connect : Py.M W bool.
Variable env : Config.env.

(** [items(limit)] yields at most [limit] statuses, all of the cursor. *)
Lemma items_length (c : cursor) (limit : Z) :
  Z.of_nat (List.length (fst (items c limit))) <= Z.max 0 limit.
Proof.
  unfold items. destruct (limit <=? Z.of_nat (List.length (statuses c))) eqn:E;
    cbn [fst].
  - rewrite length_firstn. lia.
  - apply Z.leb_gt in E. lia.
Qed.

Lemma items_incl (c : cursor) (limit : Z) (t : tweet) :
  In t (fst (items c limit)) -> In t (statuses c).
Proof.
  unfold items. destruct (limit <=? Z.of_nat (List.length (statuses c)));
    cbn [fst]; [apply firstn_incl | trivial].
Qed.

Lemma items_forall (Q : tweet -> Prop) (c : cursor) (limit : Z) :
  Forall Q (statuses c) -> Forall Q (fst (items c limit)).
Proof.
  rewrite !Forall_forall. intros H t Hin. apply H. now apply items_incl in Hin.
Qed.

Lemma get_user_tweets_spec (P : record -> Prop)
  (HP : timelines_satisfy user_timeline P)
  (username : string) (max_tweets : Z) (w : W) :
  Z.of_nat (List.length (fst (_get_user_tweets user_timeline username
                                max_tweets w))) <= Z.max 0 max_tweets
  /\ Forall P (fst (_get_user_tweets user_timeline username max_tweets w)).
Proof.
  unfold _get_user_tweets, Py.bind. specialize (HP username w).
  destruct (user_timeline username w) as [c w1]. cbn [fst Py.ret] in *.
  split.
  - rewrite length_map. apply items_length.
  - apply Forall_map. now apply items_forall.
Qed.

Lemma get_tweet_replies_spec (P : record -> Prop)
  (HP : searches_satisfy search_tweets P)
  (tweet_id : string) (max_replies : Z) (w : W) :
  Z.of_nat (List.length (fst (_get_tweet_replies search_tweets get_status
                                tweet_id max_replies w)))
  <= Z.max 0 max_replies
  /\ Forall P (fst (_get_tweet_replies search_tweets get_status tweet_id
                      max_replies w)).
Proof.
  unfold _get_tweet_replies, Py.bind.
  destruct (get_status tweet_id w) as [[original|] w1];
    [|split; [cbn; lia | constructor]].
  specialize (HP ("conversation_id:" ++ id_str original)%string None w1).
  destruct (search_tweets ("conversation_id:" ++ id_str original)%string None w1)
    as [c w2]. cbn [fst Py.ret] in *.
  split.
  - rewrite length_map.
    pose proof (items_length c max_replies) as Hi.
    pose proof (filter_length_le
                  (fun t => opt_eqb (in_reply_to_status_id_str t) tweet_id
                            || opt_eqb (in_reply_to_user_id_str t)
                                 (user_id_str original))
                  (fst (items c max_replies))) as Hf.
    lia.
  - apply Forall_map. apply Forall_forall. intros t Hin.
    apply filter_In in Hin. destruct Hin as [Hin _].
    apply items_incl in Hin. rewrite Forall_forall in HP. now apply HP.
Qed.

Lemma twitter_collect_by_id_spec (P : record -> Prop)
  (HPt : timelines_satisfy user_timeline P)
  (HPs : searches_satisfy search_tweets P)
  (Hset : forall m r, P r -> P (set_method m r))
  (c : collector) (source_id : string) (limit : Z) (id_type : string) (w : W) :
  Z.of_nat (List.length
              (fst (fst (collect_by_id search_tweets user_timeline get_status
                           connect env c source_id limit id_type w))))
  <= Z.max 0 limit
  /\ Forall P (fst (fst (collect_by_id search_tweets user_timeline get_status
                           connect env c source_id limit id_type w))).
Proof.
  unfold collect_by_id, Py.bind.
  destruct ((if client c then Py.ret (true, c) else authenticate connect env c) w)
    as [[ok c1] w1].
  destruct ok; [|split; [cbn; lia | constructor]].
  destruct (String.eqb id_type "username").
  - destruct (get_user_tweets_spec P HPt source_id limit w1) as [Hl Hf].
    destruct (_get_user_tweets user_timeline source_id limit w1) as [r w2].
    cbn [fst Py.ret] in *. split; [now rewrite length_map|].
    apply Forall_map. revert Hf. apply Forall_impl. intros x. apply Hset.
  - destruct (String.eqb id_type "tweet_id");
      [|split; [cbn; lia | constructor]].
    destruct (get_tweet_replies_spec P HPs source_id limit w1) as [Hl Hf].
    destruct (_get_tweet_replies search_tweets get_status source_id limit w1)
      as [r w2].
    cbn [fst Py.ret] in *. split; [now rewrite length_map|].
    apply Forall_map. revert Hf. apply Forall_impl. intros x. apply Hset.
Qed.

(** Keyword mode: every keyword has the whole limit for itself. *)
Lemma search_tweets_by_keywords_spec (P : record -> Prop)
  (HP : searches_satisfy search_tweets P)
  (max_tweets : Z) :
  forall (keywords : list string) (w : W),
    Z.of_nat (List.length (fst (_search_tweets_by_keywords search_tweets
                                  keywords max_tweets w)))
    <= Z.max 0 max_tweets * Z.of_nat (List.length keywords)
    /\ Forall P (fst (_search_tweets_by_keywords search_tweets keywords
                        max_tweets w)).
Proof.
  induction keywords as [|k rest IH]; intros w;
    cbn [_search_tweets_by_keywords]; [split; [cbn; lia | constructor]|].
  unfold Py.bind. specialize (HP k (Some "ar") w).
  destruct (search_tweets k (Some "ar") w) as [c w1]. cbn [fst] in HP.
  destruct (IH w1) as [Hl Hf].
  destruct (_search_tweets_by_keywords search_tweets rest max_tweets w1)
    as [tweets w2].
  cbn [fst Py.ret] in *. split.
  - rewrite length_app, length_map. pose proof (items_length c max_tweets).
    cbn [List.length]. lia.
  - apply Forall_app. split; [|exact Hf].
    apply Forall_map. now apply items_forall.
Qed.

Lemma twitter_collect_by_keywords_spec (P : record -> Prop)
  (HP : searches_satisfy search_tweets P)
  (Hset : forall ks r, P r -> P (set_keyword_search ks r))
  (c : collector) (keywords : list string) (limit : Z) (w : W) :
  Z.of_nat (List.length
              (fst (fst (collect_by_keywords search_tweets connect env c
                           keywords limit w))))
  <= Z.max 0 limit * Z.of_nat (List.length keywords)
  /\ Forall P (fst (fst (collect_by_keywords search_tweets connect env c
                           keywords limit w))).
Proof.
  unfold collect_by_keywords, Py.bind.
  destruct ((if client c then Py.ret (true, c) else authenticate connect env c) w)
    as [[ok c1] w1].
  destruct ok; [|split; [cbn; lia | constructor]].
  destruct (search_tweets_by_keywords_spec P HP limit keywords w1) as [Hl Hf].
  destruct (_search_tweets_by_keywords search_tweets keywords limit w1)
    as [r w2].
  cbn [fst Py.ret] in *. split; [now rewrite length_map|].
  apply Forall_map. revert Hf. apply Forall_impl. intros x. apply Hset.
Qed.

End TwitterFacts.

(* ================================================================== *)
(** * The Reddit collector *)
(* ================================================================== *)

Section RedditFacts.

Import BaseCollector RedditCollector.
Open Scope string_scope.
Open Scope list_scope.
Open Scope Z_scope.

Variable W : Type.
Variable connect : Py.M W bool.
Variable fetch_submission : string -> Py.M W (option submission).
Variable search : string -> string -> Z -> Py.M W (option (list post)).
Variable env : Config.env.

Lemma slice_to_length (A : Type) (l : list A) (n : Z) :
  0 <= n -> Z.of_nat (List.length (Py.slice_to l n)) <= n.
Proof.
  intros Hn. unfold Py.slice_to.
  replace (0 <=? n) with true by (symmetry; now apply Z.leb_le).
  rewrite length_firstn. lia.
Qed.

Lemma slice_to_incl (A : Type) (l : list A) (n : Z) (x : A) :
  In x (Py.slice_to l n) -> In x l.
Proof. unfold Py.slice_to. destruct (0 <=? n); apply firstn_incl. Qed.

Lemma comments_loop_length (method : option string) (l : list comment) :
  (List.length (comments_loop method l) <= List.length l)%nat.
Proof.
  induction l as [|cm l IH]; cbn [comments_loop List.length]; [lia|].
  destruct (body cm) as [b|]; [destruct (not_sentinel b)|];
    cbn [List.length]; lia.
Qed.

Lemma comments_loop_forall (P : record -> Prop) (method : option string)
  (l : list comment) :
  (forall cm b, In cm l -> body cm = Some b -> P (comment_data method cm b)) ->
  Forall P (comments_loop method l).
Proof.
  induction l as [|cm l IH]; intros H; cbn [comments_loop]; [constructor|].
  assert (Hl : Forall P (comments_loop method l)).
  { apply IH. intros cm' b Hin. apply H. now right. }
  destruct (body cm) as [b|] eqn:Eb; [|exact Hl].
  destruct (not_sentinel b); [|exact Hl].
  constructor; [|exact Hl]. apply H; [now left | exact Eb].
Qed.

(** No record carries one of the two sentinels as its text. *)
Lemma comments_loop_no_sentinel (method : option string) (l : list comment) :
  Forall (fun r => not_sentinel (text_raw r) = true) (comments_loop method l).
Proof.
  induction l as [|cm l IH]; cbn [comments_loop]; [constructor|].
  destruct (body cm) as [b|]; [|exact IH].
  destruct (not_sentinel b) eqn:Eb; [|exact IH].
  constructor; [exact Eb | exact IH].
Qed.

Lemma sliced_comments_spec (P : record -> Prop) (method : option string)
  (s : submission) (limit : Z) :
  (forall cm b m, In cm (comments s) -> body cm = Some b ->
                  P (comment_data m cm b)) ->
  (0 <= limit ->
   Z.of_nat (List.length (comments_loop method (Py.slice_to (comments s) limit)))
   <= limit)
  /\ Forall P (comments_loop method (Py.slice_to (comments s) limit)).
Proof.
  intros H. split.
  - intros Hl. pose proof (slice_to_length _ (comments s) limit Hl).
    pose proof (comments_loop_length method (Py.slice_to (comments s) limit)).
    lia.
  - apply comments_loop_forall. intros cm b Hin. apply H.
    now apply slice_to_incl in Hin.
Qed.

Lemma reddit_collect_by_id_spec (P : record -> Prop)
  (HP : submissions_satisfy fetch_submission P)
  (c : collector) (post_id : string) (limit : Z) (w : W) :
  (0 <= limit ->
   Z.of_nat (List.length
               (fst (fst (collect_by_id connect fetch_submission env c post_id
                            limit w)))) <= limit)
  /\ Forall P (fst (fst (collect_by_id connect fetch_submission env c post_id
                           limit w))).
Proof.
  unfold collect_by_id, Py.bind.
  destruct ((if client c then Py.ret (true, c) else authenticate connect env c) w)
    as [[ok c1] w1].
  destruct ok; [|split; [cbn; lia | constructor]].
  specialize (HP post_id w1).
  destruct (fetch_submission post_id w1) as [[s|] w2]; cbn [fst] in HP;
    [|split; [cbn; lia | constructor]].
  destruct (Config.truthy (removed_by_category s));
    [split; [cbn; lia | constructor]|].
  cbn [fst Py.ret]. now apply sliced_comments_spec.
Qed.

Lemma get_post_comments_spec (P : record -> Prop)
  (HP : submissions_satisfy fetch_submission P)
  (post_id : string) (max_comments : Z) (w : W) :
  (0 <= max_comments ->
   Z.of_nat (List.length (fst (_get_post_comments fetch_submission post_id
                                 max_comments w))) <= max_comments)
  /\ Forall P (fst (_get_post_comments fetch_submission post_id max_comments w)).
Proof.
  unfold _get_post_comments, Py.bind. specialize (HP post_id w).
  destruct (fetch_submission post_id w) as [[s|] w1]; cbn [fst Py.ret] in *;
    [|split; [cbn; lia | constructor]].
  now apply sliced_comments_spec.
Qed.

Lemma posts_loop_spec (P : record -> Prop)
  (HP : submissions_satisfy fetch_submission P)
  (limit per : Z) (Hper : 1 <= per) :
  forall (posts : list record) (comments : list record) (w : W),
    per = 1
    \/ Z.of_nat (List.length comments) + per * Z.of_nat (List.length posts)
       <= limit ->
    Z.of_nat (List.length comments) <= Z.max 0 limit ->
    Forall P comments ->
    Z.of_nat (List.length
                (fst (posts_loop fetch_submission posts limit per comments w)))
    <= Z.max 0 limit
    /\ Forall P (fst (posts_loop fetch_submission posts limit per comments w)).
Proof.
  induction posts as [|p rest IH]; intros comments w Hbudget Hlen Hc;
    cbn [posts_loop]; [now split|].
  destruct (Z.of_nat (List.length comments) >=? limit) eqn:Hge; [now split|].
  rewrite Z.geb_leb in Hge. apply Z.leb_gt in Hge.
  unfold Py.bind.
  destruct (get_post_comments_spec P HP (id p) per w) as [Hpc HpP].
  specialize (Hpc ltac:(lia)).
  destruct (_get_post_comments fetch_submission (id p) per w) as [pc w1].
  cbn [fst] in Hpc, HpP.
  apply IH.
  - rewrite length_app. destruct Hbudget as [->|Hb]; [now left|]. right.
    cbn [List.length] in Hb. nia.
  - rewrite length_app. destruct Hbudget as [->|Hb]; [lia|].
    cbn [List.length] in Hb. nia.
  - apply Forall_app. now split.
Qed.

Lemma reddit_search_and_collect_spec (P : record -> Prop)
  (HP : submissions_satisfy fetch_submission P)
  (subreddit_name : string) (keywords : list string) (limit : Z) (w : W) :
  Z.of_nat (List.length
              (fst (_search_and_collect fetch_submission search subreddit_name
                      keywords limit w))) <= Z.max 0 limit
  /\ Forall P (fst (_search_and_collect fetch_submission search subreddit_name
                      keywords limit w)).
Proof.
  unfold _search_and_collect, Py.bind.
  destruct (_search_subreddit_posts search subreddit_name keywords (limit / 10) w)
    as [posts w1].
  destruct posts as [|p rest]; [split; [cbn; lia | constructor]|].
  set (n := Z.of_nat (List.length (p :: rest))).
  assert (Hn : 0 < n) by (unfold n; cbn [List.length]; lia).
  apply posts_loop_spec; try assumption; try lia; [|cbn; lia|constructor].
  fold n. destruct (Z.le_gt_cases (limit / n) 1) as [Hsmall|Hbig].
  - left. lia.
  - right. cbn [List.length Z.of_nat Z.add]. fold n.
    replace (Z.max 1 (limit / n)) with (limit / n) by lia.
    pose proof (Z.mul_div_le limit n Hn). nia.
Qed.

Lemma reddit_collect_by_keywords_spec (P : record -> Prop)
  (HP : submissions_satisfy fetch_submission P)
  (Hset : forall ks r, P r -> P (set_keyword_search ks r))
  (c : collector) (keywords : list string) (limit : Z) (subreddit : string)
  (w : W) :
  Z.of_nat (List.length
              (fst (fst (collect_by_keywords connect fetch_submission search
                           env c keywords limit subreddit w))))
  <= Z.max 0 limit
  /\ Forall P (fst (fst (collect_by_keywords connect fetch_submission search
                           env c keywords limit subreddit w))).
Proof.
  unfold collect_by_keywords, Py.bind.
  destruct ((if client c then Py.ret (true, c) else authenticate connect env c) w)
    as [[ok c1] w1].
  destruct ok; [|split; [cbn; lia | constructor]].
  destruct (reddit_search_and_collect_spec P HP subreddit keywords limit w1)
    as [Hl Hf].
  destruct (_search_and_collect fetch_submission search subreddit keywords
              limit w1) as [r w2].
  cbn [fst Py.ret] in *. split; [now rewrite length_map|].
  apply Forall_map. revert Hf. apply Forall_impl. intros x. apply Hset.
Qed.

End RedditFacts.

(* ================================================================== *)
(** * The collectors together *)
(* ================================================================== *)

Section CollectorProperties.

Import BaseCollector.
Open Scope string_scope.
Open Scope list_scope.
Open Scope Z_scope.

Variable W : Type.
Variable yt_build : Py.M W bool.
Variable yt_list : string -> Z -> option string -> Py.M W YouTubeCollector.response.
Variable yt_search : string -> Z -> Py.M W YouTubeCollector.search_response.
Variable tw_search : string -> option string -> Py.M W TwitterCollector.cursor.
Variable tw_timeline : string -> Py.M W TwitterCollector.cursor.
Variable tw_status : string -> Py.M W (option TwitterCollector.tweet).
Variable tw_connect : Py.M W bool.
Variable rd_connect : Py.M W bool.
Variable rd_fetch : string -> Py.M W (option RedditCollector.submission).
Variable rd_search :
  string -> string -> Z -> Py.M W (option (list RedditCollector.post)).
Variable env : Config.env.

Lemma listing_satisfies_True :
  YouTubeCollector.listing_satisfies yt_list (fun _ => True).
Proof.
  intros v m tok w. now destruct (fst (yt_list v m tok w)).
Qed.

Lemma timelines_satisfy_True :
  TwitterCollector.timelines_satisfy tw_timeline (fun _ => True).
Proof. intros u w. apply Forall_forall. trivial. Qed.

Lemma searches_satisfy_True :
  TwitterCollector.searches_satisfy tw_search (fun _ => True).
Proof. intros q l w. apply Forall_forall. trivial. Qed.

Lemma submissions_satisfy_True :
  RedditCollector.submissions_satisfy rd_fetch (fun _ => True).
Proof. intros p w. now destruct (fst (rd_fetch p w)). Qed.



(** C5. For a limit that is not negative, [collect_by_id] of each of the
    three collectors returns at most [limit] records (for Twitter with
    either kind of identifier); and the page loop of the YouTube collector
    ends within [limit] requests. *)
Theorem collect_by_id_within_limit
  (c : collector) (identifier : string) (limit : Z) (w : W)
  (Hlimit : 0 <= limit) :
  Z.of_nat (List.length
              (fst (fst (YouTubeCollector.collect_by_id yt_build yt_list env c
                           identifier limit w)))) <= limit
  /\ (forall id_type,
        Z.of_nat (List.length
                    (fst (fst (TwitterCollector.collect_by_id tw_search
                                 tw_timeline tw_status tw_connect env c
                                 identifier limit id_type w)))) <= limit)
  /\ Z.of_nat (List.length
                 (fst (fst (RedditCollector.collect_by_id rd_connect rd_fetch
                              env c identifier limit w)))) <= limit
  /\ exists comments w',
       YouTubeCollector.pages_loop yt_list (Z.to_nat limit) identifier limit
         None [] 0 w = (Some comments, w').
Proof.
  split; [|split; [|split]].
  - pose proof (proj1 (youtube_collect_by_id_spec W yt_build yt_list env _
                         listing_satisfies_True c identifier limit w)).
    lia.
  - intros id_type.
    pose proof (proj1 (twitter_collect_by_id_spec W tw_search tw_timeline
                         tw_status tw_connect env _ timelines_satisfy_True
                         searches_satisfy_True (fun _ _ _ => I)
                         c identifier limit id_type w)).
    lia.
  - apply (reddit_collect_by_id_spec W rd_connect rd_fetch env _
             submissions_satisfy_True c identifier limit w). exact Hlimit.
  - apply pages_loop_enough; [reflexivity | lia].
Qed.


(** X22. In keyword mode the YouTube and the Reddit collector stay within
    the limit; the Twitter collector stays within the limit for each
    keyword. *)
Lemma keyword_mode_totals
  (c : collector) (keywords : list string) (limit : Z) (subreddit : string)
  (w : W) :
  Z.of_nat (List.length
              (fst (fst (YouTubeCollector.collect_by_keywords yt_build yt_list
                           yt_search env c keywords limit w))))
  <= Z.max 0 limit
  /\ Z.of_nat (List.length
                 (fst (fst (RedditCollector.collect_by_keywords rd_connect
                              rd_fetch rd_search env c keywords limit
                              subreddit w))))
     <= Z.max 0 limit
  /\ Z.of_nat (List.length
                 (fst (fst (TwitterCollector.collect_by_keywords tw_search
                              tw_connect env c keywords limit w))))
     <= Z.max 0 limit * Z.of_nat (List.length keywords).
Proof.
  split; [|split].
  - apply (youtube_collect_by_keywords_spec W yt_build yt_list yt_search env
             (fun _ => True) listing_satisfies_True (fun _ _ _ => I)).
  - apply (reddit_collect_by_keywords_spec W rd_connect rd_fetch rd_search env
             (fun _ => True) submissions_satisfy_True (fun _ _ _ => I)).
  - apply (twitter_collect_by_keywords_spec W tw_search tw_connect env
             (fun _ => True) searches_satisfy_True (fun _ _ _ => I)).
Qed.

End CollectorProperties.

Section CollectorExamples.

Import BaseCollector.
Open Scope string_scope.
Open Scope list_scope.
Open Scope Z_scope.

Lemma collect_by_id_within_limit_witness :
  Z.of_nat (List.length
              (fst (fst (YouTubeCollector.collect_by_id Samples.yt_build
                           Samples.yt_listing Samples.env_complete
                           BaseCollector.init "video" 2 tt)))) <= 2
  /\ Z.of_nat (List.length
                 (fst (fst (RedditCollector.collect_by_id Samples.rd_connect
                              Samples.rd_fetch Samples.env_complete
                              BaseCollector.init "video" 2 tt)))) <= 2.
Proof.
  destruct (collect_by_id_within_limit unit Samples.yt_build Samples.yt_listing
              Samples.tw_search Samples.tw_timeline Samples.tw_status
              Samples.tw_connect Samples.rd_connect Samples.rd_fetch
              Samples.env_complete BaseCollector.init "video" 2 tt
              ltac:(lia)) as (Hyt & _ & Hrd & _).
  split; [exact Hyt | exact Hrd].
Defined.

(** What the three collectors return in by-id mode on the sample services
    with a limit of two. *)
Example collect_by_id_samples :
  map id (fst (fst (YouTubeCollector.collect_by_id Samples.yt_build
                      Samples.yt_listing Samples.env_complete
                      BaseCollector.init "video" 2 tt))) = ["c1"; "c2"]
  /\ map id (fst (fst (TwitterCollector.collect_by_id Samples.tw_search
                         Samples.tw_timeline Samples.tw_status
                         Samples.tw_connect Samples.env_complete
                         BaseCollector.init "1" 2 "tweet_id" tt)))
     = ["t1"; "t2"]
  /\ map id (fst (fst (RedditCollector.collect_by_id Samples.rd_connect
                         Samples.rd_fetch Samples.env_complete
                         BaseCollector.init "p1" 2 tt))) = ["k1"].
Proof. repeat split. Qed.

(** A negative limit is no bound for the Reddit collector: the slice
    [[:limit]] then drops that many comments from the end. *)
Example reddit_negative_limit :
  map id (fst (fst (RedditCollector.collect_by_id Samples.rd_connect
                      Samples.rd_fetch Samples.env_complete
                      BaseCollector.init "p1" (-1) tt))) = ["k1"; "k3"].
Proof. reflexivity. Qed.




(** C3, the code at a failing input: three keywords and a limit of two.
    The Twitter collector returns six records, two for each keyword, which
    is more than the limit plus the largest share of one item; on the same
    limit the YouTube and the Reddit collector return two. *)
Theorem twitter_keywords_exceed_limit :
  Z.of_nat (List.length
              (fst (fst (TwitterCollector.collect_by_keywords Samples.tw_search
                           Samples.tw_connect Samples.env_complete
                           BaseCollector.init ["a"; "b"; "c"] 2 tt)))) = 6
  /\ 2 + Z.max 2 (2 / 3 + 1) < 6
  /\ Z.of_nat (List.length
                 (fst (fst (YouTubeCollector.collect_by_keywords
                              Samples.yt_build Samples.yt_listing
                              Samples.yt_search Samples.env_complete
                              BaseCollector.init ["a"; "b"; "c"] 2 tt)))) = 2
  /\ Z.of_nat (List.length
                 (fst (fst (RedditCollector.collect_by_keywords
                              Samples.rd_connect Samples.rd_fetch
                              Samples.rd_search Samples.env_complete
                              BaseCollector.init ["a"; "b"; "c"] 2 "Tunisia"
                              tt)))) = 2.
Proof. repeat split. Qed.

End CollectorExamples.

(* ================================================================== *)
(** * More on the merge engine: how deduplication composes *)
(* ================================================================== *)

Section DedupComposition.

Import MergeDatasets.
Open Scope string_scope.
Open Scope list_scope.
Open Scope Z_scope.

Variable L : Type.

(** Only the set of the texts seen matters. *)
Lemma drop_duplicates_from_seen_ext (l : list (row L)) :
  forall s1 s2 : list (option string),
    (forall t, In t s1 <-> In t s2) ->
    drop_duplicates_from s1 l = drop_duplicates_from s2 l.
Proof.
  induction l as [|x rest IH]; intros s1 s2 Hs; [reflexivity|].
  cbn [drop_duplicates_from].
  assert (E : existsb (text_eqb (text x)) s1 = existsb (text_eqb (text x)) s2).
  { destruct (existsb (text_eqb (text x)) s2) eqn:E2.
    - apply seen_spec. apply Hs. now apply seen_spec.
    - apply seen_false. intros H. apply Hs in H.
      apply seen_false in E2. contradiction. }
  rewrite E. destruct (existsb (text_eqb (text x)) s2); [now apply IH|].
  f_equal. apply IH. intros t. cbn. now rewrite Hs.
Qed.

Lemma drop_duplicates_from_app (a : list (row L)) :
  forall (seen : list (option string)) (b : list (row L)),
    drop_duplicates_from seen (a ++ b)
    = drop_duplicates_from seen a
      ++ drop_duplicates_from (map (@text L) a ++ seen) b.
Proof.
  induction a as [|x a IH]; intros seen b; [reflexivity|].
  cbn [app drop_duplicates_from map].
  destruct (existsb (text_eqb (text x)) seen) eqn:Hx.
  - rewrite IH. f_equal. apply drop_duplicates_from_seen_ext.
    intros t. cbn. apply seen_spec in Hx. rewrite !in_app_iff.
    split; [tauto|]. intros [<-|H]; tauto.
  - rewrite IH. cbn [app]. do 2 f_equal.
    apply drop_duplicates_from_seen_ext.
    intros t. cbn. rewrite !in_app_iff. cbn. tauto.
Qed.

Lemma drop_duplicates_from_all_seen (l : list (row L))
  (seen : list (option string)) :
  (forall r, In r l -> In (text r) seen) -> drop_duplicates_from seen l = [].
Proof.
  induction l as [|x rest IH]; intros H; [reflexivity|].
  cbn [drop_duplicates_from].
  replace (existsb (text_eqb (text x)) seen) with true
    by (symmetry; apply seen_spec, H; now left).
  apply IH. intros r Hr. apply H. now right.
Qed.

Lemma drop_duplicates_from_idempotent (l : list (row L)) :
  forall seen,
    drop_duplicates_from seen (drop_duplicates_from seen l)
    = drop_duplicates_from seen l.
Proof.
  induction l as [|x rest IH]; intros seen; [reflexivity|].
  cbn [drop_duplicates_from].
  destruct (existsb (text_eqb (text x)) seen) eqn:Hx; [apply IH|].
  cbn [drop_duplicates_from]. rewrite Hx. f_equal. apply IH.
Qed.

Lemma drop_duplicates_concat (a b : list (row L)) :
  drop_duplicates (a ++ b)
  = drop_duplicates a ++ drop_duplicates_from (map (@text L) a) b.
Proof.
  unfold drop_duplicates. rewrite drop_duplicates_from_app.
  now rewrite app_nil_r.
Qed.

(** X1. Deduplication is incremental: the deduplicated concatenation of
    two tables is the deduplicated first table followed by the rows of the
    second one that are kept when the texts of the first count as seen; so
    a second table that only repeats texts of the first adds nothing. *)
Theorem drop_duplicates_app (a b : list (row L)) :
  drop_duplicates (a ++ b)
  = drop_duplicates a ++ drop_duplicates_from (map (@text L) a) b
  /\ ((forall r, In r b -> In (text r) (map (@text L) a)) ->
      drop_duplicates (a ++ b) = drop_duplicates a).
Proof.
  split; [apply drop_duplicates_concat|].
  intros H. rewrite drop_duplicates_concat.
  rewrite (drop_duplicates_from_all_seen b _ H). apply app_nil_r.
Qed.

(** X2. Deduplication is idempotent, and a table concatenated with itself
    deduplicates to the same rows as the table alone. *)
Theorem drop_duplicates_idempotent (l : list (row L)) :
  drop_duplicates (drop_duplicates l) = drop_duplicates l
  /\ drop_duplicates (l ++ l) = drop_duplicates l.
Proof.
  split; [apply drop_duplicates_from_idempotent|].
  unfold drop_duplicates. rewrite drop_duplicates_from_app.
  rewrite (drop_duplicates_from_all_seen l (map (@text L) l ++ []));
    [apply app_nil_r|].
  intros r Hr. rewrite app_nil_r. now apply in_map.
Qed.

(** X3. Deduplication neither loses nor invents a text: the texts of the
    table after [drop_duplicates] are those before it, each once. *)
Theorem drop_duplicates_same_texts (l : list (row L)) :
  (forall t, In t (map (@text L) (drop_duplicates l)) <-> In t (map (@text L) l))
  /\ NoDup (map (@text L) (drop_duplicates l)).
Proof.
  split; [|apply drop_duplicates_NoDup].
  intros t. split.
  - rewrite !in_map_iff. intros (r & <- & Hr). exists r. split; [reflexivity|].
    apply drop_duplicates_in in Hr. destruct Hr as (l1 & l2 & -> & _).
    apply in_or_app. right. now left.
  - rewrite in_map_iff. intros (r & <- & Hr).
    now apply drop_duplicates_keeps_texts.
Qed.

(** X4. On a text that two origins share the earlier origin wins: a row of
    the deduplicated concatenation whose text occurs in the first table is
    a row of the first table. *)
Theorem earlier_table_wins (a b : list (row L)) (r : row L)
  (Hin : In r (drop_duplicates (a ++ b)))
  (Htext : In (text r) (map (@text L) a)) :
  In r (drop_duplicates a) /\ In r a.
Proof.
  rewrite drop_duplicates_concat in Hin. apply in_app_or in Hin.
  destruct Hin as [Ha|Hb].
  - split; [exact Ha|]. apply drop_duplicates_in in Ha.
    destruct Ha as (l1 & l2 & -> & _). apply in_or_app. right. now left.
  - apply drop_duplicates_from_in in Hb. destruct Hb as (_ & _ & _ & Hs & _).
    contradiction.
Qed.

(** A filter that looks at the text alone can be applied before or after
    the deduplication. *)
Lemma filter_drop_duplicates_from (keep : row L -> bool)
  (Hkeep : forall r1 r2, text r1 = text r2 -> keep r1 = keep r2)
  (l : list (row L)) :
  forall s1 s2 : list (option string),
    (forall r, keep r = true -> (In (text r) s1 <-> In (text r) s2)) ->
    filter keep (drop_duplicates_from s1 l)
    = drop_duplicates_from s2 (filter keep l).
Proof.
  induction l as [|x rest IH]; intros s1 s2 Hs; [reflexivity|].
  cbn [drop_duplicates_from filter].
  destruct (keep x) eqn:Kx.
  - cbn [drop_duplicates_from].
    assert (E : existsb (text_eqb (text x)) s1
                = existsb (text_eqb (text x)) s2).
    { destruct (existsb (text_eqb (text x)) s2) eqn:E2.
      - apply seen_spec. apply (Hs x Kx). now apply seen_spec.
      - apply seen_false. intros H. apply (Hs x Kx) in H.
        apply seen_false in E2. contradiction. }
    rewrite E. destruct (existsb (text_eqb (text x)) s2); [now apply IH|].
    cbn [filter]. rewrite Kx. f_equal. apply IH.
    intros r Kr. cbn. now rewrite (Hs r Kr).
  - destruct (existsb (text_eqb (text x)) s1); [now apply IH|].
    cbn [filter]. rewrite Kx. apply IH.
    intros r Kr. cbn. rewrite (Hs r Kr). split; [|tauto].
    intros [E|H]; [|exact H].
    rewrite (Hkeep x r E) in Kx. congruence.
Qed.

End DedupComposition.

Section MergeMore.

Import MergeDatasets.
Open Scope string_scope.
Open Scope list_scope.
Open Scope Z_scope.

Lemma drop_duplicates_app_witness :
  drop_duplicates
    (map fillna0 (fst (process_jsonl_files Samples.batches))
     ++ map fillna0 (fst (process_jsonl_files (Some [Samples.batch_a]))))
  = drop_duplicates (map fillna0 (fst (process_jsonl_files Samples.batches))).
Proof.
  apply (proj2 (drop_duplicates_app Z _ _)).
  intros r Hr. vm_compute in Hr. vm_compute.
  destruct Hr as [<-|[<-|[<-|[]]]]; tauto.
Defined.

Lemma earlier_table_wins_witness :
  In (fillna0 (process_excel_row Samples.sheet_trailing_space
                 {| cell_label := Some "happiness";
                    cell_post := Some "hello world" |}))
     (map fillna0 (process_excel_data Samples.sheet_trailing_space)).
Proof.
  apply (earlier_table_wins Z
           (map fillna0 (process_excel_data Samples.sheet_trailing_space))
           [ {| source := Py.VStr "reddit"; source_id := None;
                text := Some "hello world"; label := 0 |} ]).
  - vm_compute. tauto.
  - vm_compute. tauto.
Defined.

(** X5. The two cleaning steps commute: dropping the short texts after the
    deduplication, as [merge_all_datasets] does, gives the same table as
    dropping them before it. *)
Theorem cleaning_steps_commute (L : Type) (l : list (row L)) :
  filter (@long_enough L) (drop_duplicates l)
  = drop_duplicates (filter (@long_enough L) l).
Proof.
  unfold drop_duplicates. apply filter_drop_duplicates_from.
  - intros r1 r2 E. unfold long_enough. now rewrite E.
  - tauto.
Qed.

(** The rows of the batch files carry the label the module gives them. *)
Lemma process_line_label (L : Type) (lbl : L) (f : string) (n : Z)
  (p : option Py.value) (r : row L) :
  In r (fst (process_line lbl f n p)) -> label r = lbl.
Proof.
  unfold process_line.
  destruct p as [[| | | |l|data]|]; try (intros []).
  destruct (value_truthy (extract_text data)); [|intros []].
  destruct (extract_text data) as [| | |t| |]; try (intros []).
  destruct (Py.truthy (Py.strip t)); [|intros []].
  now intros [<-|[]].
Qed.

Lemma process_lines_label (L : Type) (lbl : L) (f : string)
  (lines : list (option Py.value)) (n : Z) (r : row L) :
  In r (fst (process_lines lbl f n lines)) -> label r = lbl.
Proof.
  revert n. induction lines as [|p lines IH]; intros n; [intros []|].
  cbn [process_lines].
  pose proof (process_line_label L lbl f n p r) as Hp. specialize (IH (n + 1)).
  destruct (process_line lbl f n p), (process_lines lbl f (n + 1) lines).
  cbn [fst] in *. intros H. apply in_app_or in H. tauto.
Qed.

Lemma process_jsonl_files_with_label (L : Type) (lbl : L) (d : directory)
  (r : row L) :
  In r (fst (process_jsonl_files_with lbl d)) -> label r = lbl.
Proof.
  destruct d as [files|]; [|intros []].
  rewrite process_jsonl_files_with_rows.
  induction files as [|f files IH]; [intros []|].
  cbn [process_files].
  assert (Hf : In r (fst (process_file lbl f)) -> label r = lbl).
  { unfold process_file. destruct (Py.endswith (fst f) ".jsonl"); [|intros []].
    apply process_lines_label. }
  destruct (process_file lbl f), (process_files lbl files).
  cbn [fst] in *. intros H. apply in_app_or in H. tauto.
Qed.

Lemma fillna0_scheme (r : row (option Z)) :
  (forall l, label r = Some l -> scheme_class l) ->
  scheme_class (label (fillna0 r)).
Proof.
  intros H. cbn. destruct (label r) as [l|]; [now apply H | now left].
Qed.

Lemma process_splits_in (A : Type) (f : item -> A)
  (splits : list (string * list item)) (x : A) :
  In x (process_splits f splits) -> exists i, x = f i.
Proof.
  unfold process_splits. rewrite in_flat_map.
  intros (split & _ & H). apply in_map_iff in H.
  destruct H as (i & <- & _). now exists i.
Qed.

(** X6. Whatever the four origins hold, every row of the table that
    [merge_all_datasets] writes has a label in {0, 1, 2}. *)
Theorem final_labels_in_scheme
  (excel : excel_file) (arsas tsac : hf_load) (dir : directory)
  (table : list (row Z)) (log : list event)
  (H : merge_all_datasets excel arsas tsac dir = (Written table, log)) :
  Forall (fun r => scheme_class (label r)) table.
Proof.
  destruct (merge_all_datasets_written _ _ _ _ _ _ H) as (s & df & -> & Ha & ->).
  apply Forall_forall. intros r Hr. apply filter_In in Hr. destruct Hr as [Hr _].
  apply drop_duplicates_in in Hr. destruct Hr as (l1 & l2 & E & _).
  assert (Hc : In r (concatenated s df tsac dir))
    by (rewrite E; apply in_or_app; right; now left).
  unfold concatenated in Hc. apply in_map_iff in Hc.
  destruct Hc as (r0 & <- & Hr0). apply fillna0_scheme. intros l Hl.
  repeat (apply in_app_or in Hr0; destruct Hr0 as [Hr0|Hr0]).
  - unfold process_excel_data in Hr0. apply in_map_iff in Hr0.
    destruct Hr0 as (x & <- & _). cbn in Hl.
    destruct (if has_label s then cell_label x else None); [|discriminate].
    injection Hl as <-. apply excel_map_label_scheme.
  - assert (exists i, r0 = process_arsas_item i) as [i ->].
    { destruct arsas as [|splits|ds|]; cbn [process_arsas_dataset fst] in Ha;
        try discriminate.
      - assert (E' : df = process_splits process_arsas_item splits)
          by congruence.
        rewrite E' in Hr0. exact (process_splits_in _ _ _ _ Hr0).
      - assert (E' : df = process_splits process_arsas_item [("train", ds)])
          by congruence.
        rewrite E' in Hr0. exact (process_splits_in _ _ _ _ Hr0). }
    cbn in Hl. injection Hl as <-. apply arsas_map_label_scheme.
  - assert (exists i, r0 = process_tsac_item i) as [i ->].
    { destruct tsac; cbn [process_tsac_dataset fst] in Hr0;
        try contradiction. exact (process_splits_in _ _ _ _ Hr0). }
    cbn in Hl. injection Hl as <-. apply tsac_map_label_scheme.
  - apply process_jsonl_files_with_label in Hr0. congruence.
Qed.

Lemma final_labels_in_scheme_witness :
  exists table,
    fst (merge_all_datasets (ExcelSheet Samples.sheet_one_post)
           (HfDatasetDict []) Samples.tsac_one Samples.batches) = Written table
    /\ Forall (fun r => scheme_class (label r)) table.
Proof.
  eexists. split; [reflexivity|].
  apply (final_labels_in_scheme (ExcelSheet Samples.sheet_one_post)
           (HfDatasetDict []) Samples.tsac_one Samples.batches _ _ eq_refl).
Defined.

End MergeMore.

(* ================================================================== *)
(** * More on the dataset normaliser *)
(* ================================================================== *)

Section NormaliserMore.

Import MergeDatasets.
Open Scope string_scope.
Open Scope list_scope.
Open Scope Z_scope.

Lemma process_files_batch_only (L : Type) (lbl : L) (files : list batch_file) :
  process_files lbl files
  = process_files lbl
      (filter (fun f => Py.endswith (fst f) ".jsonl") files).
Proof.
  induction files as [|f files IH]; [reflexivity|].
  cbn [filter process_files]. rewrite IH.
  destruct (Py.endswith (fst f) ".jsonl") eqn:E; [reflexivity|].
  unfold process_file. rewrite E.
  destruct (process_files lbl
              (filter (fun f0 => Py.endswith (fst f0) ".jsonl") files))
    as [rows log].
  reflexivity.
Qed.

Lemma jsonl_files_found_filter (files : list batch_file) :
  jsonl_files_found (filter (fun f => Py.endswith (fst f) ".jsonl") files)
  = jsonl_files_found files.
Proof.
  unfold jsonl_files_found.
  induction files as [|f files IH]; [reflexivity|].
  cbn [filter existsb].
  destruct (Py.endswith (fst f) ".jsonl") eqn:E; cbn [existsb orb];
    [now rewrite E | exact IH].
Qed.

(** X7. Files whose name does not end in [.jsonl] are ignored: the rows
    and the reports of a directory are those of its [.jsonl] files alone,
    in both modules. *)
Theorem other_files_are_ignored (files : list batch_file) :
  MergeDatasets.process_jsonl_files (Some files)
  = MergeDatasets.process_jsonl_files
      (Some (filter (fun f => Py.endswith (fst f) ".jsonl") files))
  /\ MergeCollectedData.process_jsonl_files (Some files)
     = MergeCollectedData.process_jsonl_files
         (Some (filter (fun f => Py.endswith (fst f) ".jsonl") files)).
Proof.
  unfold MergeDatasets.process_jsonl_files,
    MergeCollectedData.process_jsonl_files, process_jsonl_files_with.
  rewrite jsonl_files_found_filter.
  rewrite <- !process_files_batch_only. split; reflexivity.
Qed.

(** A line gives one row, or one report, or nothing. *)
Lemma process_line_count (L : Type) (lbl : L) (f : string) (n : Z)
  (p : option Py.value) :
  (List.length (fst (process_line lbl f n p))
   + List.length (snd (process_line lbl f n p)) <= 1)%nat.
Proof.
  unfold process_line.
  destruct p as [[| | | |l|data]|]; cbn; try lia.
  destruct (value_truthy (extract_text data)); cbn; [|lia].
  destruct (extract_text data) as [| | |t| |]; cbn; try lia.
  destruct (Py.truthy (Py.strip t)); cbn; lia.
Qed.

Lemma process_lines_count (L : Type) (lbl : L) (f : string)
  (lines : list (option Py.value)) :
  forall n,
    (List.length (fst (process_lines lbl f n lines))
     + List.length (snd (process_lines lbl f n lines))
     <= List.length lines)%nat.
Proof.
  induction lines as [|p lines IH]; intros n; [cbn; lia|].
  cbn [process_lines].
  pose proof (process_line_count L lbl f n p) as Hp. specialize (IH (n + 1)).
  destruct (process_line lbl f n p), (process_lines lbl f (n + 1) lines).
  cbn [fst snd List.length] in *. rewrite !length_app. lia.
Qed.

Lemma process_files_count (L : Type) (lbl : L) (files : list batch_file) :
  (List.length (fst (process_files lbl files))
   + List.length (snd (process_files lbl files))
   <= List.length
        (flat_map snd
           (filter (fun f => Py.endswith (fst f) ".jsonl") files)))%nat.
Proof.
  induction files as [|f files IH]; [cbn; lia|].
  cbn [process_files filter]. unfold process_file.
  destruct (Py.endswith (fst f) ".jsonl").
  - pose proof (process_lines_count L lbl (fst f) (snd f) 1) as Hf.
    destruct (process_lines lbl (fst f) 1 (snd f)), (process_files lbl files).
    cbn [fst snd flat_map] in *. rewrite !length_app. lia.
  - destruct (process_files lbl files). cbn [fst snd app] in *. exact IH.
Qed.

(** X8. Every line of a batch file gives at most one row or one report,
    never both: the rows and the line reports of a directory together are
    no more than the lines of its [.jsonl] files. *)
Theorem rows_and_reports_bounded_by_lines (files : list batch_file) :
  (List.length (fst (MergeDatasets.process_jsonl_files (Some files)))
   + List.length
       (filter (fun e => match e with
                         | JsonDecodeError _ _ | UnexpectedError _ _ => true
                         | _ => false
                         end)
          (snd (MergeDatasets.process_jsonl_files (Some files))))
   <= List.length
        (flat_map snd
           (filter (fun f => Py.endswith (fst f) ".jsonl") files)))%nat.
Proof.
  unfold MergeDatasets.process_jsonl_files, process_jsonl_files_with.
  pose proof (process_files_count _ (@None Z) files) as H.
  destruct (process_files None files) as [rows log]. cbn [fst snd] in *.
  rewrite filter_app, length_app.
  pose proof (filter_length_le
                (fun e => match e with
                          | JsonDecodeError _ _ | UnexpectedError _ _ => true
                          | _ => false
                          end) log).
  destruct (jsonl_files_found files); cbn; lia.
Qed.





End NormaliserMore.

(* ================================================================== *)
(** * More on the configuration and on collect.py *)
(* ================================================================== *)

Section ConfigMore.

Open Scope string_scope.
Open Scope list_scope.

Lemma missing_nil_all_set (e : Config.env) :
  Config.missing e = [] ->
  forall n v, In (n, v) (Config.required e) -> Config.truthy v = true.
Proof.
  intros Hm n v Hin. destruct (Config.truthy v) eqn:Hv; [reflexivity|].
  pose proof (unset_in_missing e n v Hin Hv) as H. rewrite Hm in H. destruct H.
Qed.

Lemma all_set_missing_nil (e : Config.env) :
  (forall n v, In (n, v) (Config.required e) -> Config.truthy v = true) ->
  Config.missing e = [].
Proof.
  destruct e as [y t1 t2 t3 t4 r1 r2 r3]. intros H.
  unfold Config.missing, Config.all, Config.twitter_creds, Config.reddit_creds.
  cbn [Config.YOUTUBE_API_KEY Config.TWITTER_API_KEY
    Config.TWITTER_API_SECRET Config.TWITTER_ACCESS_TOKEN
    Config.TWITTER_ACCESS_SECRET Config.REDDIT_CLIENT_ID
    Config.REDDIT_CLIENT_SECRET Config.REDDIT_USER_AGENT forallb].
  rewrite (H "YOUTUBE_API_KEY" y), (H "TWITTER_API_KEY" t1),
    (H "TWITTER_API_SECRET" t2), (H "TWITTER_ACCESS_TOKEN" t3),
    (H "TWITTER_ACCESS_SECRET" t4), (H "REDDIT_CLIENT_ID" r1),
    (H "REDDIT_CLIENT_SECRET" r2), (H "REDDIT_USER_AGENT" r3);
    cbn; tauto.
Qed.

(** X10. [validate_config] passes exactly when each of the eight required
    variables is set to a string that is not empty. *)
Theorem validate_config_ok_iff (e : Config.env) :
  Config.validate_config e = Config.Ok <->
  forall n v, In (n, v) (Config.required e) -> Config.truthy v = true.
Proof.
  split.
  - intros H. apply missing_nil_all_set.
    unfold Config.validate_config in H.
    destruct (Config.missing e); [reflexivity | discriminate].
  - intros H. unfold Config.validate_config.
    now rewrite (all_set_missing_nil e H).
Qed.

Lemma validate_config_ok_iff_witness :
  Config.validate_config Samples.env_complete = Config.Ok.
Proof.
  apply (proj2 (validate_config_ok_iff Samples.env_complete)).
  intros n v Hin. cbn in Hin.
  repeat (destruct Hin as [Hin|Hin]; [injection Hin as <- <-; reflexivity|]).
  destruct Hin.
Defined.

(** X11. The error names whole platform groups: each of the four Twitter
    names is reported when any Twitter credential is unset, each of the
    three Reddit names when any Reddit credential is unset (so a variable
    that is set can be reported as missing), and [YOUTUBE_API_KEY] exactly
    when it is unset itself. *)
Theorem missing_names_whole_groups (e : Config.env) :
  (In "YOUTUBE_API_KEY" (Config.missing e)
   <-> Config.truthy (Config.YOUTUBE_API_KEY e) = false)
  /\ (forall n,
        In n ["TWITTER_API_KEY"; "TWITTER_API_SECRET";
              "TWITTER_ACCESS_TOKEN"; "TWITTER_ACCESS_SECRET"] ->
        (In n (Config.missing e)
         <-> Config.all (Config.twitter_creds e) = false))
  /\ (forall n,
        In n ["REDDIT_CLIENT_ID"; "REDDIT_CLIENT_SECRET"; "REDDIT_USER_AGENT"] ->
        (In n (Config.missing e)
         <-> Config.all (Config.reddit_creds e) = false)).
Proof.
  unfold Config.missing.
  destruct (Config.truthy (Config.YOUTUBE_API_KEY e)),
    (Config.all (Config.twitter_creds e)),
    (Config.all (Config.reddit_creds e));
    (split; [|split]);
    try (intros n Hn; cbn in Hn;
         repeat (destruct Hn as [<-|Hn]; [|]); try contradiction);
    cbn; split; intros H; try reflexivity; try discriminate;
    try tauto;
    repeat (destruct H as [H|H]; try discriminate H); try contradiction.
Qed.

Lemma missing_names_whole_groups_witness :
  Config.truthy (Config.REDDIT_CLIENT_ID Samples.env_without_reddit_secret) = true
  /\ In "REDDIT_CLIENT_ID" (Config.missing Samples.env_without_reddit_secret).
Proof.
  split; [reflexivity|].
  apply (proj2 (proj2 (missing_names_whole_groups
                         Samples.env_without_reddit_secret))
           "REDDIT_CLIENT_ID").
  - cbn. tauto.
  - reflexivity.
Defined.

End ConfigMore.

Section CollectMore.

Import Collect.
Open Scope string_scope.
Open Scope list_scope.
Open Scope Z_scope.

(** X12. [validate_args] accepts the arguments exactly when, in id mode,
    the identifier of the chosen platform is given (a user name or a tweet
    id for Twitter; nothing at all is asked for the platform [all]) and, in
    keywords mode, there is a keyword and, for Reddit, a subreddit name
    that is not empty; and it returns no error message exactly then. *)
Theorem validate_args_accepts (a : args) :
  (fst (validate_args a) = true <->
   match arg_mode a with
   | id_mode =>
       match arg_platform a with
       | youtube => Config.truthy (video_id a) = true
       | twitter => Config.truthy (username a) = true
                    \/ Config.truthy (tweet_id a) = true
       | reddit => Config.truthy (post_id a) = true
       | all => True
       end
   | keywords_mode =>
       keywords_truthy (keywords a) = true
       /\ (arg_platform a = reddit -> Py.truthy (subreddit a) = true)
   end)
  /\ (fst (validate_args a) = true <-> snd (validate_args a) = []).
Proof.
  unfold validate_args.
  destruct (arg_mode a), (arg_platform a); cbn [platform_eqb andb negb app];
    repeat match goal with
           | |- context [Config.truthy ?x] => destruct (Config.truthy x)
           | |- context [keywords_truthy ?x] => destruct (keywords_truthy x)
           | |- context [Py.truthy ?x] => destruct (Py.truthy x)
           end;
    cbn; repeat split; intros; try tauto; try discriminate; try congruence;
    try (exfalso; intuition congruence); intuition discriminate.
Qed.

Lemma validate_args_accepts_witness :
  fst (validate_args Samples.args_all_id) = true
  /\ fst (validate_args Samples.args_youtube_id) = true.
Proof.
  split.
  - apply (proj2 (proj1 (validate_args_accepts Samples.args_all_id))).
    exact I.
  - apply (proj2 (proj1 (validate_args_accepts Samples.args_youtube_id))).
    reflexivity.
Defined.


Lemma length_append (a b : string) :
  String.length (a ++ b) = (String.length a + String.length b)%nat.
Proof. induction a as [|c a IH]; cbn; [reflexivity | now rewrite IH]. Qed.

Lemma endswith_true (s suffix : string) :
  Py.endswith s suffix = true -> exists pre, s = (pre ++ suffix)%string.
Proof.
  induction s as [|c s IH]; cbn [Py.endswith].
  - destruct (String.eqb_spec "" suffix) as [<-|_]; [|discriminate].
    now exists "".
  - destruct (String.eqb_spec (String c s) suffix) as [<-|_].
    + now exists "".
    + intros H. destruct (IH H) as [pre ->]. now exists (String c pre).
Qed.






(** The names of the specification's examples. *)
Example output_filenames :
  generate_output_filename youtube id_mode Samples.args_youtube_id "jsonl"
    "20251029_234025" = "data_youtube_id_dQw4w9Wg_20251029_234025.jsonl"
  /\ generate_output_filename reddit keywords_mode Samples.args_all_keywords
       "csv" "20251029_234025"
     = "data_reddit_keywords_all_tunisia_20251029_234025.csv".
Proof. split; reflexivity. Qed.

End CollectMore.

Section MainMore.

Import BaseCollector Collect.
Open Scope string_scope.
Open Scope list_scope.
Open Scope Z_scope.

Variable W : Type.
Variable yt_build : Py.M W bool.
Variable yt_list : string -> Z -> option string -> Py.M W YouTubeCollector.response.
Variable yt_search : string -> Z -> Py.M W YouTubeCollector.search_response.
Variable tw_search : string -> option string -> Py.M W TwitterCollector.cursor.
Variable tw_timeline : string -> Py.M W TwitterCollector.cursor.
Variable tw_status : string -> Py.M W (option TwitterCollector.tweet).
Variable tw_connect : Py.M W bool.
Variable rd_connect : Py.M W bool.
Variable rd_fetch : string -> Py.M W (option RedditCollector.submission).
Variable rd_search :
  string -> string -> Z -> Py.M W (option (list RedditCollector.post)).
Variable env : Config.env.

(** The loop constructs a collector for every platform, in order, and the
    totals it returns are those it printed. *)
Lemma platforms_loop_events (a : args) (platforms : list platform) :
  forall w : W,
    constructed (snd (fst (platforms_loop yt_build yt_list yt_search tw_search tw_timeline tw_status tw_connect rd_connect rd_fetch rd_search env platforms a w))) = platforms
    /\ saved_totals (snd (fst (platforms_loop yt_build yt_list yt_search tw_search tw_timeline tw_status tw_connect rd_connect rd_fetch rd_search env platforms a w)))
       = fst (fst (platforms_loop yt_build yt_list yt_search tw_search tw_timeline tw_status tw_connect rd_connect rd_fetch rd_search env platforms a w)).
Proof.
  induction platforms as [|p rest IH]; intros w; [now split|].
  cbn [platforms_loop]. unfold Py.bind.
  destruct (collect_data yt_build yt_list yt_search tw_search tw_timeline
              tw_status tw_connect rd_connect rd_fetch rd_search env
              (get_collector p) p a w) as [[collected c] w1].
  specialize (IH w1).
  destruct (platforms_loop yt_build yt_list yt_search tw_search tw_timeline tw_status tw_connect rd_connect rd_fetch rd_search env rest a w1) as [[stats events] w2].
  cbn [fst snd] in IH. destruct IH as [IH1 IH2].
  destruct (0 <? Z.of_nat (List.length collected));
    cbn [Py.ret fst snd constructed saved_totals]; now rewrite IH1, IH2.
Qed.

Lemma constructed_app (e1 e2 : list event) :
  constructed (e1 ++ e2) = constructed e1 ++ constructed e2.
Proof.
  induction e1 as [|e e1 IH]; [reflexivity|].
  destruct e; cbn [app constructed]; now rewrite IH.
Qed.

(** X14. [main] exits with status 1 exactly when the arguments or the
    configuration are rejected.  Otherwise it exits with status 0 whatever
    the platforms return, it constructs one collector for each requested
    platform, for [all] in the order YouTube, Twitter, Reddit, and it ends
    with the sum of the totals it printed, or with the notice that nothing
    was collected when it printed none. *)
Theorem main_status_and_platforms (a : args) (w : W) :
  (fst (fst (main yt_build yt_list yt_search tw_search tw_timeline tw_status tw_connect rd_connect rd_fetch rd_search env a w)) = 1
   <-> fst (validate_args a) = false
       \/ Config.validate_config env <> Config.Ok)
  /\ (fst (validate_args a) = true ->
      Config.validate_config env = Config.Ok ->
      fst (fst (main yt_build yt_list yt_search tw_search tw_timeline tw_status tw_connect rd_connect rd_fetch rd_search env a w)) = 0
      /\ constructed (snd (fst (main yt_build yt_list yt_search tw_search tw_timeline tw_status tw_connect rd_connect rd_fetch rd_search env a w)))
         = match arg_platform a with
           | all => [youtube; twitter; reddit]
           | p => [p]
           end
      /\ exists body,
           snd (fst (main yt_build yt_list yt_search tw_search tw_timeline tw_status tw_connect rd_connect rd_fetch rd_search env a w))
           = body ++ [match saved_totals body with
                      | [] => NoDataAtAll
                      | totals => Summary (fold_right Z.add 0 totals)
                      end]).
Proof.
  unfold main.
  destruct (validate_args a) as [valid errors]. cbn [fst negb].
  destruct valid; cbn [negb].
  - destruct (Config.validate_config env) as [|msg] eqn:Hc.
    + set (platforms := match arg_platform a with
                        | all => [youtube; twitter; reddit]
                        | p => [p]
                        end).
      unfold Py.bind.
      destruct (platforms_loop_events a platforms w) as [H1 H2].
      destruct (platforms_loop yt_build yt_list yt_search tw_search tw_timeline tw_status tw_connect rd_connect rd_fetch rd_search env platforms a w) as [[stats events] w1].
      cbn [fst snd] in H1, H2.
      assert (G : fst (fst (match stats with
                            | [] => Py.ret (0, events ++ [NoDataAtAll])
                            | _ :: _ =>
                                Py.ret (0, events
                                           ++ [Summary (fold_right Z.add 0 stats)])
                            end w1)) = 0
                  /\ constructed
                       (snd (fst (match stats with
                                  | [] => Py.ret (0, events ++ [NoDataAtAll])
                                  | _ :: _ =>
                                      Py.ret (0, events
                                                 ++ [Summary
                                                       (fold_right Z.add 0 stats)])
                                  end w1))) = platforms
                  /\ exists body,
                       snd (fst (match stats with
                                 | [] => Py.ret (0, events ++ [NoDataAtAll])
                                 | _ :: _ =>
                                     Py.ret (0, events
                                                ++ [Summary
                                                      (fold_right Z.add 0 stats)])
                                 end w1))
                       = body ++ [match saved_totals body with
                                  | [] => NoDataAtAll
                                  | totals => Summary (fold_right Z.add 0 totals)
                                  end]).
      { destruct stats as [|t stats]; cbn [Py.ret fst snd];
          (split; [reflexivity|]);
          (split; [rewrite constructed_app; cbn; now rewrite app_nil_r|]);
          exists events; now rewrite H2. }
      destruct G as (G1 & G2 & G3). split.
      * rewrite G1. split; [discriminate|]. intros [H|H]; [discriminate|].
        now destruct H.
      * intros _ _. now repeat split.
    + cbn [Py.ret fst snd]. split; [|discriminate].
      split; [intros _; right; discriminate | reflexivity].
  - cbn [Py.ret fst snd]. split; [|discriminate].
    split; [intros _; now left | reflexivity].
Qed.

End MainMore.

Lemma main_status_and_platforms_witness :
  fst (fst (Collect.main Samples.yt_build Samples.yt_listing Samples.yt_search
              Samples.tw_search Samples.tw_timeline Samples.tw_status
              Samples.tw_connect Samples.rd_connect Samples.rd_fetch
              Samples.rd_search Samples.env_complete Samples.args_all_keywords
              tt)) = 0%Z
  /\ Collect.constructed
       (snd (fst (Collect.main Samples.yt_build Samples.yt_listing
                    Samples.yt_search Samples.tw_search Samples.tw_timeline
                    Samples.tw_status Samples.tw_connect Samples.rd_connect
                    Samples.rd_fetch Samples.rd_search Samples.env_complete
                    Samples.args_all_keywords tt)))
     = [Collect.youtube; Collect.twitter; Collect.reddit].
Proof.
  destruct (proj2 (main_status_and_platforms unit Samples.yt_build
                     Samples.yt_listing Samples.yt_search Samples.tw_search
                     Samples.tw_timeline Samples.tw_status Samples.tw_connect
                     Samples.rd_connect Samples.rd_fetch Samples.rd_search
                     Samples.env_complete Samples.args_all_keywords tt)
              eq_refl eq_refl) as (H0 & Hc & _).
  split; [exact H0 | exact Hc].
Defined.

(** A run over all platforms: what [main] prints. *)
Example main_all_keywords :
  fst (Collect.main Samples.yt_build Samples.yt_listing Samples.yt_search
         Samples.tw_search Samples.tw_timeline Samples.tw_status
         Samples.tw_connect Samples.rd_connect Samples.rd_fetch
         Samples.rd_search Samples.env_complete Samples.args_all_keywords tt)
  = (0%Z,
     [Collect.Constructed Collect.youtube; Collect.Saved Collect.youtube 2;
      Collect.Constructed Collect.twitter; Collect.Saved Collect.twitter 2;
      Collect.Constructed Collect.reddit; Collect.Saved Collect.reddit 1;
      Collect.Summary 5]).
Proof. reflexivity. Qed.

(* ================================================================== *)
(** * More on the collectors *)
(* ================================================================== *)

Section CollectorMore.

Import BaseCollector.
Open Scope string_scope.
Open Scope list_scope.
Open Scope Z_scope.

Variable W : Type.
Variable yt_build : Py.M W bool.
Variable yt_list : string -> Z -> option string -> Py.M W YouTubeCollector.response.
Variable yt_search : string -> Z -> Py.M W YouTubeCollector.search_response.
Variable tw_search : string -> option string -> Py.M W TwitterCollector.cursor.
Variable tw_timeline : string -> Py.M W TwitterCollector.cursor.
Variable tw_status : string -> Py.M W (option TwitterCollector.tweet).
Variable tw_connect : Py.M W bool.
Variable rd_connect : Py.M W bool.
Variable rd_fetch : string -> Py.M W (option RedditCollector.submission).
Variable rd_search :
  string -> string -> Z -> Py.M W (option (list RedditCollector.post)).
Variable env : Config.env.

(** X15. A collector without a client and without its credentials returns
    no record, stays as it is and makes no call to its platform: so for
    [collect_by_id] and [collect_by_keywords] of the three collectors. *)
Theorem no_credentials_no_call (c : collector) (identifier : string)
  (keywords : list string) (limit : Z) (id_type subreddit : string) (w : W)
  (Hclient : client c = false) :
  (Config.truthy (Config.YOUTUBE_API_KEY env) = false ->
   YouTubeCollector.collect_by_id yt_build yt_list env c identifier limit w
   = (([], c), w)
   /\ YouTubeCollector.collect_by_keywords yt_build yt_list yt_search env c
        keywords limit w = (([], c), w))
  /\ (Config.all (Config.twitter_creds env) = false ->
      TwitterCollector.collect_by_id tw_search tw_timeline tw_status
        tw_connect env c identifier limit id_type w = (([], c), w)
      /\ TwitterCollector.collect_by_keywords tw_search tw_connect env c
           keywords limit w = (([], c), w))
  /\ (Config.all (Config.reddit_creds env) = false ->
      RedditCollector.collect_by_id rd_connect rd_fetch env c identifier
        limit w = (([], c), w)
      /\ RedditCollector.collect_by_keywords rd_connect rd_fetch rd_search
           env c keywords limit subreddit w = (([], c), w)).
Proof.
  split; [|split]; intros Hcred; split.
  - unfold YouTubeCollector.collect_by_id, YouTubeCollector.authenticate,
      Py.bind. now rewrite Hclient, Hcred.
  - unfold YouTubeCollector.collect_by_keywords, YouTubeCollector.authenticate,
      Py.bind. now rewrite Hclient, Hcred.
  - unfold TwitterCollector.collect_by_id, TwitterCollector.authenticate,
      Py.bind. now rewrite Hclient, Hcred.
  - unfold TwitterCollector.collect_by_keywords, TwitterCollector.authenticate,
      Py.bind. now rewrite Hclient, Hcred.
  - unfold RedditCollector.collect_by_id, RedditCollector.authenticate,
      Py.bind. now rewrite Hclient, Hcred.
  - unfold RedditCollector.collect_by_keywords, RedditCollector.authenticate,
      Py.bind. now rewrite Hclient, Hcred.
Qed.

Lemma youtube_session (c : collector) (w : W) :
  collected_data
    (snd (fst ((if client c then Py.ret (true, c)
                else YouTubeCollector.authenticate yt_build env c) w)))
  = collected_data c
  /\ (client c = true ->
      client
        (snd (fst ((if client c then Py.ret (true, c)
                    else YouTubeCollector.authenticate yt_build env c) w)))
      = true).
Proof.
  destruct (client c) eqn:Hc; [now split|].
  split; [|discriminate].
  unfold YouTubeCollector.authenticate, Py.bind.
  destruct (Config.truthy (Config.YOUTUBE_API_KEY env)); [|reflexivity].
  now destruct (yt_build w) as [[|] w1].
Qed.

Lemma twitter_session (c : collector) (w : W) :
  collected_data
    (snd (fst ((if client c then Py.ret (true, c)
                else TwitterCollector.authenticate tw_connect env c) w)))
  = collected_data c
  /\ (client c = true ->
      client
        (snd (fst ((if client c then Py.ret (true, c)
                    else TwitterCollector.authenticate tw_connect env c) w)))
      = true).
Proof.
  destruct (client c) eqn:Hc; [now split|].
  split; [|discriminate].
  unfold TwitterCollector.authenticate, Py.bind.
  destruct (Config.all (Config.twitter_creds env)); [|reflexivity].
  now destruct (tw_connect w) as [[|] w1].
Qed.

Lemma reddit_session (c : collector) (w : W) :
  collected_data
    (snd (fst ((if client c then Py.ret (true, c)
                else RedditCollector.authenticate rd_connect env c) w)))
  = collected_data c
  /\ (client c = true ->
      client
        (snd (fst ((if client c then Py.ret (true, c)
                    else RedditCollector.authenticate rd_connect env c) w)))
      = true).
Proof.
  destruct (client c) eqn:Hc; [now split|].
  split; [|discriminate].
  unfold RedditCollector.authenticate, Py.bind.
  destruct (Config.all (Config.reddit_creds env)); [|reflexivity].
  now destruct (rd_connect w) as [[|] w1].
Qed.

Lemma grows_by_nothing (c c1 : collector) :
  collected_data c1 = collected_data c ->
  (client c = true -> client c1 = true) ->
  grows_by c ([], c1).
Proof. intros H1 H2. split; cbn [fst snd]; [now rewrite app_nil_r|exact H2]. Qed.

Lemma grows_by_extend (c c1 : collector) (comments : list record) :
  collected_data c1 = collected_data c ->
  (client c = true -> client c1 = true) ->
  grows_by c (comments, extend c1 comments).
Proof. intros H1 H2. split; cbn [fst snd extend collected_data client];
  [now rewrite H1 | exact H2]. Qed.

(** X16. Every call of [collect_by_id] and of [collect_by_keywords]
    appends to [collected_data] exactly the records it returns, in the
    same order, and never drops the client of a collector that has one. *)
Theorem collected_data_grows (c : collector) (identifier : string)
  (keywords : list string) (limit : Z) (id_type subreddit : string) (w : W) :
  grows_by c
    (fst (YouTubeCollector.collect_by_id yt_build yt_list env c identifier
            limit w))
  /\ grows_by c
       (fst (YouTubeCollector.collect_by_keywords yt_build yt_list yt_search
               env c keywords limit w))
  /\ grows_by c
       (fst (TwitterCollector.collect_by_id tw_search tw_timeline tw_status
               tw_connect env c identifier limit id_type w))
  /\ grows_by c
       (fst (TwitterCollector.collect_by_keywords tw_search tw_connect env c
               keywords limit w))
  /\ grows_by c
       (fst (RedditCollector.collect_by_id rd_connect rd_fetch env c
               identifier limit w))
  /\ grows_by c
       (fst (RedditCollector.collect_by_keywords rd_connect rd_fetch
               rd_search env c keywords limit subreddit w)).
Proof.
  split; [|split; [|split; [|split; [|split]]]].
  1, 2: (unfold YouTubeCollector.collect_by_id,
           YouTubeCollector.collect_by_keywords, Py.bind;
         destruct (youtube_session c w) as [H1 H2];
         destruct ((if client c then Py.ret (true, c)
                    else YouTubeCollector.authenticate yt_build env c) w)
           as [[[|] c1] w1]; cbn [fst snd] in H1, H2;
         [|now apply grows_by_nothing]).
  - destruct (YouTubeCollector._get_video_comments yt_list identifier limit w1).
    now apply grows_by_extend.
  - destruct (YouTubeCollector._search_and_collect yt_list yt_search keywords
                limit w1).
    now apply grows_by_extend.
  - unfold TwitterCollector.collect_by_id, Py.bind.
    destruct (twitter_session c w) as [H1 H2].
    destruct ((if client c then Py.ret (true, c)
               else TwitterCollector.authenticate tw_connect env c) w)
      as [[[|] c1] w1]; cbn [fst snd] in H1, H2;
      [|now apply grows_by_nothing].
    destruct (String.eqb id_type "username").
    + destruct (TwitterCollector._get_user_tweets tw_timeline identifier
                  limit w1).
      now apply grows_by_extend.
    + destruct (String.eqb id_type "tweet_id");
        [|now apply grows_by_nothing].
      destruct (TwitterCollector._get_tweet_replies tw_search tw_status
                  identifier limit w1).
      now apply grows_by_extend.
  - unfold TwitterCollector.collect_by_keywords, Py.bind.
    destruct (twitter_session c w) as [H1 H2].
    destruct ((if client c then Py.ret (true, c)
               else TwitterCollector.authenticate tw_connect env c) w)
      as [[[|] c1] w1]; cbn [fst snd] in H1, H2;
      [|now apply grows_by_nothing].
    destruct (TwitterCollector._search_tweets_by_keywords tw_search keywords
                limit w1).
    now apply grows_by_extend.
  - unfold RedditCollector.collect_by_id, Py.bind.
    destruct (reddit_session c w) as [H1 H2].
    destruct ((if client c then Py.ret (true, c)
               else RedditCollector.authenticate rd_connect env c) w)
      as [[[|] c1] w1]; cbn [fst snd] in H1, H2;
      [|now apply grows_by_nothing].
    destruct (rd_fetch identifier w1) as [[s|] w2];
      [|now apply grows_by_nothing].
    destruct (Config.truthy (RedditCollector.removed_by_category s));
      [now apply grows_by_nothing | now apply grows_by_extend].
  - unfold RedditCollector.collect_by_keywords, Py.bind.
    destruct (reddit_session c w) as [H1 H2].
    destruct ((if client c then Py.ret (true, c)
               else RedditCollector.authenticate rd_connect env c) w)
      as [[[|] c1] w1]; cbn [fst snd] in H1, H2;
      [|now apply grows_by_nothing].
    destruct (RedditCollector._search_and_collect rd_fetch rd_search
                subreddit keywords limit w1).
    now apply grows_by_extend.
Qed.

End CollectorMore.

Section CollectorTags.

Import BaseCollector.
Open Scope string_scope.
Open Scope list_scope.
Open Scope Z_scope.

Variable W : Type.
Variable yt_build : Py.M W bool.
Variable yt_list : string -> Z -> option string -> Py.M W YouTubeCollector.response.
Variable yt_search : string -> Z -> Py.M W YouTubeCollector.search_response.
Variable tw_search : string -> option string -> Py.M W TwitterCollector.cursor.
Variable tw_timeline : string -> Py.M W TwitterCollector.cursor.
Variable tw_status : string -> Py.M W (option TwitterCollector.tweet).
Variable tw_connect : Py.M W bool.
Variable rd_connect : Py.M W bool.
Variable rd_fetch : string -> Py.M W (option RedditCollector.submission).
Variable rd_search :
  string -> string -> Z -> Py.M W (option (list RedditCollector.post)).
Variable env : Config.env.

Lemma Forall_map_tag (P Q : record -> Prop) (f : record -> record)
  (l : list record) :
  (forall r, P r -> Q (f r)) -> Forall P l -> Forall Q (map f l).
Proof.
  intros Hf Hl. apply Forall_map. revert Hl. apply Forall_impl. exact Hf.
Qed.

Lemma youtube_listing_source :
  YouTubeCollector.listing_satisfies yt_list (fun r => source r = "youtube").
Proof. intros v m tok w. now destruct (fst (yt_list v m tok w)). Qed.

Lemma youtube_listing_tagged :
  YouTubeCollector.listing_satisfies yt_list (tagged "youtube" "direct_id" None).
Proof.
  intros v m tok w. destruct (fst (yt_list v m tok w)); trivial.
  intros i t u _. now repeat split.
Qed.

Lemma twitter_timelines_source :
  TwitterCollector.timelines_satisfy tw_timeline
    (fun r => source r = "twitter" /\ search_keywords r = None).
Proof. intros u w. apply Forall_forall. now intros t _. Qed.

Lemma twitter_searches_source :
  TwitterCollector.searches_satisfy tw_search
    (fun r => source r = "twitter" /\ search_keywords r = None).
Proof. intros q l w. apply Forall_forall. now intros t _. Qed.

Lemma reddit_submissions_source :
  RedditCollector.submissions_satisfy rd_fetch (fun r => source r = "reddit").
Proof. intros p w. now destruct (fst (rd_fetch p w)). Qed.

Lemma videos_loop_tagged (keywords : list string) (limit per : Z) :
  forall (video_ids : list string) (comments : list record) (w : W),
    Forall (tagged "youtube" "keyword_search" (Some keywords)) comments ->
    Forall (tagged "youtube" "keyword_search" (Some keywords))
      (fst (YouTubeCollector.videos_loop yt_list keywords video_ids limit per
              comments w)).
Proof.
  induction video_ids as [|v rest IH]; intros comments w Hc;
    cbn [YouTubeCollector.videos_loop]; [exact Hc|].
  destruct (Z.of_nat (List.length comments) >=? limit); [exact Hc|].
  unfold Py.bind.
  pose proof (proj2 (get_video_comments_spec W yt_list _
                       youtube_listing_source v per w)) as Hv.
  destruct (YouTubeCollector._get_video_comments yt_list v per w) as [vc w1].
  cbn [fst] in Hv. apply IH. apply Forall_app. split; [exact Hc|].
  revert Hv. apply Forall_map_tag. intros r Hr. now repeat split.
Qed.

(** X17. Every record carries the name of its platform and the way it was
    collected.  In by-id mode the method is [direct_id] for YouTube,
    [direct_username] or [direct_tweet_id] for Twitter (no record for
    another kind of identifier) and [direct_post_id] for Reddit; in keyword
    mode it is [keyword_search] for the three platforms, together with the
    keywords of the call. *)
Theorem records_are_tagged (c : collector) (identifier : string)
  (keywords : list string) (limit : Z) (id_type subreddit : string) (w : W) :
  Forall (tagged "youtube" "direct_id" None)
    (fst (fst (YouTubeCollector.collect_by_id yt_build yt_list env c
                 identifier limit w)))
  /\ Forall (tagged "twitter" "direct_username" None)
       (fst (fst (TwitterCollector.collect_by_id tw_search tw_timeline
                    tw_status tw_connect env c identifier limit "username" w)))
  /\ Forall (tagged "twitter" "direct_tweet_id" None)
       (fst (fst (TwitterCollector.collect_by_id tw_search tw_timeline
                    tw_status tw_connect env c identifier limit "tweet_id" w)))
  /\ (id_type <> "username" -> id_type <> "tweet_id" ->
      fst (fst (TwitterCollector.collect_by_id tw_search tw_timeline
                  tw_status tw_connect env c identifier limit id_type w)) = [])
  /\ Forall (tagged "reddit" "direct_post_id" None)
       (fst (fst (RedditCollector.collect_by_id rd_connect rd_fetch env c
                    identifier limit w)))
  /\ Forall (tagged "youtube" "keyword_search" (Some keywords))
       (fst (fst (YouTubeCollector.collect_by_keywords yt_build yt_list
                    yt_search env c keywords limit w)))
  /\ Forall (tagged "twitter" "keyword_search" (Some keywords))
       (fst (fst (TwitterCollector.collect_by_keywords tw_search tw_connect
                    env c keywords limit w)))
  /\ Forall (tagged "reddit" "keyword_search" (Some keywords))
       (fst (fst (RedditCollector.collect_by_keywords rd_connect rd_fetch
                    rd_search env c keywords limit subreddit w))).
Proof.
  split; [|split; [|split; [|split; [|split; [|split; [|split]]]]]].
  - apply youtube_collect_by_id_spec, youtube_listing_tagged.
  - unfold TwitterCollector.collect_by_id, Py.bind.
    destruct ((if client c then Py.ret (true, c)
               else TwitterCollector.authenticate tw_connect env c) w)
      as [[[|] c1] w1]; [|constructor].
    cbn [String.eqb Ascii.eqb Bool.eqb andb].
    pose proof (proj2 (get_user_tweets_spec W tw_timeline _
                         twitter_timelines_source identifier limit w1)) as H.
    destruct (TwitterCollector._get_user_tweets tw_timeline identifier limit w1)
      as [r w2].
    cbn [fst Py.ret] in *. revert H. apply Forall_map_tag.
    intros x [Hs Hk]. now repeat split.
  - unfold TwitterCollector.collect_by_id, Py.bind.
    destruct ((if client c then Py.ret (true, c)
               else TwitterCollector.authenticate tw_connect env c) w)
      as [[[|] c1] w1]; [|constructor].
    cbn [String.eqb Ascii.eqb Bool.eqb andb].
    pose proof (proj2 (get_tweet_replies_spec W tw_search tw_status _
                         twitter_searches_source identifier limit w1)) as H.
    destruct (TwitterCollector._get_tweet_replies tw_search tw_status
                identifier limit w1) as [r w2].
    cbn [fst Py.ret] in *. revert H. apply Forall_map_tag.
    intros x [Hs Hk]. now repeat split.
  - intros Hu Ht. unfold TwitterCollector.collect_by_id, Py.bind.
    destruct ((if client c then Py.ret (true, c)
               else TwitterCollector.authenticate tw_connect env c) w)
      as [[[|] c1] w1]; [|reflexivity].
    apply String.eqb_neq in Hu, Ht. now rewrite Hu, Ht.
  - unfold RedditCollector.collect_by_id, Py.bind.
    destruct ((if client c then Py.ret (true, c)
               else RedditCollector.authenticate rd_connect env c) w)
      as [[[|] c1] w1]; [|constructor].
    destruct (rd_fetch identifier w1) as [[s|] w2]; [|constructor].
    destruct (Config.truthy (RedditCollector.removed_by_category s));
      [constructor|].
    cbn [fst Py.ret]. apply comments_loop_forall. intros cm b _ _.
    now repeat split.
  - unfold YouTubeCollector.collect_by_keywords, Py.bind.
    destruct ((if client c then Py.ret (true, c)
               else YouTubeCollector.authenticate yt_build env c) w)
      as [[[|] c1] w1]; [|constructor].
    assert (H : Forall (tagged "youtube" "keyword_search" (Some keywords))
                  (fst (YouTubeCollector._search_and_collect yt_list yt_search
                          keywords limit w1))).
    { unfold YouTubeCollector._search_and_collect, Py.bind.
      destruct (YouTubeCollector._search_videos_by_keywords yt_search keywords
                  10 w1) as [[|v rest] w2]; [constructor|].
      apply videos_loop_tagged. constructor. }
    now destruct (YouTubeCollector._search_and_collect yt_list yt_search
                    keywords limit w1).
  - unfold TwitterCollector.collect_by_keywords, Py.bind.
    destruct ((if client c then Py.ret (true, c)
               else TwitterCollector.authenticate tw_connect env c) w)
      as [[[|] c1] w1]; [|constructor].
    pose proof (proj2 (search_tweets_by_keywords_spec W tw_search _
                         twitter_searches_source limit keywords w1)) as H.
    destruct (TwitterCollector._search_tweets_by_keywords tw_search keywords
                limit w1) as [r w2].
    cbn [fst Py.ret] in *. revert H. apply Forall_map_tag.
    intros x [Hs Hk]. now repeat split.
  - unfold RedditCollector.collect_by_keywords, Py.bind.
    destruct ((if client c then Py.ret (true, c)
               else RedditCollector.authenticate rd_connect env c) w)
      as [[[|] c1] w1]; [|constructor].
    pose proof (proj2 (reddit_search_and_collect_spec W rd_fetch rd_search _
                         reddit_submissions_source subreddit keywords limit
                         w1)) as H.
    destruct (RedditCollector._search_and_collect rd_fetch rd_search subreddit
                keywords limit w1) as [r w2].
    cbn [fst Py.ret] in *. revert H. apply Forall_map_tag.
    intros x Hs. now repeat split.
Qed.

End CollectorTags.

Section CollectorMoreExamples.

Open Scope string_scope.
Open Scope list_scope.
Open Scope Z_scope.

Lemma no_credentials_no_call_witness :
  YouTubeCollector.collect_by_id Samples.yt_build Samples.yt_listing
    Samples.env_empty BaseCollector.init "video" 5 tt
  = (([], BaseCollector.init), tt)
  /\ RedditCollector.collect_by_keywords Samples.rd_connect Samples.rd_fetch
       Samples.rd_search Samples.env_empty BaseCollector.init ["tunisia"] 5
       "Tunisia" tt
     = (([], BaseCollector.init), tt).
Proof.
  destruct (no_credentials_no_call unit Samples.yt_build Samples.yt_listing
              Samples.yt_search Samples.tw_search Samples.tw_timeline
              Samples.tw_status Samples.tw_connect Samples.rd_connect
              Samples.rd_fetch Samples.rd_search Samples.env_empty
              BaseCollector.init "video" ["tunisia"] 5 "username" "Tunisia"
              tt eq_refl) as (Hyt & _ & Hrd).
  split.
  - exact (proj1 (Hyt eq_refl)).
  - exact (proj2 (Hrd eq_refl)).
Defined.

Lemma records_are_tagged_witness :
  fst (fst (TwitterCollector.collect_by_id Samples.tw_search
              Samples.tw_timeline Samples.tw_status Samples.tw_connect
              Samples.env_complete BaseCollector.init "someone" 5 "user" tt))
  = [].
Proof.
  apply (records_are_tagged unit Samples.yt_build Samples.yt_listing
           Samples.yt_search Samples.tw_search Samples.tw_timeline
           Samples.tw_status Samples.tw_connect Samples.rd_connect
           Samples.rd_fetch Samples.rd_search Samples.env_complete
           BaseCollector.init "someone" [] 5 "user" "all" tt);
    discriminate.
Defined.

End CollectorMoreExamples.

Section CollectorEdges.

Import BaseCollector.
Open Scope string_scope.
Open Scope list_scope.
Open Scope Z_scope.

Variable W : Type.
Variable yt_build : Py.M W bool.
Variable yt_search : string -> Z -> Py.M W YouTubeCollector.search_response.
Variable rd_connect : Py.M W bool.
Variable rd_fetch : string -> Py.M W (option RedditCollector.submission).
Variable rd_search :
  string -> string -> Z -> Py.M W (option (list RedditCollector.post)).
Variable env : Config.env.

Lemma get_post_comments_no_sentinel (post_id : string) (max_comments : Z)
  (w : W) :
  Forall (fun r => RedditCollector.not_sentinel (text_raw r) = true)
    (fst (RedditCollector._get_post_comments rd_fetch post_id max_comments w)).
Proof.
  unfold RedditCollector._get_post_comments, Py.bind.
  destruct (rd_fetch post_id w) as [[s|] w1]; cbn [fst Py.ret];
    [apply comments_loop_no_sentinel | constructor].
Qed.

Lemma posts_loop_no_sentinel (limit per : Z) :
  forall (posts comments : list record) (w : W),
    Forall (fun r => RedditCollector.not_sentinel (text_raw r) = true) comments ->
    Forall (fun r => RedditCollector.not_sentinel (text_raw r) = true)
      (fst (RedditCollector.posts_loop rd_fetch posts limit per comments w)).
Proof.
  induction posts as [|p rest IH]; intros comments w Hc;
    cbn [RedditCollector.posts_loop]; [exact Hc|].
  destruct (Z.of_nat (List.length comments) >=? limit); [exact Hc|].
  unfold Py.bind.
  pose proof (get_post_comments_no_sentinel (id p) per w) as Hp.
  destruct (RedditCollector._get_post_comments rd_fetch (id p) per w)
    as [pc w1].
  cbn [fst] in Hp. apply IH. apply Forall_app. now split.
Qed.

(** X18. The Reddit collector never returns a record whose text is one of
    the sentinels ["[deleted]"] and ["[removed]"], in by-id mode and in
    keyword mode. *)
Theorem reddit_drops_sentinels (c : collector) (identifier : string)
  (keywords : list string) (limit : Z) (subreddit : string) (w : W) :
  Forall (fun r => text_raw r <> "[deleted]" /\ text_raw r <> "[removed]")
    (fst (fst (RedditCollector.collect_by_id rd_connect rd_fetch env c
                 identifier limit w)))
  /\ Forall (fun r => text_raw r <> "[deleted]" /\ text_raw r <> "[removed]")
       (fst (fst (RedditCollector.collect_by_keywords rd_connect rd_fetch
                    rd_search env c keywords limit subreddit w))).
Proof.
  assert (Hs : forall r, RedditCollector.not_sentinel (text_raw r) = true ->
                         text_raw r <> "[deleted]" /\ text_raw r <> "[removed]").
  { intros r H. unfold RedditCollector.not_sentinel in H.
    apply negb_true_iff, orb_false_iff in H. destruct H as [H1 H2].
    now apply String.eqb_neq in H1, H2. }
  split.
  - unfold RedditCollector.collect_by_id, Py.bind.
    destruct ((if client c then Py.ret (true, c)
               else RedditCollector.authenticate rd_connect env c) w)
      as [[[|] c1] w1]; [|constructor].
    destruct (rd_fetch identifier w1) as [[s|] w2]; [|constructor].
    destruct (Config.truthy (RedditCollector.removed_by_category s));
      [constructor|].
    cbn [fst Py.ret].
    eapply Forall_impl; [exact Hs | apply comments_loop_no_sentinel].
  - unfold RedditCollector.collect_by_keywords, Py.bind.
    destruct ((if client c then Py.ret (true, c)
               else RedditCollector.authenticate rd_connect env c) w)
      as [[[|] c1] w1]; [|constructor].
    assert (H : Forall (fun r => RedditCollector.not_sentinel (text_raw r) = true)
                  (fst (RedditCollector._search_and_collect rd_fetch rd_search
                          subreddit keywords limit w1))).
    { unfold RedditCollector._search_and_collect, Py.bind.
      destruct (RedditCollector._search_subreddit_posts rd_search subreddit
                  keywords (limit / 10) w1) as [posts w2].
      apply posts_loop_no_sentinel. constructor. }
    destruct (RedditCollector._search_and_collect rd_fetch rd_search subreddit
                keywords limit w1) as [r w2].
    cbn [fst Py.ret] in *. apply Forall_map.
    revert H. apply Forall_impl. intros x Hx. now apply Hs.
Qed.

(** X19. A post that Reddit flags as removed yields no record in by-id
    mode, whatever comments it still has, and nothing is added to
    [collected_data]. *)
Theorem removed_post_yields_nothing (c : collector) (post_id : string)
  (limit : Z) (w : W)
  (Hremoved : forall w1,
      exists s, fst (rd_fetch post_id w1) = Some s
                /\ Config.truthy (RedditCollector.removed_by_category s) = true) :
  fst (fst (RedditCollector.collect_by_id rd_connect rd_fetch env c post_id
              limit w)) = []
  /\ collected_data
       (snd (fst (RedditCollector.collect_by_id rd_connect rd_fetch env c
                    post_id limit w))) = collected_data c.
Proof.
  unfold RedditCollector.collect_by_id, Py.bind.
  pose proof (reddit_session W rd_connect env c w) as [Hcd _].
  destruct ((if client c then Py.ret (true, c)
             else RedditCollector.authenticate rd_connect env c) w)
    as [[[|] c1] w1]; cbn [fst snd] in Hcd; [|now split].
  destruct (Hremoved w1) as (s & Hs & Hr).
  destruct (rd_fetch post_id w1) as [o w2]. cbn [fst] in Hs. subst o.
  rewrite Hr. now split.
Qed.

End CollectorEdges.

Section CollectorEdgeExamples.

Open Scope string_scope.
Open Scope list_scope.
Open Scope Z_scope.

Lemma removed_post_yields_nothing_witness :
  fst (fst (RedditCollector.collect_by_id Samples.rd_connect
              Samples.rd_fetch_removed Samples.env_complete BaseCollector.init
              "p1" 10 tt)) = [].
Proof.
  apply (removed_post_yields_nothing unit Samples.rd_connect
           Samples.rd_fetch_removed Samples.env_complete BaseCollector.init
           "p1" 10 tt).
  intros w1. eexists. split; reflexivity.
Defined.

End CollectorEdgeExamples.

Section YouTubeRequests.

Import BaseCollector YouTubeCollector.
Open Scope string_scope.
Open Scope list_scope.
Open Scope Z_scope.

Variable W : Type.
Variable build : Py.M W bool.
Variable search_list : string -> Z -> Py.M W search_response.
Variable env : Config.env.

(** Two comment listings that answer alike whenever the page size asked
    for lies between 1 and 100. *)
Variable listing1 listing2 : string -> Z -> option string -> Py.M W response.
Hypothesis Hagree :
  forall v m tok w, 1 <= m <= 100 -> listing1 v m tok w = listing2 v m tok w.

Lemma pages_loop_agree (video_id : string) (max_results : Z) :
  forall (fuel : nat) (token : option string) (comments : list record)
    (total : Z) (w : W),
    pages_loop listing1 fuel video_id max_results token comments total w
    = pages_loop listing2 fuel video_id max_results token comments total w.
Proof.
  induction fuel as [|fuel IH]; intros token comments total w;
    cbn [pages_loop]; destruct (total <? max_results) eqn:Hlt;
    try reflexivity.
  apply Z.ltb_lt in Hlt. unfold Py.bind.
  rewrite (Hagree video_id (Z.min 100 (max_results - total)) token w) by lia.
  destruct (listing2 video_id (Z.min 100 (max_results - total)) token w)
    as [[status| |items next] w1]; try reflexivity.
  destruct items as [|x items']; [reflexivity|].
  destruct (page_loop (x :: items') max_results comments total)
    as [[c' t'] raised].
  destruct raised; [reflexivity|].
  destruct (Config.truthy next); [apply IH | reflexivity].
Qed.

Lemma get_video_comments_agree (video_id : string) (max_results : Z) (w : W) :
  _get_video_comments listing1 video_id max_results w
  = _get_video_comments listing2 video_id max_results w.
Proof.
  unfold _get_video_comments, Py.bind. now rewrite pages_loop_agree.
Qed.

Lemma videos_loop_agree (keywords : list string) (limit per : Z) :
  forall (video_ids : list string) (comments : list record) (w : W),
    videos_loop listing1 keywords video_ids limit per comments w
    = videos_loop listing2 keywords video_ids limit per comments w.
Proof.
  induction video_ids as [|v rest IH]; intros comments w;
    cbn [videos_loop]; [reflexivity|].
  destruct (Z.of_nat (List.length comments) >=? limit); [reflexivity|].
  unfold Py.bind. rewrite get_video_comments_agree.
  destruct (_get_video_comments listing2 v per w) as [vc w1]. apply IH.
Qed.

(** X20. The YouTube collector asks the comment listing only for page
    sizes between 1 and 100: two listings that answer alike for these page
    sizes give the same result, the same collector and the same world, in
    by-id mode and in keyword mode. *)
Theorem youtube_page_sizes (c : collector) (video_id : string)
  (keywords : list string) (limit : Z) (w : W) :
  collect_by_id build listing1 env c video_id limit w
  = collect_by_id build listing2 env c video_id limit w
  /\ collect_by_keywords build listing1 search_list env c keywords limit w
     = collect_by_keywords build listing2 search_list env c keywords limit w.
Proof.
  split.
  - unfold collect_by_id, Py.bind.
    destruct ((if client c then Py.ret (true, c) else authenticate build env c) w)
      as [[[|] c1] w1]; [|reflexivity].
    now rewrite get_video_comments_agree.
  - unfold collect_by_keywords, Py.bind.
    destruct ((if client c then Py.ret (true, c) else authenticate build env c) w)
      as [[[|] c1] w1]; [|reflexivity].
    unfold _search_and_collect, Py.bind.
    destruct (_search_videos_by_keywords search_list keywords 10 w1)
      as [[|v rest] w2]; [reflexivity|].
    now rewrite videos_loop_agree.
Qed.

End YouTubeRequests.

Section YouTubeSearch.

Import BaseCollector YouTubeCollector.
Open Scope string_scope.
Open Scope list_scope.
Open Scope Z_scope.

Variable W : Type.
Variable search_list : string -> Z -> Py.M W search_response.

(** The loop over the items of a search page stops at [max_videos], but
    appends one video before it tests the bound. *)
Lemma take_video_ids_length (max_videos : Z) (items : list (option string)) :
  forall video_ids : list string,
    Z.of_nat (List.length video_ids)
    <= Z.of_nat (List.length (take_video_ids items max_videos video_ids))
    <= Z.max (Z.of_nat (List.length video_ids) + 1) max_videos.
Proof.
  induction items as [|[v|] rest IH]; intros video_ids;
    cbn [take_video_ids]; try lia.
  assert (Hlen : Z.of_nat (List.length (video_ids ++ [v]))
                 = Z.of_nat (List.length video_ids) + 1)
    by (rewrite length_app; cbn [List.length]; lia).
  destruct (Z.of_nat (List.length (video_ids ++ [v])) >=? max_videos) eqn:Hge.
  - lia.
  - rewrite Z.geb_leb in Hge. apply Z.leb_gt in Hge.
    specialize (IH (video_ids ++ [v])). lia.
Qed.

Lemma search_keywords_loop_length (max_videos : Z) :
  forall (keywords : list string) (video_ids : list string) (w : W),
    Z.of_nat (List.length
                (fst (search_keywords_loop search_list keywords max_videos
                        video_ids w)))
    <= match keywords with
       | [] => Z.of_nat (List.length video_ids)
       | _ => Z.max (Z.of_nat (List.length video_ids) + 1) max_videos
              + Z.of_nat (List.length keywords) - 1
       end.
Proof.
  induction keywords as [|k rest IH]; intros video_ids w;
    cbn [search_keywords_loop]; [cbn; lia|].
  unfold Py.bind.
  destruct (search_list k
              (Z.min 50 (max_videos - Z.of_nat (List.length video_ids))) w)
    as [resp w1].
  set (ids := match resp with
              | SearchError => video_ids
              | SearchPage items => take_video_ids items max_videos video_ids
              end).
  assert (Hids : Z.of_nat (List.length ids)
                 <= Z.max (Z.of_nat (List.length video_ids) + 1) max_videos).
  { unfold ids. destruct resp as [|items]; [lia|].
    pose proof (take_video_ids_length max_videos items video_ids). lia. }
  specialize (IH ids w1). destruct rest as [|k' rest'].
  - cbn [List.length] in *. lia.
  - cbn [List.length] in *. lia.
Qed.

(** X21. The video search returns at most [max_videos] videos for one
    keyword (at least one when [max_videos] is not positive), and at most
    one more for every further keyword: the bound is tested only after a
    video is appended, and the loop over the keywords does not stop when
    it is reached. *)
Theorem video_search_bound (keywords : list string) (max_videos : Z) (w : W) :
  Z.of_nat (List.length
              (fst (_search_videos_by_keywords search_list keywords
                      max_videos w)))
  <= Z.max 1 max_videos + Z.max 0 (Z.of_nat (List.length keywords) - 1)
  /\ (keywords = [] ->
      fst (_search_videos_by_keywords search_list keywords max_videos w) = []).
Proof.
  split.
  - unfold _search_videos_by_keywords.
    pose proof (search_keywords_loop_length max_videos keywords [] w) as H.
    destruct keywords; cbn [List.length] in *; lia.
  - intros ->. reflexivity.
Qed.

End YouTubeSearch.

Section YouTubeExamples.

Open Scope string_scope.
Open Scope list_scope.
Open Scope Z_scope.

Lemma youtube_page_sizes_witness :
  YouTubeCollector.collect_by_id Samples.yt_build Samples.yt_listing
    Samples.env_complete BaseCollector.init "video" 250 tt
  = YouTubeCollector.collect_by_id Samples.yt_build Samples.yt_listing_strict
      Samples.env_complete BaseCollector.init "video" 250 tt.
Proof.
  assert (H : forall v m tok w, 1 <= m <= 100 ->
                Samples.yt_listing v m tok w
                = Samples.yt_listing_strict v m tok w).
  { intros v m tok w Hm. unfold Samples.yt_listing_strict.
    replace ((1 <=? m) && (m <=? 100)) with true; [reflexivity|].
    symmetry. apply andb_true_iff. split; apply Z.leb_le; lia. }
  exact (proj1 (youtube_page_sizes unit Samples.yt_build Samples.yt_search
                  Samples.env_complete Samples.yt_listing
                  Samples.yt_listing_strict H BaseCollector.init "video" []
                  250 tt)).
Defined.

Lemma video_search_bound_witness :
  fst (YouTubeCollector._search_videos_by_keywords Samples.yt_search [] 10 tt)
  = [].
Proof.
  apply (video_search_bound unit Samples.yt_search [] 10 tt). reflexivity.
Defined.

(** The bound is reached: with room for one video and three keywords the
    search returns three. *)
Example video_search_passes_bound :
  fst (YouTubeCollector._search_videos_by_keywords Samples.yt_search
         ["a"; "b"; "c"] 1 tt) = ["v1"; "v1"; "v1"].
Proof. reflexivity. Qed.

End YouTubeExamples.

(* ================================================================== *)
(** * The repair script: quick_fix_jsonl *)
(* ================================================================== *)

Section FixJsonlFacts.

Import FixJsonl.
Open Scope string_scope.
Open Scope list_scope.
Open Scope Z_scope.

Variable json_loads : string -> option Py.value.

Lemma step_blank (st : state) (line : string) :
  Py.truthy (Py.strip line) = false -> step json_loads st line = st.
Proof. intros H. unfold step. now rewrite H. Qed.

Lemma run_skips_blank (lines : list string) :
  forall st,
    run json_loads lines st
    = run json_loads (filter (fun l => Py.truthy (Py.strip l)) lines) st.
Proof.
  unfold run. induction lines as [|l lines IH]; intros st; [reflexivity|].
  cbn [fold_left filter]. destruct (Py.truthy (Py.strip l)) eqn:E.
  - cbn [fold_left]. apply IH.
  - rewrite (step_blank st l E). apply IH.
Qed.

Lemma run_app (l1 l2 : list string) (st : state) :
  run json_loads (l1 ++ l2) st = run json_loads l2 (run json_loads l1 st).
Proof. unfold run. apply fold_left_app. Qed.

Lemma run_cons (l : string) (lines : list string) (st : state) :
  run json_loads (l :: lines) st
  = run json_loads lines (step json_loads st l).
Proof. reflexivity. Qed.

(** A line met inside an object is added to it, and closes it when the
    braces balance. *)
Lemma step_inside (st : state) (l : string) :
  Py.truthy (Py.strip l) = true -> in_object st = true ->
  step json_loads st l
  = if brace_count st + delta (Py.strip l) =? 0 then
      {| in_object := false; current_obj := [];
         brace_count := brace_count st + delta (Py.strip l);
         objects :=
           match json_loads
                   (String.concat "" (current_obj st ++ [Py.strip l])) with
           | Some obj => objects st ++ [obj]
           | None => objects st
           end |}
    else
      {| in_object := true; current_obj := current_obj st ++ [Py.strip l];
         brace_count := brace_count st + delta (Py.strip l);
         objects := objects st |}.
Proof.
  intros Hl Hin. unfold step. cbv zeta. rewrite Hl, Hin.
  cbn [negb]. now rewrite andb_false_r.
Qed.

(** A line that starts with a brace, met outside an object, opens one. *)
Lemma step_outside (st : state) (l : string) :
  starts_with_brace (Py.strip l) = true -> in_object st = false ->
  step json_loads st l
  = {| in_object := true; current_obj := [Py.strip l];
       brace_count := delta (Py.strip l); objects := objects st |}.
Proof.
  intros Hb Hidle. unfold step. cbv zeta. rewrite Hb, Hidle.
  now destruct (Py.strip l).
Qed.

Lemma concat_app_one (cur : list string) (line : string) (more : list string) :
  String.concat "" ((cur ++ [line]) ++ more)
  = String.concat "" (cur ++ line :: more).
Proof. now rewrite <- app_assoc. Qed.

(** Inside an object: the lines up to the one that closes it are joined
    and parsed once. *)
Lemma run_inside (rest : list string) :
  forall (cur : list string) (b : Z) (objs : list Py.value),
    forallb Py.truthy (map Py.strip rest) = true ->
    closes_at_end b (map Py.strip rest) = true ->
    run json_loads rest
      {| in_object := true; current_obj := cur; brace_count := b;
         objects := objs |}
    = {| in_object := false; current_obj := []; brace_count := 0;
         objects := objs
                    ++ match json_loads
                               (String.concat "" (cur ++ map Py.strip rest)) with
                       | Some obj => [obj]
                       | None => []
                       end |}.
Proof.
  induction rest as [|l rest IH]; intros cur b objs Hnb Hclose;
    [discriminate|].
  cbn [map forallb] in Hnb. apply andb_true_iff in Hnb. destruct Hnb as [Hl Hnb].
  rewrite (run_cons l rest).
  rewrite (step_inside
             {| in_object := true; current_obj := cur; brace_count := b;
                objects := objs |} l Hl eq_refl).
  cbn [current_obj brace_count objects].
  destruct rest as [|l' more].
  - cbn [map closes_at_end] in Hclose. rewrite Hclose.
    apply Z.eqb_eq in Hclose. rewrite Hclose. cbn [run fold_left map].
    f_equal. destruct (json_loads (String.concat "" (cur ++ [Py.strip l])));
      [reflexivity | now rewrite app_nil_r].
  - cbn [map closes_at_end] in Hclose. apply andb_true_iff in Hclose.
    destruct Hclose as [Hopen Hclose]. apply negb_true_iff in Hopen.
    rewrite Hopen. rewrite (IH _ _ _ Hnb Hclose).
    cbn [map]. now rewrite concat_app_one.
Qed.

(** From outside an object a block adds the object of its joined lines,
    when they parse, and ends outside an object. *)
Lemma run_block (lines : list string) (st : state) :
  in_object st = false -> is_block lines = true ->
  run json_loads lines st
  = {| in_object := false; current_obj := []; brace_count := 0;
       objects := objects st ++ parse_block json_loads lines |}.
Proof.
  intros Hidle Hblock. unfold is_block in Hblock.
  destruct lines as [|first rest]; [discriminate|].
  cbn [map] in Hblock. apply andb_true_iff in Hblock.
  destruct Hblock as [Hblock Hclose]. apply andb_true_iff in Hblock.
  destruct Hblock as [Hbrace Hnb].
  rewrite (run_cons first rest), (step_outside st first Hbrace Hidle).
  rewrite (run_inside rest _ _ _ Hnb Hclose). reflexivity.
Qed.

Lemma run_blocks (blocks : list (list string)) :
  forall st,
    in_object st = false -> forallb is_block blocks = true ->
    in_object (run json_loads (List.concat blocks) st) = false
    /\ objects (run json_loads (List.concat blocks) st)
       = objects st ++ flat_map (parse_block json_loads) blocks.
Proof.
  induction blocks as [|b blocks IH]; intros st Hidle Hb.
  - cbn. now rewrite app_nil_r.
  - cbn [forallb] in Hb. apply andb_true_iff in Hb. destruct Hb as [Hb Hbs].
    cbn [List.concat flat_map]. rewrite run_app, (run_block b st Hidle Hb).
    destruct (IH {| in_object := false; current_obj := []; brace_count := 0;
                    objects := objects st ++ parse_block json_loads b |}
                 eq_refl Hbs) as [H1 H2].
    split; [exact H1|].
    rewrite H2. cbn [objects]. now rewrite app_assoc.
Qed.

(** X23. [quick_fix_jsonl] puts back together the objects that are spread
    over several lines: when the lines of the file that are not blank form
    a sequence of blocks (a line that starts with a brace, then lines up to
    the first one at which the braces balance), the objects written are
    those of the blocks whose joined, stripped lines parse, in order; blank
    lines, wherever they stand, play no part. *)
Theorem quick_fix_rejoins_blocks (content : string)
  (blocks : list (list string))
  (Hlines : filter (fun l => Py.truthy (Py.strip l)) (split_lines content)
            = List.concat blocks)
  (Hblocks : forallb is_block blocks = true) :
  quick_fix_jsonl json_loads content
  = flat_map (parse_block json_loads) blocks.
Proof.
  unfold quick_fix_jsonl. rewrite run_skips_blank, Hlines.
  now destruct (run_blocks blocks initial eq_refl Hblocks) as [_ ->].
Qed.

(** Every object written took at least two lines. *)
Lemma step_two_lines (st : state) (line : string) (n : nat) :
  (2 * List.length (objects st) + List.length (current_obj st) <= n)%nat ->
  (in_object st = true -> 1 <= List.length (current_obj st))%nat ->
  (2 * List.length (objects (step json_loads st line))
   + List.length (current_obj (step json_loads st line))
   <= n + (if Py.truthy (Py.strip line) then 1 else 0))%nat
  /\ (in_object (step json_loads st line) = true ->
      1 <= List.length (current_obj (step json_loads st line)))%nat.
Proof.
  intros Hn Hin. unfold step.
  destruct (Py.truthy (Py.strip line)); cbn [negb];
    [|split; [lia | exact Hin]].
  destruct (starts_with_brace (Py.strip line) && negb (in_object st)).
  { cbn [objects current_obj in_object List.length]. split; lia. }
  destruct (in_object st) eqn:Ein; [|split; [lia | congruence]].
  specialize (Hin eq_refl).
  destruct (brace_count st + delta (Py.strip line) =? 0);
    cbn [objects current_obj in_object List.length].
  - split; [|discriminate].
    destruct (json_loads _); rewrite ?length_app; cbn [List.length]; lia.
  - rewrite length_app. cbn [List.length]. split; lia.
Qed.

Lemma run_two_lines (lines : list string) :
  forall (st : state) (n : nat),
    (2 * List.length (objects st) + List.length (current_obj st) <= n)%nat ->
    (in_object st = true -> 1 <= List.length (current_obj st))%nat ->
    (2 * List.length (objects (run json_loads lines st))
     <= n + List.length (filter (fun l => Py.truthy (Py.strip l)) lines))%nat.
Proof.
  unfold run. induction lines as [|l lines IH]; intros st n Hn Hin.
  - cbn. lia.
  - cbn [fold_left filter].
    destruct (step_two_lines st l n Hn Hin) as [H1 H2].
    specialize (IH _ _ H1 H2).
    destruct (Py.truthy (Py.strip l)); cbn [List.length] in *; lia.
Qed.

(** X24. [quick_fix_jsonl] never writes an object for a single line: an
    object is closed only by a line after the one that opened it, so the
    objects written are at most half as many as the lines that are not
    blank, also for a file that already holds one complete object per
    line. *)
Theorem quick_fix_needs_two_lines (content : string) :
  (2 * List.length (quick_fix_jsonl json_loads content)
   <= List.length
        (filter (fun l => Py.truthy (Py.strip l)) (split_lines content)))%nat.
Proof.
  unfold quick_fix_jsonl.
  apply (run_two_lines (split_lines content) initial 0); cbn; [lia|discriminate].
Qed.

End FixJsonlFacts.

Section FixJsonlExamples.

Import FixJsonl.
Open Scope string_scope.
Open Scope list_scope.
Open Scope Z_scope.

Lemma quick_fix_rejoins_blocks_witness :
  quick_fix_jsonl Samples.loads_empty_object
    ("{" ++ Samples.nl ++ "  }" ++ Samples.nl ++ Samples.nl
     ++ "{" ++ Samples.nl ++ "}" ++ Samples.nl)
  = [Py.VDict []; Py.VDict []].
Proof.
  apply (quick_fix_rejoins_blocks Samples.loads_empty_object _
           [["{"; "  }"]; ["{"; "}"]]); reflexivity.
Defined.

(** A file with one complete object on each of its two lines: the lines
    are joined into one text, which does not parse, and nothing is
    written. *)
Example quick_fix_loses_line_objects :
  quick_fix_jsonl Samples.loads_empty_object ("{}" ++ Samples.nl ++ "{}") = [].
Proof. reflexivity. Qed.

End FixJsonlExamples.

(* ================================================================== *)
(** * The repair script: the file it writes *)
(* ================================================================== *)

Section FixJsonlPaths.

Import FixJsonl.
Open Scope string_scope.
Open Scope list_scope.

Lemma endswith_cons (c : ascii) (s suffix : string) :
  Py.endswith s suffix = true -> Py.endswith (String c s) suffix = true.
Proof.
  intros H. cbn [Py.endswith].
  now destruct (String.eqb (String c s) suffix).
Qed.

Lemma endswith_app (x s suffix : string) :
  Py.endswith s suffix = true -> Py.endswith (x ++ s) suffix = true.
Proof.
  intros H. induction x as [|c x IH]; [exact H|].
  cbn [append]. now apply endswith_cons.
Qed.

(** An occurrence of the extension that starts before a final one ends
    before it. *)
Lemma occurrence_before_the_last (c : ascii) (pre : string) :
  startswith (String c (pre ++ ".jsonl")) ".jsonl" = true ->
  (5 <= String.length pre)%nat.
Proof.
  intros H.
  destruct pre as [|c1 [|c2 [|c3 [|c4 [|c5 pre]]]]];
    [exfalso .. | cbn [String.length]; lia];
    cbn in H;
    repeat match type of H with
           | context [Ascii.eqb ?a ?b] => destruct (Ascii.eqb a b) eqn:?
           end;
    cbn in H; try discriminate;
    repeat match goal with
           | E : Ascii.eqb _ _ = true |- _ => apply Ascii.eqb_eq in E; subst
           end;
    discriminate.
Qed.

Lemma replace_from_keeps_extension (pre : string) :
  forall skip : nat,
    (skip <= String.length pre)%nat ->
    Py.endswith
      (replace_from ".jsonl" "_fixed.jsonl" skip (pre ++ ".jsonl")) ".jsonl"
    = true.
Proof.
  induction pre as [|c pre IH]; intros skip Hskip.
  - cbn [String.length] in Hskip. replace skip with 0%nat by lia. reflexivity.
  - cbn [append replace_from]. destruct skip as [|k].
    + destruct (startswith (String c (pre ++ ".jsonl")) ".jsonl") eqn:E.
      * apply (endswith_app "_fixed.jsonl" _ ".jsonl"). apply IH.
        cbn [String.length Nat.sub].
        exact (occurrence_before_the_last c pre E).
      * apply endswith_cons. apply IH. lia.
    + apply IH. cbn [String.length] in Hskip. lia.
Qed.

Lemma replace_from_length (s : string) :
  forall skip : nat,
    (String.length s
     <= String.length (replace_from ".jsonl" "_fixed.jsonl" skip s)
        + Nat.min skip (String.length s))%nat.
Proof.
  induction s as [|c s IH]; intros skip; [cbn; lia|].
  cbn [replace_from]. destruct skip as [|k].
  - destruct (startswith (String c s) ".jsonl").
    + specialize (IH 5%nat). rewrite length_append.
      cbn [String.length Nat.sub] in *. lia.
    + specialize (IH 0%nat). cbn [String.length] in *. lia.
  - specialize (IH k). cbn [String.length] in *. lia.
Qed.

Lemma replace_grows (s : string) :
  occurs ".jsonl" s = true ->
  (String.length s
   < String.length (replace_from ".jsonl" "_fixed.jsonl" 0 s))%nat.
Proof.
  induction s as [|c s IH]; intros H; [discriminate|].
  cbn [occurs] in H. cbn [replace_from].
  destruct (startswith (String c s) ".jsonl").
  - pose proof (replace_from_length s 5) as L. rewrite length_append.
    cbn [String.length Nat.sub] in *. lia.
  - cbn [orb] in H. specialize (IH H). cbn [String.length]. lia.
Qed.

Lemma replace_absent (s : string) :
  occurs ".jsonl" s = false ->
  replace_from ".jsonl" "_fixed.jsonl" 0 s = s.
Proof.
  induction s as [|c s IH]; intros H; [reflexivity|].
  cbn [occurs] in H. apply orb_false_iff in H. destruct H as [H1 H2].
  cbn [replace_from]. rewrite H1. now rewrite (IH H2).
Qed.

(** X25. Without an output name, [quick_fix_jsonl] writes over the file it
    has read exactly when the name of that file does not contain the
    extension [.jsonl]; otherwise the file written is another one. *)
Theorem output_is_input_iff (input_file : string) :
  output_path input_file None = input_file
  <-> occurs ".jsonl" input_file = false.
Proof.
  unfold output_path, replace. split.
  - intros E. destruct (occurs ".jsonl" input_file) eqn:O; [|reflexivity].
    apply replace_grows in O. rewrite E in O. lia.
  - apply replace_absent.
Qed.

(** X26. The repaired copy of a batch file is itself named as a batch
    file: for an input whose name ends in [.jsonl] the name of the file
    written ends in [.jsonl] too, which is how the merge scripts choose the
    files they read. *)
Theorem repaired_file_is_a_batch (input_file : string)
  (Hname : Py.endswith input_file ".jsonl" = true) :
  Py.endswith (output_path input_file None) ".jsonl" = true.
Proof.
  destruct (endswith_true input_file ".jsonl" Hname) as [pre ->].
  unfold output_path, replace. apply replace_from_keeps_extension. lia.
Qed.

End FixJsonlPaths.

Section FixJsonlPathExamples.

Import FixJsonl.
Open Scope string_scope.
Open Scope list_scope.

Lemma repaired_file_is_a_batch_witness :
  Py.endswith (output_path Samples.jsonl_file None) ".jsonl" = true.
Proof. apply (repaired_file_is_a_batch Samples.jsonl_file). reflexivity. Defined.

(** The last file the script is run on is named [.json]: the script writes
    over it. *)
Example json_file_is_overwritten :
  output_path Samples.json_file None = Samples.json_file.
Proof. reflexivity. Qed.

Example jsonl_file_is_copied :
  output_path Samples.jsonl_file None
  = "collected_data/data_youtube_id_8wlN5coe_20251029_234025_fixed.jsonl".
Proof. reflexivity. Qed.

End FixJsonlPathExamples.
